(** * Test-section orchestration of the ESP-IDF project tools

    A shallow embedding of the section registry and runner that the
    peripheral test harnesses share:

    - [Gpio]: [GpioComprehensiveTest] of [GpioComprehensiveTest.cpp], a
      [std::map] from section identifiers to sections, each with its ordered
      test callables, and the result list [all_results];
    - [Spi]: the Arduino runner of [main/SpiComprehensiveTest.cpp], whose
      [runTest] wraps every callable in [try]/[catch];
    - [Pwm]: the fixed result table of [PwmComprehensiveTest.cpp].

    Around them: [GpioCli], the section names and [main] of
    [GpioComprehensiveTest.cpp]; [SpiBus], the SPI test functions over the
    bus; [PwmLedc], the PWM test functions over the LEDC driver; and
    [PwmExamples], the examples of [PwmTestUsageExamples.cpp].

    Hardware, clocks and the bodies of test callables are the outside world:
    the runner is parametrised by a type of worlds, a callable is a function on
    worlds that returns or throws, and what the runner prints is a list of
    output records. *)

From Stdlib Require Import ZArith List String Bool Lia SpecFloat.
Import ListNotations.
Local Open Scope string_scope.
Local Open Scope Z_scope.

Set Implicit Arguments.

(** ** Machine numbers *)

Module Num.

(** [int]: 32 bits, two's complement. *)
Definition INT_MAX : Z := 2147483647.

Definition to_int (z : Z) : Z := (z + 2147483648) mod 4294967296 - 2147483648.

(** [x++] on an [int]. *)
Definition int_incr (x : Z) : Z := to_int (x + 1).

(** [unsigned long] of the 32-bit Arduino targets. *)
Definition to_ulong (z : Z) : Z := z mod 4294967296.

(** [double] is IEEE 754 binary64, [float] binary32. *)
Definition double := spec_float.
Definition float := spec_float.

Definition double_of_Z (z : Z) : double := binary_normalize 53 1024 z 0 false.
Definition double_mul : double -> double -> double := SFmul 53 1024.
Definition double_div : double -> double -> double := SFdiv 53 1024.
Definition double_add : double -> double -> double := SFadd 53 1024.
Definition double_zero : double := S754_zero false.

Definition float_of_Z (z : Z) : float := binary_normalize 24 128 z 0 false.
Definition float_mul : float -> float -> float := SFmul 24 128.
Definition float_div : float -> float -> float := SFdiv 24 128.

End Num.

(** ** What a call can do: return a value or let an exception escape *)

Inductive completion (A : Type) : Type :=
| Returned (a : A)
| Thrown.
Arguments Thrown {A}.

(** ** [std::map] keyed by an enumeration

    The entries in ascending key order, which is the order a range-for visits
    them. *)

Module StdMap.
Section Ops.
Context {V : Type}.

(** [m.find(k)], [None] for [m.end()]. *)
Fixpoint find (k : Z) (m : list (Z * V)) : option V :=
  match m with
  | [] => None
  | (k', v) :: m' => if k =? k' then Some v else find k m'
  end.

(** [m[k] = v]: replaces the mapped value, or inserts at the key's place. *)
Fixpoint assign (k : Z) (v : V) (m : list (Z * V)) : list (Z * V) :=
  match m with
  | [] => [(k, v)]
  | (k', v') :: m' =>
      if k <? k' then (k, v) :: (k', v') :: m'
      else if k =? k' then (k, v) :: m'
      else (k', v') :: assign k v m'
  end.

Definition keys (m : list (Z * V)) : list Z := map fst m.

(** A range-for that rewrites each mapped value in place. *)
Definition for_each (f : Z -> V -> V) (m : list (Z * V)) : list (Z * V) :=
  map (fun kv => (fst kv, f (fst kv) (snd kv))) m.
End Ops.
End StdMap.

(** ** Fixed arrays

    [a[i]] as an lvalue, for [i] inside the array; the callers keep [i] in range. *)
Definition at_index {A : Type} (i : Z) (f : A -> A) (a : list A) : list A :=
  if (0 <=? i) && (i <? Z.of_nat (List.length a))
  then firstn (Z.to_nat i) a ++
       match skipn (Z.to_nat i) a with
       | [] => []
       | x :: rest => f x :: rest
       end
  else a.

(** ** GpioComprehensiveTest.cpp *)

Module Gpio.
Import Num.

(** [enum class GpioTestSection]: the enumerators, and any other value of the
    underlying [int] that a cast can produce. *)
Definition GpioTestSection := Z.
Definition BASIC_GPIO_OPERATIONS : GpioTestSection := 0.
Definition GPIO_INTERRUPTS : GpioTestSection := 1.
Definition GPIO_PWM_FUNCTIONALITY : GpioTestSection := 2.
Definition GPIO_ANALOG_READS : GpioTestSection := 3.
Definition GPIO_STRESS_TESTING : GpioTestSection := 4.
Definition GPIO_EDGE_CASES : GpioTestSection := 5.
Definition ALL_SECTIONS : GpioTestSection := 6.

Record TestResult := mkTestResult {
  test_name : string;
  passed : bool;
  message : string;
  execution_time_ms : double
}.

Definition set_execution_time_ms (r : TestResult) (ms : double) : TestResult :=
  mkTestResult (test_name r) (passed r) (message r) ms.

Record TestConfig := mkTestConfig {
  verbose_output : bool;
  stop_on_failure : bool;
  generate_report : bool;
  report_filename : string;
  default_timeout_seconds : Z
}.

(** [TestConfig()] *)
Definition default_config : TestConfig :=
  mkTestConfig false false true "gpio_test_report.txt" 30.

(** The lines the runner writes to [std::cout], one record per line group. *)
Inductive Output :=
| SectionNotFound
| SectionDisabled (section_name : string)
| SectionBanner (section_name section_description : string)
| TestStarted (index total : Z)
| TestVerdict (ok : bool) (ms : double)
| TestMessage (msg : string)
| SectionSummary (section_name : string) (total n_passed n_failed : Z)
                 (success_rate : double)
| RunAllBanner
| OverallSummary (total n_passed n_failed : Z) (success_rate total_time : double).

(** [passed * 100.0 / n], with [passed] an [int] and [n] a count. *)
Definition success_rate (n_passed n : Z) : double :=
  double_div (double_mul (double_of_Z n_passed) (double_of_Z 100)) (double_of_Z n).

Section Runner.
(** Everything outside the test object, the clock included. *)
Variable World : Type.
Variable time_point : Type.
(** [std::chrono::high_resolution_clock::now()] *)
Variable now : World -> time_point * World.
(** [duration<double, std::milli>(end_time - start_time).count()] *)
Variable duration_ms : time_point -> time_point -> double.

(** [std::function<TestResult()>] *)
Definition TestFn := World -> completion TestResult * World.

Record TestSection := mkTestSection {
  name : string;
  description : string;
  tests : list TestFn;
  enabled : bool;
  timeout_seconds : Z
}.

Definition set_tests (s : TestSection) (ts : list TestFn) : TestSection :=
  mkTestSection (name s) (description s) ts (enabled s) (timeout_seconds s).
Definition set_enabled (s : TestSection) (en : bool) : TestSection :=
  mkTestSection (name s) (description s) (tests s) en (timeout_seconds s).
Definition set_timeout_seconds (s : TestSection) (t : Z) : TestSection :=
  mkTestSection (name s) (description s) (tests s) (enabled s) t.

Record GpioComprehensiveTest := mkGpio {
  test_sections : list (GpioTestSection * TestSection);
  all_results : list TestResult;
  config : TestConfig
}.

Definition set_test_sections (g : GpioComprehensiveTest) m :=
  mkGpio m (all_results g) (config g).
Definition set_all_results (g : GpioComprehensiveTest) rs :=
  mkGpio (test_sections g) rs (config g).

(** The object, the world around it and what has been printed so far. *)
Record State := mkState {
  self : GpioComprehensiveTest;
  world : World;
  console : list Output
}.

Definition print (o : Output) (st : State) : State :=
  mkState (self st) (world st) (console st ++ [o]).

(** *** Running one section *)

(** The locals of [runSection]. *)
Record Locals := mkLocals {
  section_results : list TestResult;
  n_passed : Z;
  n_failed : Z
}.

(** The [for] loop of [runSection], at index [i] with [ts] still to run. *)
Fixpoint run_tests (total i : Z) (ts : list TestFn) (loc : Locals) (st : State)
  : completion Locals * State :=
  match ts with
  | [] => (Returned loc, st)
  | test :: ts' =>
      let st := print (TestStarted (i + 1) total) st in
      let (start_time, w1) := now (world st) in
      match test w1 with
      | (Thrown, w2) => (Thrown, mkState (self st) w2 (console st))
      | (Returned result, w2) =>
          let (end_time, w3) := now w2 in
          let result := set_execution_time_ms result (duration_ms start_time end_time) in
          let loc :=
            if passed result
            then mkLocals (section_results loc) (int_incr (n_passed loc)) (n_failed loc)
            else mkLocals (section_results loc) (n_passed loc) (int_incr (n_failed loc)) in
          let st := mkState (self st) w3 (console st) in
          let st := print (TestVerdict (passed result) (execution_time_ms result)) st in
          let st := if (message result =? "")%string then st
                    else print (TestMessage (message result)) st in
          let loc := mkLocals (section_results loc ++ [result]) (n_passed loc) (n_failed loc) in
          let st := mkState (set_all_results (self st) (all_results (self st) ++ [result]))
                            (world st) (console st) in
          run_tests total (i + 1) ts' loc st
      end
  end.

Definition runSection (section : GpioTestSection) (st : State)
  : completion unit * State :=
  match StdMap.find section (test_sections (self st)) with
  | None => (Returned tt, print SectionNotFound st)
  | Some test_section =>
      if negb (enabled test_section)
      then (Returned tt, print (SectionDisabled (name test_section)) st)
      else
        let st := print (SectionBanner (name test_section) (description test_section)) st in
        let total := Z.of_nat (List.length (tests test_section)) in
        match run_tests total 0 (tests test_section) (mkLocals [] 0 0) st with
        | (Thrown, st) => (Thrown, st)
        | (Returned loc, st) =>
            (Returned tt,
             print (SectionSummary (name test_section) total (n_passed loc) (n_failed loc)
                      (success_rate (n_passed loc) total)) st)
        end
  end.

(** *** Statistics over [all_results] *)

Definition getTotalTestCount (g : GpioComprehensiveTest) : Z :=
  to_int (Z.of_nat (List.length (all_results g))).

Definition getPassedTestCount (g : GpioComprehensiveTest) : Z :=
  fold_left (fun n r => if passed r then int_incr n else n) (all_results g) 0.

Definition getFailedTestCount (g : GpioComprehensiveTest) : Z :=
  fold_left (fun n r => if negb (passed r) then int_incr n else n) (all_results g) 0.

Definition getTotalExecutionTime (g : GpioComprehensiveTest) : double :=
  fold_left (fun t r => double_add t (execution_time_ms r)) (all_results g) double_zero.

Definition getAverageExecutionTime (g : GpioComprehensiveTest) : double :=
  match all_results g with
  | [] => double_zero
  | _ => double_div (getTotalExecutionTime g)
                    (double_of_Z (Z.of_nat (List.length (all_results g))))
  end.

Definition hasFailures (g : GpioComprehensiveTest) : bool :=
  existsb (fun r => negb (passed r)) (all_results g).

Definition getResults (g : GpioComprehensiveTest) : list TestResult := all_results g.

Definition printOverallSummary (st : State) : State :=
  let total_tests := to_int (Z.of_nat (List.length (all_results (self st)))) in
  let '(n_pass, n_fail, total_time) :=
    fold_left
      (fun '(p, f, t) r =>
         if passed r then (int_incr p, f, double_add t (execution_time_ms r))
         else (p, int_incr f, double_add t (execution_time_ms r)))
      (all_results (self st)) (0, 0, double_zero) in
  print (OverallSummary total_tests n_pass n_fail
           (success_rate n_pass total_tests) total_time) st.

(** *** Running several sections *)

(** The range-for of [runAllSections] over the map's entries. *)
Fixpoint runAll_loop (entries : list (GpioTestSection * TestSection)) (st : State)
  : completion unit * State :=
  match entries with
  | [] => (Returned tt, st)
  | (section, _) :: rest =>
      if negb (section =? ALL_SECTIONS) then
        match runSection section st with
        | (Thrown, st) => (Thrown, st)
        | (Returned _, st) => runAll_loop rest st
        end
      else runAll_loop rest st
  end.

Definition runAllSections (st : State) : completion unit * State :=
  let st := print RunAllBanner st in
  match runAll_loop (test_sections (self st)) st with
  | (Thrown, st) => (Thrown, st)
  | (Returned _, st) => (Returned tt, printOverallSummary st)
  end.

Fixpoint runSelectedSections (sections : list GpioTestSection) (st : State)
  : completion unit * State :=
  match sections with
  | [] => (Returned tt, st)
  | section :: rest =>
      match runSection section st with
      | (Thrown, st) => (Thrown, st)
      | (Returned _, st) => runSelectedSections rest st
      end
  end.

(** *** Configuration *)

Definition enableSection (section : GpioTestSection) (enable : bool)
           (g : GpioComprehensiveTest) : GpioComprehensiveTest :=
  match StdMap.find section (test_sections g) with
  | Some s => set_test_sections g (StdMap.assign section (set_enabled s enable) (test_sections g))
  | None => g
  end.

Definition enableAllSections (g : GpioComprehensiveTest) : GpioComprehensiveTest :=
  set_test_sections g
    (StdMap.for_each
       (fun section s => if negb (section =? ALL_SECTIONS) then set_enabled s true else s)
       (test_sections g)).

Definition disableAllSections (g : GpioComprehensiveTest) : GpioComprehensiveTest :=
  set_test_sections g
    (StdMap.for_each
       (fun section s => if negb (section =? ALL_SECTIONS) then set_enabled s false else s)
       (test_sections g)).

Definition isSectionEnabled (section : GpioTestSection) (g : GpioComprehensiveTest) : bool :=
  match StdMap.find section (test_sections g) with
  | Some s => enabled s
  | None => false
  end.

Definition getSectionTestCount (section : GpioTestSection) (g : GpioComprehensiveTest) : Z :=
  match StdMap.find section (test_sections g) with
  | Some s => to_int (Z.of_nat (List.length (tests s)))
  | None => 0
  end.

Definition getEnabledSections (g : GpioComprehensiveTest) : list GpioTestSection :=
  map fst
    (filter (fun kv => negb (fst kv =? ALL_SECTIONS) && enabled (snd kv))
            (test_sections g)).

Definition setSectionTimeout (section : GpioTestSection) (timeout : Z)
           (g : GpioComprehensiveTest) : GpioComprehensiveTest :=
  match StdMap.find section (test_sections g) with
  | Some s =>
      set_test_sections g
        (StdMap.assign section (set_timeout_seconds s timeout) (test_sections g))
  | None => g
  end.

Definition setConfig (cfg : TestConfig) (g : GpioComprehensiveTest) : GpioComprehensiveTest :=
  mkGpio (test_sections g) (all_results g) cfg.

Definition clearResults (g : GpioComprehensiveTest) : GpioComprehensiveTest :=
  set_all_results g [].

(** *** The placeholder tests and the constructor *)

Definition placeholder (test : string) : TestFn :=
  fun w => (Returned (mkTestResult test true "Test passed successfully" double_zero), w).

Definition testGpioPinConfiguration := placeholder "GPIO Pin Configuration".
Definition testGpioDigitalWrite := placeholder "GPIO Digital Write".
Definition testGpioDigitalRead := placeholder "GPIO Digital Read".
Definition testGpioPinMode := placeholder "GPIO Pin Mode".
Definition testGpioPullUpPullDown := placeholder "GPIO Pull-up/Pull-down".
Definition testGpioRisingEdgeInterrupt := placeholder "GPIO Rising Edge Interrupt".
Definition testGpioFallingEdgeInterrupt := placeholder "GPIO Falling Edge Interrupt".
Definition testGpioBothEdgeInterrupt := placeholder "GPIO Both Edge Interrupt".
Definition testGpioInterruptDebouncing := placeholder "GPIO Interrupt Debouncing".
Definition testGpioInterruptPriority := placeholder "GPIO Interrupt Priority".
Definition testGpioPwmFrequency := placeholder "GPIO PWM Frequency".
Definition testGpioPwmDutyCycle := placeholder "GPIO PWM Duty Cycle".
Definition testGpioPwmResolution := placeholder "GPIO PWM Resolution".
Definition testGpioPwmStability := placeholder "GPIO PWM Stability".
Definition testGpioAdcResolution := placeholder "GPIO ADC Resolution".
Definition testGpioAdcAccuracy := placeholder "GPIO ADC Accuracy".
Definition testGpioAdcLinearity := placeholder "GPIO ADC Linearity".
Definition testGpioAdcNoise := placeholder "GPIO ADC Noise".
Definition testGpioHighFrequencyToggle := placeholder "GPIO High Frequency Toggle".
Definition testGpioLoadHandling := placeholder "GPIO Load Handling".
Definition testGpioTemperatureStability := placeholder "GPIO Temperature Stability".
Definition testGpioLongTermReliability := placeholder "GPIO Long-term Reliability".
Definition testGpioInvalidPinNumbers := placeholder "GPIO Invalid Pin Numbers".
Definition testGpioInvalidConfigurations := placeholder "GPIO Invalid Configurations".
Definition testGpioBoundaryValues := placeholder "GPIO Boundary Values".
Definition testGpioErrorRecovery := placeholder "GPIO Error Recovery".

(** [test_sections[k].tests = {...}] for a key the map holds. *)
Definition populate (k : GpioTestSection) (ts : list TestFn)
           (m : list (GpioTestSection * TestSection)) :=
  match StdMap.find k m with
  | Some s => StdMap.assign k (set_tests s ts) m
  | None => m
  end.

Definition populateTestSections (m : list (GpioTestSection * TestSection)) :=
  let m := populate BASIC_GPIO_OPERATIONS
             [testGpioPinConfiguration; testGpioDigitalWrite; testGpioDigitalRead;
              testGpioPinMode; testGpioPullUpPullDown] m in
  let m := populate GPIO_INTERRUPTS
             [testGpioRisingEdgeInterrupt; testGpioFallingEdgeInterrupt;
              testGpioBothEdgeInterrupt; testGpioInterruptDebouncing;
              testGpioInterruptPriority] m in
  let m := populate GPIO_PWM_FUNCTIONALITY
             [testGpioPwmFrequency; testGpioPwmDutyCycle; testGpioPwmResolution;
              testGpioPwmStability] m in
  let m := populate GPIO_ANALOG_READS
             [testGpioAdcResolution; testGpioAdcAccuracy; testGpioAdcLinearity;
              testGpioAdcNoise] m in
  let m := populate GPIO_STRESS_TESTING
             [testGpioHighFrequencyToggle; testGpioLoadHandling;
              testGpioTemperatureStability; testGpioLongTermReliability] m in
  populate GPIO_EDGE_CASES
    [testGpioInvalidPinNumbers; testGpioInvalidConfigurations; testGpioBoundaryValues;
     testGpioErrorRecovery] m.

Definition initializeTestSections : list (GpioTestSection * TestSection) :=
  let m := StdMap.assign BASIC_GPIO_OPERATIONS
             (mkTestSection "Basic GPIO Operations"
                "Tests basic GPIO functionality including pin configuration, read/write operations"
                [] true 25) [] in
  let m := StdMap.assign GPIO_INTERRUPTS
             (mkTestSection "GPIO Interrupts"
                "Tests GPIO interrupt functionality, edge detection, and interrupt handling"
                [] true 35) m in
  let m := StdMap.assign GPIO_PWM_FUNCTIONALITY
             (mkTestSection "GPIO PWM Functionality"
                "Tests PWM generation, frequency control, and duty cycle accuracy"
                [] true 40) m in
  let m := StdMap.assign GPIO_ANALOG_READS
             (mkTestSection "GPIO Analog Reads"
                "Tests analog input functionality, ADC accuracy, and voltage measurement"
                [] true 30) m in
  let m := StdMap.assign GPIO_STRESS_TESTING
             (mkTestSection "GPIO Stress Testing"
                "Tests GPIO reliability under high-frequency operations and load conditions"
                [] true 120) m in
  let m := StdMap.assign GPIO_EDGE_CASES
             (mkTestSection "GPIO Edge Cases"
                "Tests boundary conditions, error handling, and unusual configurations"
                [] true 20) m in
  let m := StdMap.assign ALL_SECTIONS
             (mkTestSection "All GPIO Tests"
                "Runs all GPIO test sections in sequence"
                [] true 0) m in
  populateTestSections m.

(** [GpioComprehensiveTest(cfg)] and [GpioComprehensiveTest()] *)
Definition construct (cfg : TestConfig) : GpioComprehensiveTest :=
  mkGpio initializeTestSections [] cfg.
Definition construct_default : GpioComprehensiveTest := construct default_config.

(** *** Vocabulary of the specification

    [runSection] returns nothing: the outcomes of a call are what it appends
    to [all_results]. *)
Definition new_outcomes (before after : State) : list TestResult :=
  skipn (List.length (all_results (self before))) (all_results (self after)).

(** A callable that returns, whatever the world it is called in. *)
Definition returns (test : TestFn) : Prop :=
  forall w, exists result w', test w = (Returned result, w').

(** "Each case is invoked once, in the order the cases were added, and
    outcome [i] is what case [i] returned, with the time the runner
    measured": the cases [ts] run from world [w] give the outcomes [rs] and
    leave the world [w']. *)
Inductive invoked_in_order : World -> list TestFn -> list TestResult -> World -> Prop :=
| invoked_none (w : World) : invoked_in_order w [] [] w
| invoked_next (w w1 w2 w3 w4 : World) (start_time end_time : time_point)
               (test : TestFn) (ts : list TestFn)
               (result : TestResult) (rs : list TestResult) :
    now w = (start_time, w1) ->
    test w1 = (Returned result, w2) ->
    now w2 = (end_time, w3) ->
    invoked_in_order w3 ts rs w4 ->
    invoked_in_order w (test :: ts)
      (set_execution_time_ms result (duration_ms start_time end_time) :: rs) w4.

(** The cases a selection of [section] gets to run: those of a registered,
    enabled section. *)
Definition selected_cases (g : GpioComprehensiveTest) (section : GpioTestSection)
  : list TestFn :=
  match StdMap.find section (test_sections g) with
  | Some s => if enabled s then tests s else []
  | None => []
  end.

(** The identifiers a sweep over the map gets to: every key but
    [ALL_SECTIONS], in key order. *)
Definition swept_sections (g : GpioComprehensiveTest) : list GpioTestSection :=
  filter (fun section => negb (section =? ALL_SECTIONS)) (StdMap.keys (test_sections g)).

(** [st] with the map of sections replaced by [m]. *)
Definition reseat (m : list (GpioTestSection * TestSection)) (st : State) : State :=
  mkState (set_test_sections (self st) m) (world st) (console st).

End Runner.
End Gpio.

(** ** main/SpiComprehensiveTest.cpp *)

Module Spi.
Import Num.

Record TestResult := mkTestResult {
  passed : bool;
  message : string;
  duration : Z
}.

Record SectionResult := mkSectionResult {
  sectionName : string;
  totalTests : Z;
  passedTests : Z;
  failedTests : Z;
  totalDuration : Z;
  (** [TestResult* results], [None] for [nullptr] *)
  results : option (list TestResult)
}.

(** [enum TestSection] *)
Definition SECTION_INITIALIZATION : Z := 0.
Definition SECTION_BASIC_OPERATIONS : Z := 1.
Definition SECTION_TRANSFER_MODES : Z := 2.
Definition SECTION_CLOCK_SPEEDS : Z := 3.
Definition SECTION_ERROR_HANDLING : Z := 4.
Definition SECTION_PERFORMANCE : Z := 5.
Definition SECTION_STRESS_TESTING : Z := 6.
Definition TOTAL_SECTIONS : Z := 7.

Definition SECTION_NAMES : list string :=
  ["Initialization"; "Basic Operations"; "Transfer Modes"; "Clock Speeds";
   "Error Handling"; "Performance"; "Stress Testing"].

(** What goes to [Serial]. *)
Inductive Output :=
| TestLine (testName msg : string) (micros_taken : Z)
| InvalidSection
| InvalidSectionIndex (sectionIndex : Z)
| SectionBanner (section_name : string)
| SectionReport (section_name : string) (total n_passed n_failed : Z)
                (success_rate : float) (total_duration : Z) (average : float)
| RunAllBanner
| OverallReport (total n_passed n_failed : Z)
                (success_rate : float) (total_duration : Z) (average : float).

(** [(float)passed / total * 100] *)
Definition success_rate (n_passed total : Z) : float :=
  float_mul (float_div (float_of_Z n_passed) (float_of_Z total)) (float_of_Z 100).

(** [(float)totalDuration / total] *)
Definition average_duration (total_duration total : Z) : float :=
  float_div (float_of_Z total_duration) (float_of_Z total).

Section Runner.
(** The SPI peripheral, the flag [spiInitialized] and the microsecond clock. *)
Variable World : Type.
(** [micros()] *)
Variable micros : World -> Z * World.

(** The [testFunc] argument of [runTest]: a pointer to a function returning
    [bool]. *)
Definition TestFunc := World -> completion bool * World.

Variables testSpiBegin testSpiEnd testSpiTransfer testSpiTransfer16
          testSpiTransfer32 testSpiTransferBuffer testSpiClockSpeed testSpiMode
          testSpiBitOrder testSpiErrorHandling testSpiPerformance testSpiStress
  : TestFunc.

(** The globals after [setup()]: the array [sectionResults], the world and
    the serial output. *)
Record State := mkState {
  sectionResults : list SectionResult;
  world : World;
  serial : list Output
}.

Definition print (o : Output) (st : State) : State :=
  mkState (sectionResults st) (world st) (serial st ++ [o]).

(** [setup()] allocates the array and clears every [results] pointer. *)
Definition setup (w : World) : State :=
  mkState (repeat (mkSectionResult "" 0 0 0 0 None) (Z.to_nat TOTAL_SECTIONS)) w [].

Definition runTest (testFunc : TestFunc) (testName : string) (st : State)
  : TestResult * State :=
  let (startTime, w1) := micros (world st) in
  let '(result_passed, result_message, w2) :=
    match testFunc w1 with
    | (Returned true, w2) => (true, "PASSED", w2)
    | (Returned false, w2) => (false, "FAILED", w2)
    | (Thrown, w2) => (false, "ERROR", w2)
    end in
  let (endTime, w3) := micros w2 in
  let result := mkTestResult result_passed result_message (to_ulong (endTime - startTime)) in
  (result,
   print (TestLine testName (message result) (duration result))
         (mkState (sectionResults st) w3 (serial st))).

(** The arms of the [switch] in [runSection]: whether [testSpiBegin()] is
    called first, outside [runTest], and the [runTest] calls in order. *)
Definition section_tests (section : Z) : option (bool * list (TestFunc * string)) :=
  if section =? SECTION_INITIALIZATION then
    Some (false, [(testSpiBegin, "SPI Begin"); (testSpiEnd, "SPI End")])
  else if section =? SECTION_BASIC_OPERATIONS then
    Some (true, [(testSpiTransfer, "Single Byte Transfer");
                 (testSpiTransfer16, "16-bit Transfer");
                 (testSpiTransfer32, "32-bit Transfer");
                 (testSpiTransferBuffer, "Buffer Transfer")])
  else if section =? SECTION_TRANSFER_MODES then
    Some (true, [(testSpiMode, "SPI Mode Testing");
                 (testSpiBitOrder, "Bit Order Testing");
                 (testSpiClockSpeed, "Clock Speed Testing")])
  else if section =? SECTION_CLOCK_SPEEDS then
    Some (true, [(testSpiClockSpeed, "Clock Speed Variations")])
  else if section =? SECTION_ERROR_HANDLING then
    Some (true, [(testSpiErrorHandling, "Error Handling")])
  else if section =? SECTION_PERFORMANCE then
    Some (true, [(testSpiPerformance, "Performance Benchmark")])
  else if section =? SECTION_STRESS_TESTING then
    Some (true, [(testSpiStress, "Stress Testing")])
  else None.

(** [results[0] = runTest(...); results[1] = runTest(...); ...] *)
Fixpoint run_in_order (cases : list (TestFunc * string)) (st : State)
  : list TestResult * State :=
  match cases with
  | [] => ([], st)
  | (f, testName) :: rest =>
      let (r, st1) := runTest f testName st in
      let (rs, st2) := run_in_order rest st1 in
      (r :: rs, st2)
  end.

(** The statistics loop over [results[0 .. totalTests)]. *)
Definition tally (sr : SectionResult) (rs : list TestResult) : SectionResult :=
  fold_left
    (fun acc r =>
       mkSectionResult (sectionName acc) (totalTests acc)
         (if passed r then int_incr (passedTests acc) else passedTests acc)
         (if passed r then failedTests acc else int_incr (failedTests acc))
         (to_ulong (totalDuration acc + duration r))
         (results acc))
    rs sr.

Definition printSectionResults (sr : SectionResult) (st : State) : State :=
  print (SectionReport (sectionName sr) (totalTests sr) (passedTests sr) (failedTests sr)
           (success_rate (passedTests sr) (totalTests sr))
           (totalDuration sr)
           (average_duration (totalDuration sr) (totalTests sr))) st.

Definition set_section (section : Z) (f : SectionResult -> SectionResult) (st : State) :=
  mkState (at_index section f (sectionResults st)) (world st) (serial st).

Definition runSection (section : Z) (st : State) : completion unit * State :=
  if section >=? TOTAL_SECTIONS then (Returned tt, print InvalidSection st)
  else
    let section_name := nth (Z.to_nat section) SECTION_NAMES "" in
    let st := print (SectionBanner section_name) st in
    let st := set_section section
                (fun sr => mkSectionResult section_name 0 0 0 0 (results sr)) st in
    let body :=
      match section_tests section with
      | None => (Returned [], st)
      | Some (begin_first, cases) =>
          let st := set_section section
                      (fun sr => mkSectionResult (sectionName sr)
                                   (Z.of_nat (List.length cases)) (passedTests sr)
                                   (failedTests sr) (totalDuration sr)
                                   (Some (repeat (mkTestResult false "" 0) (List.length cases))))
                      st in
          let started :=
            if begin_first then
              match testSpiBegin (world st) with
              | (Thrown, w) => (Thrown, mkState (sectionResults st) w (serial st))
              | (Returned _, w) => (Returned tt, mkState (sectionResults st) w (serial st))
              end
            else (Returned tt, st) in
          match started with
          | (Thrown, st) => (Thrown, st)
          | (Returned _, st) =>
              let (rs, st) := run_in_order cases st in
              (Returned rs,
               set_section section
                 (fun sr => mkSectionResult (sectionName sr) (totalTests sr) (passedTests sr)
                              (failedTests sr) (totalDuration sr) (Some rs)) st)
          end
      end in
    match body with
    | (Thrown, st) => (Thrown, st)
    | (Returned rs, st) =>
        let st := set_section section (fun sr => tally sr rs) st in
        match nth_error (sectionResults st) (Z.to_nat section) with
        | Some sr => (Returned tt, printSectionResults sr st)
        | None => (Returned tt, st)
        end
    end.

Definition printOverallResults (st : State) : State :=
  let '(totalTests_, totalPassed, totalFailed, totalDuration_) :=
    fold_left
      (fun '(t, p, f, d) sr =>
         match results sr with
         | Some _ => (to_int (t + totalTests sr), to_int (p + passedTests sr),
                      to_int (f + failedTests sr), to_ulong (d + totalDuration sr))
         | None => (t, p, f, d)
         end)
      (firstn (Z.to_nat TOTAL_SECTIONS) (sectionResults st)) (0, 0, 0, 0) in
  print (OverallReport totalTests_ totalPassed totalFailed
           (success_rate totalPassed totalTests_) totalDuration_
           (average_duration totalDuration_ totalTests_)) st.

Fixpoint run_sections (sections : list Z) (st : State) : completion unit * State :=
  match sections with
  | [] => (Returned tt, st)
  | i :: rest =>
      match runSection i st with
      | (Thrown, st) => (Thrown, st)
      | (Returned _, st) => run_sections rest st
      end
  end.

Definition runAllSections (st : State) : completion unit * State :=
  let st := print RunAllBanner st in
  match run_sections [0; 1; 2; 3; 4; 5; 6] st with
  | (Thrown, st) => (Thrown, st)
  | (Returned _, st) => (Returned tt, printOverallResults st)
  end.

Definition runSpecificSection (sectionIndex : Z) (st : State) : completion unit * State :=
  if (sectionIndex <? 0) || (sectionIndex >=? TOTAL_SECTIONS)
  then (Returned tt, print (InvalidSectionIndex sectionIndex) st)
  else runSection sectionIndex st.

(** A callable that throws, whatever the world it is called in. *)
Definition throws (testFunc : TestFunc) : Prop :=
  forall w, exists w', testFunc w = (Thrown, w').

End Runner.
End Spi.

(** ** PwmComprehensiveTest.cpp *)

Module Pwm.
Import Num.

Record TestResult := mkTestResult {
  passed : bool;
  test_name : string;
  (** [const char*], [None] for [nullptr] *)
  error_message : option string;
  execution_time_ms : Z
}.

(** [enum TestSection] and [enum TestGroup] *)
Definition SECTION_BASIC_PWM : Z := 0.
Definition SECTION_FREQUENCY_TESTS : Z := 1.
Definition SECTION_DUTY_CYCLE_TESTS : Z := 2.
Definition SECTION_PIN_TESTS : Z := 3.
Definition SECTION_PERFORMANCE_TESTS : Z := 4.
Definition SECTION_ERROR_HANDLING : Z := 5.
Definition SECTION_STRESS_TESTS : Z := 6.
Definition SECTION_MAX : Z := 7.

Definition GROUP_INITIALIZATION : Z := 0.
Definition GROUP_FUNCTIONALITY : Z := 1.
Definition GROUP_VALIDATION : Z := 2.
Definition GROUP_CLEANUP : Z := 3.
Definition GROUP_MAX : Z := 4.

Inductive Output :=
| Starting
| Skipping (what : string)
| SectionHeader (section_name : string)
| GroupHeader (group_name : string)
| ResultLine (r : TestResult)
| Summary (total n_passed n_failed : Z) (success_rate : option float).

Section Runner.
(** The LEDC peripheral and the flag [pwm_initialized]. *)
Variable World : Type.
Variables test_pwm_initialization test_pwm_frequency_setting
          test_pwm_duty_cycle_setting test_pwm_output_validation test_pwm_cleanup
  : World -> bool * World.

(** The file's static state. *)
Record State := mkState {
  test_section_enabled : list bool;
  test_group_enabled : list bool;
  test_results : list TestResult;
  test_result_count : Z;
  world : World;
  serial : list Output
}.

Definition initial (w : World) : State :=
  mkState (repeat true (Z.to_nat SECTION_MAX)) (repeat true (Z.to_nat GROUP_MAX))
          (repeat (mkTestResult false "" None 0) 100) 0 w [].

Definition print (o : Output) (st : State) : State :=
  mkState (test_section_enabled st) (test_group_enabled st) (test_results st)
          (test_result_count st) (world st) (serial st ++ [o]).

Definition flag (flags : list bool) (i : Z) : bool := nth (Z.to_nat i) flags false.

(** [test_results[test_result_count++] = result; print_test_result(result);]
    The table has 100 entries; a full run stores 23. *)
Definition record (result : TestResult) (st : State) : State :=
  print (ResultLine result)
    (mkState (test_section_enabled st) (test_group_enabled st)
             (at_index (test_result_count st) (fun _ => result) (test_results st))
             (int_incr (test_result_count st)) (world st) (serial st)).

(** One measured test of [run_basic_pwm_tests]. *)
Definition run_one (test : string) (f : World -> bool * World) (failure : string)
           (ms : Z) (st : State) : State :=
  let (ok, w) := f (world st) in
  let st := mkState (test_section_enabled st) (test_group_enabled st) (test_results st)
                    (test_result_count st) w (serial st) in
  record (mkTestResult ok test (if ok then None else Some failure) ms) st.

Definition run_basic_pwm_tests (st : State) : State :=
  if negb (flag (test_section_enabled st) SECTION_BASIC_PWM)
  then print (Skipping "Basic PWM tests") st
  else
    let st := print (SectionHeader "Basic PWM Tests") st in
    let st :=
      if flag (test_group_enabled st) GROUP_INITIALIZATION then
        run_one "PWM Timer Configuration" test_pwm_initialization
                "Failed to configure PWM timer" 100
                (print (GroupHeader "Initialization Tests") st)
      else st in
    let st :=
      if flag (test_group_enabled st) GROUP_FUNCTIONALITY then
        run_one "PWM Duty Cycle Setting" test_pwm_duty_cycle_setting
                "Failed to set PWM duty cycle" 120
                (run_one "PWM Frequency Setting" test_pwm_frequency_setting
                         "Failed to set PWM frequency" 150
                         (print (GroupHeader "Functionality Tests") st))
      else st in
    let st :=
      if flag (test_group_enabled st) GROUP_VALIDATION then
        run_one "PWM Output Validation" test_pwm_output_validation
                "PWM output validation failed" 200
                (print (GroupHeader "Validation Tests") st)
      else st in
    if flag (test_group_enabled st) GROUP_CLEANUP then
      run_one "PWM Cleanup" test_pwm_cleanup "Failed to cleanup PWM" 80
              (print (GroupHeader "Cleanup Tests") st)
    else st.

(** The placeholder loops: [n] passing results named [test]. *)
Fixpoint record_passing (n : nat) (test : string) (ms : Z) (st : State) : State :=
  match n with
  | O => st
  | S n' => record_passing n' test ms (record (mkTestResult true test None ms) st)
  end.

Definition placeholder_section (section : Z) (skipped header : string) (n : nat)
           (test : string) (ms : Z) (st : State) : State :=
  if negb (flag (test_section_enabled st) section)
  then print (Skipping skipped) st
  else record_passing n test ms (print (SectionHeader header) st).

Definition run_frequency_tests :=
  placeholder_section SECTION_FREQUENCY_TESTS "Frequency tests" "Frequency Tests"
                      5 "Frequency Test" 50.
Definition run_duty_cycle_tests :=
  placeholder_section SECTION_DUTY_CYCLE_TESTS "Duty Cycle tests" "Duty Cycle Tests"
                      5 "Duty Cycle Test" 50.
Definition run_pin_tests :=
  placeholder_section SECTION_PIN_TESTS "Pin tests" "Pin Tests" 5 "Pin Test" 50.
Definition run_performance_tests :=
  placeholder_section SECTION_PERFORMANCE_TESTS "Performance tests" "Performance Tests"
                      1 "High Frequency Switching" 1000.
Definition run_error_handling_tests :=
  placeholder_section SECTION_ERROR_HANDLING "Error Handling tests" "Error Handling Tests"
                      1 "Invalid Frequency Test" 50.
Definition run_stress_tests :=
  placeholder_section SECTION_STRESS_TESTS "Stress tests" "Stress Tests"
                      1 "Continuous Operation" 5000.

Definition print_test_summary (st : State) : State :=
  let counted := firstn (Z.to_nat (test_result_count st)) (test_results st) in
  let n_passed := fold_left (fun n r => if passed r then int_incr n else n) counted 0 in
  let n_failed := fold_left (fun n r => if passed r then n else int_incr n) counted 0 in
  print (Summary (test_result_count st) n_passed n_failed
           (if test_result_count st >? 0
            then Some (float_mul (float_div (float_of_Z n_passed)
                                            (float_of_Z (test_result_count st)))
                                 (float_of_Z 100))
            else None)) st.

Definition run_pwm_comprehensive_tests (st : State) : State :=
  let st := print Starting st in
  (* Reset test results *)
  let st := mkState (test_section_enabled st) (test_group_enabled st) (test_results st)
                    0 (world st) (serial st) in
  let st := run_basic_pwm_tests st in
  let st := run_frequency_tests st in
  let st := run_duty_cycle_tests st in
  let st := run_pin_tests st in
  let st := run_performance_tests st in
  let st := run_error_handling_tests st in
  let st := run_stress_tests st in
  print_test_summary st.

Definition set_section_flags (flags : list bool) (st : State) : State :=
  mkState flags (test_group_enabled st) (test_results st)
          (test_result_count st) (world st) (serial st).

Definition enable_test_section (section : Z) (enable : bool) (st : State) : State :=
  if (section >=? 0) && (section <? SECTION_MAX)
  then set_section_flags (at_index section (fun _ => enable) (test_section_enabled st)) st
  else st.

Definition enable_test_group (group : Z) (enable : bool) (st : State) : State :=
  if (group >=? 0) && (group <? GROUP_MAX)
  then mkState (test_section_enabled st)
               (at_index group (fun _ => enable) (test_group_enabled st))
               (test_results st) (test_result_count st) (world st) (serial st)
  else st.

Definition run_specific_test_sections (sections : list Z) (st : State) : State :=
  let st := set_section_flags (map (fun _ => false) (test_section_enabled st)) st in
  let st := fold_left (fun st section => enable_test_section section true st) sections st in
  run_pwm_comprehensive_tests st.

End Runner.
End Pwm.

(** ** A simulated host

    A world that is a counter of clock ticks, one tick per reading and one
    millisecond per tick; the concrete objects of the examples live here. *)

Module Sim.
Import Num.

Definition World := Z.
Definition now (w : World) : Z * World := (w, w + 1).
Definition duration_ms (start_time end_time : Z) : double := double_of_Z (end_time - start_time).
Definition micros (w : World) : Z * World := (1000 * w, w + 1).

(** A freshly constructed GPIO test object at tick 0, nothing printed yet. *)
Definition gpio : Gpio.State World :=
  Gpio.mkState (Gpio.construct_default World) 0 [].

(** Callables that pass, report failure, and throw. *)
Definition passing : Gpio.TestFn World :=
  fun w => (Returned (Gpio.mkTestResult "ok" true "" double_zero), w + 5).
Definition failing : Gpio.TestFn World :=
  fun w => (Returned (Gpio.mkTestResult "boom" false "boom" double_zero), w + 2).
Definition throwing : Gpio.TestFn World :=
  fun w => (Thrown, w + 1).

(** A registry of one enabled section under [BASIC_GPIO_OPERATIONS]. *)
Definition one_section (cases : list (Gpio.TestFn World)) : Gpio.State World :=
  Gpio.mkState
    (Gpio.mkGpio
       [(Gpio.BASIC_GPIO_OPERATIONS, Gpio.mkTestSection "Basic" "one section" cases true 25)]
       [] Gpio.default_config)
    0 [].

(** The fresh object after [enableSection(BASIC_GPIO_OPERATIONS, false)]. *)
Definition gpio_basic_disabled : Gpio.State World :=
  Gpio.mkState (Gpio.enableSection Gpio.BASIC_GPIO_OPERATIONS false
                  (Gpio.construct_default World)) 0 [].

(** The fresh object after [disableAllSections()]. *)
Definition gpio_all_disabled : Gpio.State World :=
  Gpio.mkState (Gpio.disableAllSections (Gpio.construct_default World)) 0 [].

(** A section whose second case throws. *)
Definition gpio_faulty : Gpio.State World := one_section [passing; throwing; failing].

(** The map of the fresh object, with a failing case stored under
    [ALL_SECTIONS]. *)
Definition sections_with_cases_under_ALL
  : list (Gpio.GpioTestSection * Gpio.TestSection World) :=
  StdMap.assign Gpio.ALL_SECTIONS
    (Gpio.mkTestSection "All GPIO Tests" "not a section of its own" [failing] true 0)
    (Gpio.initializeTestSections World).

(** SPI test functions. *)
Definition spi_ok : Spi.TestFunc World := fun w => (Returned true, w + 3).
Definition spi_no : Spi.TestFunc World := fun w => (Returned false, w + 3).
Definition spi_throw : Spi.TestFunc World := fun w => (Thrown, w + 1).

Definition spi : Spi.State World := Spi.setup 0.

(** PWM test functions. *)
Definition pwm_ok : World -> bool * World := fun w => (true, w + 1).

Definition pwm : Pwm.State World := Pwm.initial 0.
Definition run_frequency_tests := @Pwm.run_frequency_tests World.
Definition run_pwm_comprehensive_tests :=
  Pwm.run_pwm_comprehensive_tests pwm_ok pwm_ok pwm_ok pwm_ok pwm_ok.
Definition run_specific_test_sections :=
  Pwm.run_specific_test_sections pwm_ok pwm_ok pwm_ok pwm_ok pwm_ok.

End Sim.

(** ** More vocabulary for the GPIO runner *)

Module GpioSpec.
Import Num Gpio.

(** How many of the outcomes passed, and how many failed. *)
Definition passed_among (rs : list TestResult) : Z :=
  Z.of_nat (List.length (filter passed rs)).
Definition failed_among (rs : list TestResult) : Z :=
  Z.of_nat (List.length (filter (fun r => negb (passed r)) rs)).

(** A callable that throws, whatever the world it is called in. *)
Definition throws {World : Type} (test : TestFn World) : Prop :=
  forall w, exists w', test w = (Thrown, w').

End GpioSpec.

(** ** GpioComprehensiveTest.cpp: names, listings and [main] *)

Module GpioCli.
Import Num Gpio.

Definition gpioTestSectionToString (section : GpioTestSection) : string :=
  if section =? BASIC_GPIO_OPERATIONS then "basic_gpio_operations"
  else if section =? GPIO_INTERRUPTS then "gpio_interrupts"
  else if section =? GPIO_PWM_FUNCTIONALITY then "gpio_pwm_functionality"
  else if section =? GPIO_ANALOG_READS then "gpio_analog_reads"
  else if section =? GPIO_STRESS_TESTING then "gpio_stress_testing"
  else if section =? GPIO_EDGE_CASES then "gpio_edge_cases"
  else if section =? ALL_SECTIONS then "all_sections"
  else "unknown_section".

Definition stringToGpioTestSection (str : string) : GpioTestSection :=
  if (str =? "basic_gpio_operations")%string then BASIC_GPIO_OPERATIONS
  else if (str =? "gpio_interrupts")%string then GPIO_INTERRUPTS
  else if (str =? "gpio_pwm_functionality")%string then GPIO_PWM_FUNCTIONALITY
  else if (str =? "gpio_analog_reads")%string then GPIO_ANALOG_READS
  else if (str =? "gpio_stress_testing")%string then GPIO_STRESS_TESTING
  else if (str =? "gpio_edge_cases")%string then GPIO_EDGE_CASES
  else if (str =? "all_sections")%string then ALL_SECTIONS
  else BASIC_GPIO_OPERATIONS.

(** The identifiers [gpioTestSectionToString] has a name for. *)
Definition named_sections : list GpioTestSection :=
  [BASIC_GPIO_OPERATIONS; GPIO_INTERRUPTS; GPIO_PWM_FUNCTIONALITY; GPIO_ANALOG_READS;
   GPIO_STRESS_TESTING; GPIO_EDGE_CASES; ALL_SECTIONS].

(** What [main] and the listing functions write to [std::cout]. *)
Inductive Line :=
| Usage (program : string)
| ListHeading
| Listed (is_enabled : bool) (section_name section_description : string) (n_tests : Z)
| EnabledHeading
| EnabledListed (section_name section_description : string) (n_tests timeout : Z)
| SectionEnabled (section : string)
| SectionDisabledByUser (section : string)
| Statistics (total n_passed n_failed : Z) (total_time average_time : double)
| ResultsCleared
| UnknownCommand (command : string)
| ExportNotImplemented (filename : string).

Section Program.
Variables World time_point : Type.
Variable now : World -> time_point * World.
Variable duration_ms : time_point -> time_point -> double.

Definition listSections (g : GpioComprehensiveTest World) : list Line :=
  ListHeading ::
  map (fun kv => Listed (enabled (snd kv)) (name (snd kv)) (description (snd kv))
                        (Z.of_nat (List.length (tests (snd kv)))))
      (filter (fun kv => negb (fst kv =? ALL_SECTIONS)) (test_sections g)).

Definition listEnabledSections (g : GpioComprehensiveTest World) : list Line :=
  EnabledHeading ::
  map (fun kv => EnabledListed (name (snd kv)) (description (snd kv))
                               (Z.of_nat (List.length (tests (snd kv))))
                               (timeout_seconds (snd kv)))
      (filter (fun kv => negb (fst kv =? ALL_SECTIONS) && enabled (snd kv))
              (test_sections g)).

Definition exportResults (filename : string) (g : GpioComprehensiveTest World) : list Line :=
  [ExportNotImplemented filename].

(** The exit status of [main], the test object and the world as [main]
    leaves them, and the lines [main] printed itself. An exception that
    leaves a run leaves [main] too. *)
Definition Exit : Type := completion Z * State World * list Line.

Definition after_run (r : completion unit * State World) : Exit :=
  match r with
  | (Returned _, st) => (Returned 0, st, [])
  | (Thrown, st) => (Thrown, st, [])
  end.

(** [main(argc, argv)], with [argc] the length of [argv]. *)
Definition main (argv : list string) (w : World) : Exit :=
  let test := mkState (construct_default World) w [] in
  match argv with
  | [] => (Returned 0, test, [Usage ""])
  | [program] => (Returned 0, test, [Usage program])
  | program :: command :: rest =>
      if (command =? "list")%string then
        (Returned 0, test, listSections (self test))
      else if (command =? "all")%string then
        after_run (runAllSections now duration_ms test)
      else if (command =? "basic")%string then
        after_run (runSection now duration_ms BASIC_GPIO_OPERATIONS test)
      else if (command =? "interrupts")%string then
        after_run (runSection now duration_ms GPIO_INTERRUPTS test)
      else if (command =? "pwm")%string then
        after_run (runSection now duration_ms GPIO_PWM_FUNCTIONALITY test)
      else if (command =? "analog")%string then
        after_run (runSection now duration_ms GPIO_ANALOG_READS test)
      else if (command =? "stress")%string then
        after_run (runSection now duration_ms GPIO_STRESS_TESTING test)
      else if (command =? "edge")%string then
        after_run (runSection now duration_ms GPIO_EDGE_CASES test)
      else if (command =? "enable")%string && (Z.of_nat (List.length argv) >? 2) then
        let section := nth 0 rest "" in
        (Returned 0,
         mkState (enableSection (stringToGpioTestSection section) true (self test))
                 (world test) (console test),
         [SectionEnabled section])
      else if (command =? "disable")%string && (Z.of_nat (List.length argv) >? 2) then
        let section := nth 0 rest "" in
        (Returned 0,
         mkState (enableSection (stringToGpioTestSection section) false (self test))
                 (world test) (console test),
         [SectionDisabledByUser section])
      else if (command =? "enabled")%string then
        (Returned 0, test, listEnabledSections (self test))
      else if (command =? "stats")%string then
        (Returned 0, test,
         [Statistics (getTotalTestCount (self test)) (getPassedTestCount (self test))
                     (getFailedTestCount (self test)) (getTotalExecutionTime (self test))
                     (getAverageExecutionTime (self test))])
      else if (command =? "clear")%string then
        (Returned 0,
         mkState (clearResults (self test)) (world test) (console test),
         [ResultsCleared])
      else (Returned 0, test, [UnknownCommand command])
  end.

End Program.
End GpioCli.

(** ** main/SpiComprehensiveTest.cpp: the test functions

    The SPI peripheral, the delay and the timer of the Arduino core are
    parameters: each call is a function on the state of the hardware, and
    what a transfer returns is up to the hardware.  Every call of the bus
    returns here: a call that throws is not in this module (the runner
    above takes [testSpiBegin] and the other test functions as callables
    that may throw). *)

Module SpiBus.
Import Num.

(** How many cases the arm of a section in the [switch] of [runSection] runs. *)
Definition cases_of (section : Z) : Z :=
  Z.of_nat (nth (Z.to_nat section) [2; 4; 3; 1; 1; 1; 1]%nat 0%nat).

(** The record of [section] holds a run in which every case passed. *)
Definition all_passed (records : list Spi.SectionResult) (section : Z) : Prop :=
  exists (sr : Spi.SectionResult) (rs : list Spi.TestResult),
    nth_error records (Z.to_nat section) = Some sr /\
    Spi.results sr = Some rs /\
    Forall (fun r => Spi.passed r = true) rs /\
    Spi.totalTests sr = cases_of section /\
    Spi.passedTests sr = cases_of section /\
    Spi.failedTests sr = 0.

(** The line [testSpiPerformance] prints: bytes, microseconds, bytes per second. *)
Record PerformanceLine := mkPerformanceLine {
  bytes_sent : Z;
  micros_taken : Z;
  bytes_per_second : float
}.

Section Hardware.
Variable Hw : Type.
Variables spi_begin spi_end : Hw -> Hw.
Variables spi_transfer spi_transfer16 spi_transfer32 : Z -> Hw -> Z * Hw.
Variable spi_transfer_buffer : list Z -> Hw -> list Z * Hw.
Variables spi_setClockDivider spi_setDataMode spi_setBitOrder : Z -> Hw -> Hw.
Variable delay : Z -> Hw -> Hw.
Variable hw_micros : Hw -> Z * Hw.
(** Constants of the Arduino core. *)
Variables SPI_CLOCK_DIV4 SPI_CLOCK_DIV16 SPI_CLOCK_DIV64 : Z.
Variables SPI_MODE0 SPI_MODE1 SPI_MODE2 SPI_MODE3 MSBFIRST LSBFIRST : Z.

(** The hardware, the global [spiInitialized] and what the test functions
    printed. *)
Record World := mkWorld {
  spiInitialized : bool;
  hw : Hw;
  printed : list PerformanceLine
}.

Definition on_hw (f : Hw -> Hw) (w : World) : World :=
  mkWorld (spiInitialized w) (f (hw w)) (printed w).

Definition set_spiInitialized (b : bool) (w : World) : World :=
  mkWorld b (hw w) (printed w).

(** [micros()] *)
Definition micros (w : World) : Z * World :=
  (fst (hw_micros (hw w)), on_hw (fun h => snd (hw_micros h)) w).

Definition testSpiBegin : Spi.TestFunc World := fun w =>
  let w := if spiInitialized w
           then set_spiInitialized false (on_hw spi_end w)
           else w in
  let w := set_spiInitialized true (on_hw spi_begin w) in
  (Returned (spiInitialized w), w).

Definition testSpiEnd : Spi.TestFunc World := fun w =>
  if negb (spiInitialized w) then (Returned false, w)
  else
    let w := set_spiInitialized false (on_hw spi_end w) in
    (Returned (negb (spiInitialized w)), w).

Definition testSpiTransfer : Spi.TestFunc World := fun w =>
  if negb (spiInitialized w) then (Returned false, w)
  else (Returned true, on_hw (fun h => snd (spi_transfer 85 h)) w).

Definition testSpiTransfer16 : Spi.TestFunc World := fun w =>
  if negb (spiInitialized w) then (Returned false, w)
  else (Returned true, on_hw (fun h => snd (spi_transfer16 4660 h)) w).

Definition testSpiTransfer32 : Spi.TestFunc World := fun w =>
  if negb (spiInitialized w) then (Returned false, w)
  else (Returned true, on_hw (fun h => snd (spi_transfer32 305419896 h)) w).

Definition testSpiTransferBuffer : Spi.TestFunc World := fun w =>
  if negb (spiInitialized w) then (Returned false, w)
  else (Returned true, on_hw (fun h => snd (spi_transfer_buffer [1; 2; 3; 4] h)) w).

Definition testSpiClockSpeed : Spi.TestFunc World := fun w =>
  if negb (spiInitialized w) then (Returned false, w)
  else
    (Returned true,
     on_hw (fun h =>
              let h := delay 1 (spi_setClockDivider SPI_CLOCK_DIV4 h) in
              let h := delay 1 (spi_setClockDivider SPI_CLOCK_DIV16 h) in
              delay 1 (spi_setClockDivider SPI_CLOCK_DIV64 h)) w).

Definition testSpiMode : Spi.TestFunc World := fun w =>
  if negb (spiInitialized w) then (Returned false, w)
  else
    (Returned true,
     on_hw (fun h =>
              let h := delay 1 (spi_setDataMode SPI_MODE0 h) in
              let h := delay 1 (spi_setDataMode SPI_MODE1 h) in
              let h := delay 1 (spi_setDataMode SPI_MODE2 h) in
              let h := delay 1 (spi_setDataMode SPI_MODE3 h) in
              spi_setDataMode SPI_MODE0 h) w).

Definition testSpiBitOrder : Spi.TestFunc World := fun w =>
  if negb (spiInitialized w) then (Returned false, w)
  else
    (Returned true,
     on_hw (fun h =>
              let h := delay 1 (spi_setBitOrder MSBFIRST h) in
              let h := delay 1 (spi_setBitOrder LSBFIRST h) in
              spi_setBitOrder MSBFIRST h) w).

Definition testSpiErrorHandling : Spi.TestFunc World := fun w =>
  if negb (spiInitialized w) then (Returned false, w)
  else
    (Returned true,
     on_hw (fun h =>
              let h := delay 1 (spi_setClockDivider 255 h) in
              spi_setClockDivider SPI_CLOCK_DIV4 h) w).

Definition testSpiPerformance : Spi.TestFunc World := fun w =>
  if negb (spiInitialized w) then (Returned false, w)
  else
    let iterations := 1000 in
    let (startTime, h) := hw_micros (hw w) in
    let h := Nat.iter (Z.to_nat iterations) (fun h => snd (spi_transfer 85 h)) h in
    let (endTime, h) := hw_micros h in
    let duration := to_ulong (endTime - startTime) in
    let transferRate :=
      float_div (float_of_Z (to_int (iterations * 1000000))) (float_of_Z duration) in
    (Returned true,
     mkWorld (spiInitialized w) h
             (printed w ++ [mkPerformanceLine iterations duration transferRate])).

Definition testSpiStress : Spi.TestFunc World := fun w =>
  if negb (spiInitialized w) then (Returned false, w)
  else
    (Returned true,
     on_hw (fun h =>
              fold_left
                (fun h i =>
                   let h := snd (spi_transfer (Z.land i 255) h) in
                   if Z.rem i 1000 =? 0 then delay 1 h else h)
                (map Z.of_nat (seq 0 (Z.to_nat 10000))) h) w).

(** [initializeSpi()] *)
Definition initializeSpi (w : World) : World :=
  set_spiInitialized true
    (on_hw (fun h =>
              spi_setBitOrder MSBFIRST
                (spi_setDataMode SPI_MODE0
                   (spi_setClockDivider SPI_CLOCK_DIV4 (spi_begin h)))) w).

(** The runner over these test functions. *)
Definition runSection :=
  Spi.runSection micros testSpiBegin testSpiEnd testSpiTransfer testSpiTransfer16
    testSpiTransfer32 testSpiTransferBuffer testSpiClockSpeed testSpiMode
    testSpiBitOrder testSpiErrorHandling testSpiPerformance testSpiStress.

Definition runAllSections :=
  Spi.runAllSections micros testSpiBegin testSpiEnd testSpiTransfer testSpiTransfer16
    testSpiTransfer32 testSpiTransferBuffer testSpiClockSpeed testSpiMode
    testSpiBitOrder testSpiErrorHandling testSpiPerformance testSpiStress.

Definition runSpecificSection :=
  Spi.runSpecificSection micros testSpiBegin testSpiEnd testSpiTransfer testSpiTransfer16
    testSpiTransfer32 testSpiTransferBuffer testSpiClockSpeed testSpiMode
    testSpiBitOrder testSpiErrorHandling testSpiPerformance testSpiStress.

(** [setup()]: the array of section results is allocated with every
    [results] pointer cleared, then [initializeSpi()]. *)
Definition setup (w : World) : Spi.State World :=
  Spi.setup (initializeSpi w).

(** [cleanupSpi()]: ends the SPI if it was begun and frees the results;
    [None] is the null [sectionResults]. *)
Definition cleanupSpi (st : Spi.State World) : option (list Spi.SectionResult) * World :=
  (None,
   if spiInitialized (Spi.world st)
   then set_spiInitialized false (on_hw spi_end (Spi.world st))
   else Spi.world st).

(** A test function whose verdict is the flag [spiInitialized] and which
    leaves the flag alone. *)
Definition reports_the_flag (f : Spi.TestFunc World) : Prop :=
  forall w, exists w',
    f w = (Returned (spiInitialized w), w') /\ spiInitialized w' = spiInitialized w.

End Hardware.
End SpiBus.

(** ** PwmComprehensiveTest.cpp: vocabulary *)

Module PwmSpec.
Import Num Pwm.

(** The number of results a full run stores, read off the flags: the
    tests of [run_basic_pwm_tests] by group, and each placeholder section. *)
Definition planned_basic (groups : list bool) : Z :=
  (if flag groups GROUP_INITIALIZATION then 1 else 0)
  + (if flag groups GROUP_FUNCTIONALITY then 2 else 0)
  + (if flag groups GROUP_VALIDATION then 1 else 0)
  + (if flag groups GROUP_CLEANUP then 1 else 0).

Definition planned (sections groups : list bool) : Z :=
  (if flag sections SECTION_BASIC_PWM then planned_basic groups else 0)
  + (if flag sections SECTION_FREQUENCY_TESTS then 5 else 0)
  + (if flag sections SECTION_DUTY_CYCLE_TESTS then 5 else 0)
  + (if flag sections SECTION_PIN_TESTS then 5 else 0)
  + (if flag sections SECTION_PERFORMANCE_TESTS then 1 else 0)
  + (if flag sections SECTION_ERROR_HANDLING then 1 else 0)
  + (if flag sections SECTION_STRESS_TESTS then 1 else 0).

(** The results among the lines of the console. *)
Definition results_printed (outs : list Output) : list TestResult :=
  flat_map (fun o => match o with ResultLine r => [r] | _ => [] end) outs.

(** The table holds the results printed since [base], in order, at most
    [bound] of them. *)
Definition tracks {World : Type} (base : list Output) (bound : Z) (st : State World)
  : Prop :=
  exists outs : list Output,
    serial st = (base ++ outs)%list /\
    firstn (Z.to_nat (test_result_count st)) (test_results st) = results_printed outs /\
    test_result_count st = Z.of_nat (List.length (results_printed outs)) /\
    test_result_count st <= bound /\
    List.length (test_results st) = 100%nat.

(** The summary of the results [rs]: their number, the passed and the
    failed ones, and the success rate when there is a result. *)
Definition summary_of (rs : list TestResult) : Output :=
  let total := Z.of_nat (List.length rs) in
  let n_passed := Z.of_nat (List.length (filter passed rs)) in
  let n_failed := Z.of_nat (List.length (filter (fun r => negb (passed r)) rs)) in
  Summary total n_passed n_failed
    (if total >? 0
     then Some (float_mul (float_div (float_of_Z n_passed) (float_of_Z total))
                          (float_of_Z 100))
     else None).

(** The flags of sections and groups are those of [st]. *)
Definition same_flags {World : Type} (st st' : State World) : Prop :=
  test_section_enabled st' = test_section_enabled st /\
  test_group_enabled st' = test_group_enabled st.

End PwmSpec.

(** ** PwmComprehensiveTest.cpp: the LEDC test functions *)

Module PwmLedc.
Import Num.

Definition PWM_TEST_PIN : Z := 18.
Definition PWM_FREQ_HZ : Z := 1000.
Definition PWM_DUTY_CYCLE : Z := 50.

Definition to_uint32 (z : Z) : Z := z mod 4294967296.

(** [(uint32_t)x] of a [double]: the fraction is dropped.  The values
    converted in this file are finite and not negative. *)
Definition uint32_of_double (x : double) : Z :=
  match x with
  | S754_finite false m e =>
      to_uint32 (if 0 <=? e then Z.pos m * 2 ^ e else Z.pos m / 2 ^ (- e))
  | _ => 0
  end.

(** The literals [0.1], [0.25], [0.5], [0.75] and [0.9]: the binary64
    nearest to the fraction. *)
Definition literal (numerator denominator : Z) : double :=
  double_div (double_of_Z numerator) (double_of_Z denominator).

(** The fields of [ledc_timer_config_t] and [ledc_channel_config_t] the
    file assigns; [speed_mode] of the channel is [channel_speed_mode]. *)
Record ledc_timer_config_t := mk_timer {
  duty_resolution : Z;
  freq_hz : Z;
  speed_mode : Z;
  timer_num : Z;
  clk_cfg : Z
}.

Record ledc_channel_config_t := mk_channel {
  channel : Z;
  duty : Z;
  gpio_num : Z;
  channel_speed_mode : Z;
  hpoint : Z;
  timer_sel : Z
}.

Section Hardware.
(** The LEDC peripheral behind the ESP-IDF driver, and the driver's
    constants and calls. *)
Variable Hw : Type.
Variables ESP_OK LEDC_TIMER_13_BIT LEDC_HIGH_SPEED_MODE LEDC_TIMER_0 LEDC_AUTO_CLK
          LEDC_CHANNEL_0 : Z.
Variable ledc_timer_config : ledc_timer_config_t -> Hw -> Z * Hw.
Variable ledc_channel_config : ledc_channel_config_t -> Hw -> Z * Hw.
Variable ledc_set_freq : Z -> Z -> Z -> Hw -> Z * Hw.
Variable ledc_set_duty : Z -> Z -> Z -> Hw -> Z * Hw.
Variable ledc_update_duty : Z -> Z -> Hw -> Z * Hw.
Variable ledc_stop : Z -> Z -> Z -> Hw -> Z * Hw.
Variable delay : Z -> Hw -> Hw.

(** The statics [pwm_initialized], [ledc_timer] and [ledc_channel], and the
    peripheral. *)
Record World := mkWorld {
  pwm_initialized : bool;
  ledc_timer : ledc_timer_config_t;
  ledc_channel : ledc_channel_config_t;
  hw : Hw
}.

Definition on_hw (h : Hw) (w : World) : World :=
  mkWorld (pwm_initialized w) (ledc_timer w) (ledc_channel w) h.

(** [test] leaves the statics as they were, and fails without a call of
    the driver when the PWM is not initialized. *)
Definition guarded_by_the_flag (test : World -> bool * World) : Prop :=
  forall w : World,
    pwm_initialized (snd (test w)) = pwm_initialized w /\
    ledc_timer (snd (test w)) = ledc_timer w /\
    ledc_channel (snd (test w)) = ledc_channel w /\
    (pwm_initialized w = false -> test w = (false, w)).

Definition PWM_RESOLUTION : Z := LEDC_TIMER_13_BIT.

(** [uint32_t max_duty = (1 << PWM_RESOLUTION) - 1;] *)
Definition max_duty : Z := to_uint32 (to_int (to_int (Z.shiftl 1 PWM_RESOLUTION) - 1)).

(** [max_duty * fraction] stored in a [uint32_t] *)
Definition duty_of (fraction : double) : Z :=
  uint32_of_double (double_mul (double_of_Z max_duty) fraction).

Definition test_pwm_initialization (w : World) : bool * World :=
  if pwm_initialized w then (true, w)
  else
    let timer := mk_timer PWM_RESOLUTION PWM_FREQ_HZ LEDC_HIGH_SPEED_MODE LEDC_TIMER_0
                          LEDC_AUTO_CLK in
    let (ret, h) := ledc_timer_config timer (hw w) in
    if negb (ret =? ESP_OK) then (false, mkWorld false timer (ledc_channel w) h)
    else
      let chan := mk_channel LEDC_CHANNEL_0 0 PWM_TEST_PIN LEDC_HIGH_SPEED_MODE 0
                             LEDC_TIMER_0 in
      let (ret, h) := ledc_channel_config chan h in
      if negb (ret =? ESP_OK) then (false, mkWorld false timer chan h)
      else (true, mkWorld true timer chan h).

(** The loops over [test_freqs] and [test_duties]: the first value the
    driver refuses ends the test; [delay(100)] follows each accepted one. *)
Fixpoint set_each (set : Z -> Hw -> Z * Hw) (values : list Z) (h : Hw) : bool * Hw :=
  match values with
  | [] => (true, h)
  | v :: rest =>
      let (ret, h) := set v h in
      if negb (ret =? ESP_OK) then (false, h) else set_each set rest (delay 100 h)
  end.

Definition test_pwm_frequency_setting (w : World) : bool * World :=
  if negb (pwm_initialized w) then (false, w)
  else
    match set_each (ledc_set_freq LEDC_HIGH_SPEED_MODE LEDC_TIMER_0)
                   [500; 1000; 2000; 5000] (hw w) with
    | (false, h) => (false, on_hw h w)
    | (true, h) =>
        (* Restore original frequency *)
        let (_, h) := ledc_set_freq LEDC_HIGH_SPEED_MODE LEDC_TIMER_0 PWM_FREQ_HZ h in
        (true, on_hw h w)
    end.

Definition test_pwm_duty_cycle_setting (w : World) : bool * World :=
  if negb (pwm_initialized w) then (false, w)
  else
    match set_each (ledc_set_duty LEDC_HIGH_SPEED_MODE LEDC_CHANNEL_0)
                   [duty_of (literal 1 10); duty_of (literal 1 4); duty_of (literal 1 2);
                    duty_of (literal 3 4); duty_of (literal 9 10)] (hw w) with
    | (false, h) => (false, on_hw h w)
    | (true, h) =>
        (* Restore original duty cycle *)
        let original_duty :=
          duty_of (double_div (double_of_Z PWM_DUTY_CYCLE) (double_of_Z 100)) in
        let (_, h) := ledc_set_duty LEDC_HIGH_SPEED_MODE LEDC_CHANNEL_0 original_duty h in
        (true, on_hw h w)
    end.

Definition test_pwm_output_validation (w : World) : bool * World :=
  if negb (pwm_initialized w) then (false, w)
  else
    let test_duty := duty_of (literal 1 2) in
    let (ret, h) := ledc_set_duty LEDC_HIGH_SPEED_MODE LEDC_CHANNEL_0 test_duty (hw w) in
    if negb (ret =? ESP_OK) then (false, on_hw h w)
    else
      let (ret, h) := ledc_update_duty LEDC_HIGH_SPEED_MODE LEDC_CHANNEL_0 h in
      if negb (ret =? ESP_OK) then (false, on_hw h w)
      else
        let h := delay 500 h in
        let (ret, h) := ledc_stop LEDC_HIGH_SPEED_MODE LEDC_CHANNEL_0 0 h in
        if negb (ret =? ESP_OK) then (false, on_hw h w)
        else (true, on_hw h w).

Definition test_pwm_cleanup (w : World) : bool * World :=
  if negb (pwm_initialized w) then (true, w)
  else
    let (ret, h) := ledc_stop LEDC_HIGH_SPEED_MODE LEDC_CHANNEL_0 0 (hw w) in
    if negb (ret =? ESP_OK) then (false, on_hw h w)
    else
      let (ret, h) := ledc_channel_config (ledc_channel w) h in
      if negb (ret =? ESP_OK) then (false, on_hw h w)
      else (true, mkWorld false (ledc_timer w) (ledc_channel w) h).

(** The file's runner over these test functions. *)
Definition run_basic_pwm_tests : Pwm.State World -> Pwm.State World :=
  Pwm.run_basic_pwm_tests test_pwm_initialization test_pwm_frequency_setting
    test_pwm_duty_cycle_setting test_pwm_output_validation test_pwm_cleanup.

Definition run_pwm_comprehensive_tests : Pwm.State World -> Pwm.State World :=
  Pwm.run_pwm_comprehensive_tests test_pwm_initialization test_pwm_frequency_setting
    test_pwm_duty_cycle_setting test_pwm_output_validation test_pwm_cleanup.

(** Every driver call answers [ESP_OK]. *)
Definition driver_accepts_everything : Prop :=
  (forall c h, fst (ledc_timer_config c h) = ESP_OK) /\
  (forall c h, fst (ledc_channel_config c h) = ESP_OK) /\
  (forall m t f h, fst (ledc_set_freq m t f h) = ESP_OK) /\
  (forall m c d h, fst (ledc_set_duty m c d h) = ESP_OK) /\
  (forall m c h, fst (ledc_update_duty m c h) = ESP_OK) /\
  (forall m c i h, fst (ledc_stop m c i h) = ESP_OK).

End Hardware.
End PwmLedc.

(** ** PwmTestUsageExamples.cpp

    An example prints its headline and then works on the state of the test
    file; it is the headline and the state after. *)

Module PwmExamples.
Import Num Pwm.

Section Examples.
Variable World : Type.
Variables test_pwm_initialization test_pwm_frequency_setting
          test_pwm_duty_cycle_setting test_pwm_output_validation test_pwm_cleanup
  : World -> bool * World.

Definition run_pwm_comprehensive_tests : State World -> State World :=
  Pwm.run_pwm_comprehensive_tests test_pwm_initialization test_pwm_frequency_setting
    test_pwm_duty_cycle_setting test_pwm_output_validation test_pwm_cleanup.

Definition run_specific_test_sections : list Z -> State World -> State World :=
  Pwm.run_specific_test_sections test_pwm_initialization test_pwm_frequency_setting
    test_pwm_duty_cycle_setting test_pwm_output_validation test_pwm_cleanup.

(** [for (int i = 0; i < n; i++) body(i);] *)
Definition for_each_below (n : Z) (body : Z -> State World -> State World)
           (st : State World) : State World :=
  fold_left (fun st i => body (Z.of_nat i) st) (seq 0 (Z.to_nat n)) st.

Definition disable_all_sections : State World -> State World :=
  for_each_below SECTION_MAX (fun i => enable_test_section i false).

Definition disable_all_groups : State World -> State World :=
  for_each_below GROUP_MAX (fun i => enable_test_group i false).

Definition example_run_basic_tests_only (st : State World) : string * State World :=
  ("Running only Basic PWM tests...",
   let st := disable_all_sections st in
   let st := enable_test_section SECTION_BASIC_PWM true st in
   run_pwm_comprehensive_tests st).

Definition example_run_frequency_and_duty_cycle_tests (st : State World)
  : string * State World :=
  ("Running Frequency and Duty Cycle tests...",
   let st := disable_all_sections st in
   let st := enable_test_section SECTION_FREQUENCY_TESTS true st in
   let st := enable_test_section SECTION_DUTY_CYCLE_TESTS true st in
   run_pwm_comprehensive_tests st).

Definition example_run_specific_groups (st : State World) : string * State World :=
  ("Running only specific test groups...",
   let st := disable_all_groups st in
   let st := enable_test_group GROUP_INITIALIZATION true st in
   let st := enable_test_group GROUP_FUNCTIONALITY true st in
   run_pwm_comprehensive_tests st).

Definition example_use_convenience_function (st : State World) : string * State World :=
  ("Using convenience function for specific sections...",
   run_specific_test_sections [SECTION_BASIC_PWM; SECTION_PIN_TESTS] st).

Definition example_custom_test_configuration (st : State World) : string * State World :=
  ("Running custom test configuration...",
   let st := disable_all_groups st in
   let st := enable_test_group GROUP_VALIDATION true st in
   let st := enable_test_group GROUP_CLEANUP true st in
   let st := disable_all_sections st in
   let st := enable_test_section SECTION_BASIC_PWM true st in
   run_pwm_comprehensive_tests st).

End Examples.
End PwmExamples.

(** ** A simulated LEDC driver and SPI bus *)

Module SimHw.
Import Num.

(** The peripheral counts the calls it has seen; every call is accepted. *)
Definition Hw := Z.
Definition ESP_OK : Z := 0.
Definition accept (h : Hw) : Z * Hw := (ESP_OK, h + 1).

Definition ledc_world (initialized : bool) : PwmLedc.World Hw :=
  PwmLedc.mkWorld initialized (PwmLedc.mk_timer 0 0 0 0 0)
                  (PwmLedc.mk_channel 0 0 0 0 0 0) 0.

Definition test_pwm_initialization : PwmLedc.World Hw -> bool * PwmLedc.World Hw :=
  PwmLedc.test_pwm_initialization ESP_OK 13 0 0 0 0
    (fun _ => accept) (fun _ => accept).
Definition test_pwm_frequency_setting : PwmLedc.World Hw -> bool * PwmLedc.World Hw :=
  PwmLedc.test_pwm_frequency_setting ESP_OK 0 0 (fun _ _ _ => accept) (fun _ h => h).
Definition test_pwm_duty_cycle_setting : PwmLedc.World Hw -> bool * PwmLedc.World Hw :=
  PwmLedc.test_pwm_duty_cycle_setting ESP_OK 13 0 0 (fun _ _ _ => accept) (fun _ h => h).
Definition test_pwm_output_validation : PwmLedc.World Hw -> bool * PwmLedc.World Hw :=
  PwmLedc.test_pwm_output_validation ESP_OK 13 0 0 (fun _ _ _ => accept)
    (fun _ _ => accept) (fun _ _ _ => accept) (fun _ h => h).
Definition test_pwm_cleanup : PwmLedc.World Hw -> bool * PwmLedc.World Hw :=
  PwmLedc.test_pwm_cleanup ESP_OK 0 0 (fun _ => accept) (fun _ _ _ => accept).

(** The state of the test file at boot, the PWM not yet initialized. *)
Definition pwm : Pwm.State (PwmLedc.World Hw) := Pwm.initial (ledc_world false).

Definition run_basic_pwm_tests
  : Pwm.State (PwmLedc.World Hw) -> Pwm.State (PwmLedc.World Hw) :=
  PwmLedc.run_basic_pwm_tests ESP_OK 13 0 0 0 0 (fun _ => accept) (fun _ => accept)
    (fun _ _ _ => accept) (fun _ _ _ => accept) (fun _ _ => accept)
    (fun _ _ _ => accept) (fun _ h => h).

(** An SPI bus that answers 0 to every transfer, and the sketch on it
    after the array of section results is allocated. *)
Definition spi : Spi.State (SpiBus.World Hw) := Spi.setup (SpiBus.mkWorld false 0 []).

Definition runSpecificSection
  : Z -> Spi.State (SpiBus.World Hw) -> completion unit * Spi.State (SpiBus.World Hw) :=
  SpiBus.runSpecificSection (fun h => h + 1) (fun h => h + 1)
    (fun _ h => (0, h + 1)) (fun _ h => (0, h + 1)) (fun _ h => (0, h + 1))
    (fun data h => (map (fun _ => 0) data, h + 1))
    (fun _ h => h) (fun _ h => h) (fun _ h => h) (fun _ h => h)
    (fun h => (h, h + 1)) 0 1 2 0 1 2 3 1 0.

Definition runAllSections
  : Spi.State (SpiBus.World Hw) -> completion unit * Spi.State (SpiBus.World Hw) :=
  SpiBus.runAllSections (fun h => h + 1) (fun h => h + 1)
    (fun _ h => (0, h + 1)) (fun _ h => (0, h + 1)) (fun _ h => (0, h + 1))
    (fun data h => (map (fun _ => 0) data, h + 1))
    (fun _ h => h) (fun _ h => h) (fun _ h => h) (fun _ h => h)
    (fun h => (h, h + 1)) 0 1 2 0 1 2 3 1 0.

End SimHw.

(** * Properties *)

Import Num.
Local Close Scope string_scope.

(** * Facts about [StdMap] *)

Section StdMapFacts.
Context {V : Type}.
Implicit Types (m : list (Z * V)) (k : Z) (v : V).

Lemma find_assign_same k v m : StdMap.find k (StdMap.assign k v m) = Some v.
Proof.
  induction m as [|[k' v'] m IH]; cbn.
  - now rewrite Z.eqb_refl.
  - destruct (k <? k') eqn:Hlt; cbn.
    + now rewrite Z.eqb_refl.
    + destruct (k =? k') eqn:Heq; cbn.
      * now rewrite Z.eqb_refl.
      * now rewrite Heq.
Qed.

Lemma find_assign_other k k' v m :
  k <> k' -> StdMap.find k' (StdMap.assign k v m) = StdMap.find k' m.
Proof.
  intros Hne. apply Z.eqb_neq in Hne. rewrite Z.eqb_sym in Hne.
  induction m as [|[k0 v0] m IH]; cbn.
  - now rewrite Hne.
  - destruct (k <? k0) eqn:Hlt; cbn.
    + now rewrite Hne.
    + destruct (k =? k0) eqn:Heq; cbn.
      * apply Z.eqb_eq in Heq. subst k0. now rewrite !Hne.
      * now rewrite IH.
Qed.

Lemma find_for_each (f : Z -> V -> V) k m :
  StdMap.find k (StdMap.for_each f m) = option_map (f k) (StdMap.find k m).
Proof.
  induction m as [|[k' v'] m IH]; cbn; [reflexivity|].
  destruct (k =? k') eqn:Heq; [|exact IH].
  apply Z.eqb_eq in Heq. now subst.
Qed.

Lemma keys_for_each (f : Z -> V -> V) m :
  StdMap.keys (StdMap.for_each f m) = StdMap.keys m.
Proof.
  unfold StdMap.keys, StdMap.for_each. rewrite map_map. reflexivity.
Qed.

Lemma find_in_keys k v m : StdMap.find k m = Some v -> In k (StdMap.keys m).
Proof.
  induction m as [|[k' v'] m IH]; cbn; [discriminate|].
  destruct (k =? k') eqn:Heq.
  - apply Z.eqb_eq in Heq. auto.
  - auto.
Qed.
End StdMapFacts.

Lemma to_int_small (z : Z) :
  - 2147483648 <= z <= Num.INT_MAX -> Num.to_int z = z.
Proof.
  unfold Num.to_int, Num.INT_MAX. intros H.
  rewrite Z.mod_small by lia. lia.
Qed.

(** * The GPIO runner *)

Section GpioFacts.
Import Num Gpio.
Variables World time_point : Type.
Variable now : World -> time_point * World.
Variable duration_ms : time_point -> time_point -> double.

Lemma run_tests_all_return (total : Z) (ts : list (TestFn World)) :
  Forall (@returns World) ts ->
  forall (i : Z) (loc : Locals) (st : State World),
  exists (rs : list TestResult) (loc' : Locals) (st' : State World),
    run_tests now duration_ms total i ts loc st = (Returned loc', st') /\
    section_results loc' = section_results loc ++ rs /\
    all_results (self st') = all_results (self st) ++ rs /\
    test_sections (self st') = test_sections (self st) /\
    config (self st') = config (self st) /\
    List.length rs = List.length ts /\
    invoked_in_order now duration_ms (world st) ts rs (world st').
Proof.
  induction 1 as [|test ts Hret _ IH]; intros i loc st.
  - exists [], loc, st. cbn. rewrite !app_nil_r. repeat split; constructor.
  - cbn [Gpio.run_tests]. cbn [world print].
    destruct (now (world st)) as [start_time w1] eqn:Hstart.
    destruct (Hret w1) as (result & w2 & Hcall). rewrite Hcall.
    destruct (now w2) as [end_time w3] eqn:Hend.
    match goal with
    | |- context [Gpio.run_tests _ _ _ _ ts ?l ?s] =>
        destruct (IH (i + 1) l s)
          as (rs & loc' & st' & Hrun & Hsec & Hall & Hmap & Hcfg & Hlen & Hord)
    end.
    exists (set_execution_time_ms result (duration_ms start_time end_time) :: rs), loc', st'.
    rewrite Hrun. clear Hrun.
    assert (Hloc : forall b : bool,
               section_results
                 (if b then mkLocals (section_results loc) (int_incr (n_passed loc)) (n_failed loc)
                  else mkLocals (section_results loc) (n_passed loc) (int_incr (n_failed loc)))
               = section_results loc) by (intros []; reflexivity).
    cbn [section_results] in Hsec. rewrite Hloc in Hsec.
    destruct (message (set_execution_time_ms result (duration_ms start_time end_time)) =? "")%string;
      cbn in Hall, Hmap, Hcfg, Hord;
      (split; [reflexivity|]);
      (split; [rewrite Hsec, <- app_assoc; reflexivity|]);
      (split; [rewrite Hall, <- app_assoc; reflexivity|]);
      (split; [assumption|]); (split; [assumption|]);
      (split; [cbn; now rewrite Hlen|]);
      econstructor; eassumption.
Qed.

(** Whatever the callables do, the loop leaves the registry and the
    configuration alone and only ever appends to [all_results]. *)
Lemma run_tests_frame (total : Z) (ts : list (TestFn World)) :
  forall (i : Z) (loc : Locals) (st : State World),
    let st' := snd (run_tests now duration_ms total i ts loc st) in
    test_sections (self st') = test_sections (self st) /\
    config (self st') = config (self st) /\
    exists rs, all_results (self st') = all_results (self st) ++ rs.
Proof.
  induction ts as [|test ts IH]; intros i loc st; cbn zeta.
  - cbn. repeat split. exists []. now rewrite app_nil_r.
  - cbn [Gpio.run_tests]. cbn [world print].
    destruct (now (world st)) as [start_time w1].
    destruct (test w1) as [[result|] w2].
    + destruct (now w2) as [end_time w3].
      match goal with
      | |- context [Gpio.run_tests _ _ _ _ ts ?l ?s] =>
          destruct (IH (i + 1) l s) as (Hmap & Hcfg & rs & Hall)
      end.
      rewrite Hmap, Hcfg, Hall.
      destruct (message _ =? "")%string; cbn; repeat split;
        eexists; rewrite <- app_assoc; reflexivity.
    + cbn. repeat split. exists []. now rewrite app_nil_r.
Qed.

(** The loop never looks at the map of sections. *)
Lemma run_tests_reseat (m : list (GpioTestSection * TestSection World))
      (total : Z) (ts : list (TestFn World)) :
  forall (i : Z) (loc : Locals) (st : State World),
    run_tests now duration_ms total i ts loc (reseat m st) =
    (fst (run_tests now duration_ms total i ts loc st),
     reseat m (snd (run_tests now duration_ms total i ts loc st))).
Proof.
  induction ts as [|test ts IH]; intros i loc st.
  - reflexivity.
  - cbn [Gpio.run_tests]. cbn [world print reseat].
    destruct (now (world st)) as [start_time w1].
    destruct (test w1) as [[result|] w2]; [|reflexivity].
    destruct (now w2) as [end_time w3].
    destruct (message _ =? "")%string; cbn [world self console print];
      rewrite <- IH; reflexivity.
Qed.

Lemma runSection_frame (section : GpioTestSection) (st : State World) :
  let st' := snd (runSection now duration_ms section st) in
  test_sections (self st') = test_sections (self st) /\
  config (self st') = config (self st) /\
  exists rs, all_results (self st') = all_results (self st) ++ rs.
Proof.
  assert (Hnil : forall l : list TestResult, exists rs, l = l ++ rs)
    by (intros l; exists []; now rewrite app_nil_r).
  unfold Gpio.runSection.
  destruct (StdMap.find section (test_sections (self st))) as [test_section|];
    [|cbn; auto].
  destruct (enabled test_section); cbn [negb]; [|cbn; auto].
  match goal with
  | |- context [Gpio.run_tests _ _ ?t ?i ?ts ?l ?s] =>
      pose proof (run_tests_frame t ts i l s) as Hframe;
      destruct (Gpio.run_tests now duration_ms t i ts l s) as [[loc|] st1]
  end; cbn in Hframe |- *; exact Hframe.
Qed.

Lemma runSection_reseat (m : list (GpioTestSection * TestSection World))
      (section : GpioTestSection) (st : State World) :
  StdMap.find section m = StdMap.find section (test_sections (self st)) ->
  runSection now duration_ms section (reseat m st) =
  (fst (runSection now duration_ms section st),
   reseat m (snd (runSection now duration_ms section st))).
Proof.
  intros Hfind. unfold Gpio.runSection. cbn [self reseat test_sections set_test_sections].
  rewrite Hfind.
  destruct (StdMap.find section (test_sections (self st))) as [test_section|];
    [|reflexivity].
  destruct (enabled test_section); cbn [negb]; [|reflexivity].
  match goal with
  | |- context [Gpio.run_tests _ _ ?t ?i ?ts ?l (print ?o (reseat m st))] =>
      change (print o (reseat m st)) with (reseat m (print o st));
      rewrite (run_tests_reseat m t ts i l (print o st));
      destruct (Gpio.run_tests now duration_ms t i ts l (print o st)) as [[loc|] st1]
  end; reflexivity.
Qed.

Lemma runSection_unknown (section : GpioTestSection) (st : State World) :
  StdMap.find section (test_sections (self st)) = None ->
  runSection now duration_ms section st = (Returned tt, print SectionNotFound st).
Proof. intros Hfind. unfold Gpio.runSection. now rewrite Hfind. Qed.

Lemma runSection_disabled (section : GpioTestSection) (st : State World)
      (test_section : TestSection World) :
  StdMap.find section (test_sections (self st)) = Some test_section ->
  enabled test_section = false ->
  runSection now duration_ms section st =
  (Returned tt, print (SectionDisabled (name test_section)) st).
Proof. intros Hfind Hen. unfold Gpio.runSection. now rewrite Hfind, Hen. Qed.

Lemma runSection_enabled (section : GpioTestSection) (st : State World)
      (test_section : TestSection World) :
  StdMap.find section (test_sections (self st)) = Some test_section ->
  enabled test_section = true ->
  Forall (@returns World) (tests test_section) ->
  exists (outcomes : list TestResult) (st' : State World),
    runSection now duration_ms section st = (Returned tt, st') /\
    all_results (self st') = all_results (self st) ++ outcomes /\
    test_sections (self st') = test_sections (self st) /\
    config (self st') = config (self st) /\
    List.length outcomes = List.length (tests test_section) /\
    invoked_in_order now duration_ms (world st) (tests test_section) outcomes (world st').
Proof.
  intros Hfind Hen Hret. unfold Gpio.runSection. rewrite Hfind, Hen. cbn [negb].
  match goal with
  | |- context [Gpio.run_tests _ _ ?t ?i ?ts ?l ?s] =>
      destruct (run_tests_all_return t Hret i l s)
        as (rs & loc' & st' & Hrun & _ & Hall & Hmap & Hcfg & Hlen & Hord)
  end.
  rewrite Hrun. eexists rs, _. split; [reflexivity|].
  cbn in Hall, Hmap, Hcfg, Hord |- *. auto.
Qed.

Lemma new_outcomes_app (before after : State World) (rs : list TestResult) :
  all_results (self after) = all_results (self before) ++ rs ->
  new_outcomes before after = rs.
Proof.
  intros H. unfold new_outcomes. rewrite H.
  rewrite skipn_app, skipn_all, Nat.sub_diag. reflexivity.
Qed.

Lemma invoked_in_order_app (w w1 w2 : World) (ts1 ts2 : list (TestFn World))
      (rs1 rs2 : list TestResult) :
  invoked_in_order now duration_ms w ts1 rs1 w1 ->
  invoked_in_order now duration_ms w1 ts2 rs2 w2 ->
  invoked_in_order now duration_ms w (ts1 ++ ts2) (rs1 ++ rs2) w2.
Proof.
  induction 1 as [w|w wa wb wc wd s e test ts result rs Hs Hc He _ IH]; intros H2.
  - exact H2.
  - cbn. econstructor; eauto.
Qed.

Lemma selected_cases_returns (g : GpioComprehensiveTest World) (section : GpioTestSection) :
  (forall test_section test,
      StdMap.find section (test_sections g) = Some test_section ->
      In test (tests test_section) -> returns test) ->
  Forall (@returns World) (selected_cases g section).
Proof.
  intros H. unfold selected_cases.
  destruct (StdMap.find section (test_sections g)) as [test_section|]; [|constructor].
  destruct (enabled test_section); [|constructor].
  apply Forall_forall. intros test Hin. eapply H; eauto.
Qed.

(** One selected section: it runs the cases [selected_cases] gives it. *)
Lemma runSection_selected (section : GpioTestSection) (st : State World) :
  Forall (@returns World) (selected_cases (self st) section) ->
  exists (outcomes : list TestResult) (st' : State World),
    runSection now duration_ms section st = (Returned tt, st') /\
    all_results (self st') = all_results (self st) ++ outcomes /\
    test_sections (self st') = test_sections (self st) /\
    invoked_in_order now duration_ms (world st) (selected_cases (self st) section)
                     outcomes (world st').
Proof.
  unfold selected_cases.
  destruct (StdMap.find section (test_sections (self st))) as [test_section|] eqn:Hfind.
  - destruct (enabled test_section) eqn:Hen; intros Hret.
    + destruct (runSection_enabled section st Hfind Hen Hret)
        as (outcomes & st' & Hrun & Hall & Hmap & _ & _ & Hord).
      exists outcomes, st'. auto.
    + rewrite (runSection_disabled section st Hfind Hen).
      exists [], (print (SectionDisabled (name test_section)) st).
      cbn. rewrite app_nil_r. repeat split. constructor.
  - intros _. rewrite (runSection_unknown section st Hfind).
    exists [], (print SectionNotFound st).
    cbn. rewrite app_nil_r. repeat split. constructor.
Qed.

Lemma selected_cases_ext (g1 g2 : GpioComprehensiveTest World) (section : GpioTestSection) :
  test_sections g1 = test_sections g2 ->
  selected_cases g1 section = selected_cases g2 section.
Proof. unfold selected_cases. now intros ->. Qed.

Lemma runSelectedSections_selected (sections : list GpioTestSection) :
  forall st : State World,
    (forall section, In section sections ->
                     Forall (@returns World) (selected_cases (self st) section)) ->
    exists (outcomes : list TestResult) (st' : State World),
      runSelectedSections now duration_ms sections st = (Returned tt, st') /\
      all_results (self st') = all_results (self st) ++ outcomes /\
      test_sections (self st') = test_sections (self st) /\
      invoked_in_order now duration_ms (world st)
                       (flat_map (selected_cases (self st)) sections) outcomes (world st').
Proof.
  induction sections as [|section rest IH]; intros st Hret.
  - exists [], st. cbn. rewrite app_nil_r. repeat split. constructor.
  - destruct (runSection_selected section st (Hret section (or_introl eq_refl)))
      as (rs1 & st1 & Hrun1 & Hall1 & Hmap1 & Hord1).
    destruct (IH st1) as (rs2 & st2 & Hrun2 & Hall2 & Hmap2 & Hord2).
    { intros k Hk. rewrite (selected_cases_ext (self st1) (self st) k Hmap1).
      apply Hret. now right. }
    exists (rs1 ++ rs2), st2. cbn [Gpio.runSelectedSections flat_map].
    rewrite Hrun1, Hrun2. split; [reflexivity|].
    split; [now rewrite Hall2, Hall1, app_assoc|].
    split; [congruence|].
    eapply invoked_in_order_app; [exact Hord1|].
    replace (flat_map (selected_cases (self st)) rest)
      with (flat_map (selected_cases (self st1)) rest); [exact Hord2|].
    apply flat_map_ext. intros k. now apply selected_cases_ext.
Qed.

(** *** Running all sections *)

Lemma runAll_loop_as_selection (entries : list (GpioTestSection * TestSection World)) :
  forall st : State World,
    runAll_loop now duration_ms entries st =
    runSelectedSections now duration_ms
      (filter (fun section => negb (section =? ALL_SECTIONS)) (StdMap.keys entries)) st.
Proof.
  induction entries as [|[section s] entries IH]; intros st; [reflexivity|].
  cbn [Gpio.runAll_loop StdMap.keys map fst filter].
  destruct (negb (section =? ALL_SECTIONS)); [|apply IH].
  cbn [Gpio.runSelectedSections].
  destruct (Gpio.runSection now duration_ms section st) as [[u|] st1]; [apply IH|reflexivity].
Qed.

Lemma runSelectedSections_reseat (m : list (GpioTestSection * TestSection World))
      (sections : list GpioTestSection) :
  forall st : State World,
    (forall section, In section sections ->
                     StdMap.find section m = StdMap.find section (test_sections (self st))) ->
    runSelectedSections now duration_ms sections (reseat m st) =
    (fst (runSelectedSections now duration_ms sections st),
     reseat m (snd (runSelectedSections now duration_ms sections st))).
Proof.
  induction sections as [|section rest IH]; intros st Hagree; [reflexivity|].
  cbn [Gpio.runSelectedSections].
  rewrite (runSection_reseat m section st (Hagree section (or_introl eq_refl))).
  destruct (runSection_frame section st) as (Hmap & _).
  destruct (Gpio.runSection now duration_ms section st) as [[u|] st1]; [|reflexivity].
  cbn [fst snd] in Hmap |- *. apply IH. intros k Hk. rewrite Hmap. apply Hagree. now right.
Qed.

Lemma printOverallSummary_reseat (m : list (GpioTestSection * TestSection World))
      (st : State World) :
  printOverallSummary (reseat m st) = reseat m (printOverallSummary st).
Proof.
  unfold printOverallSummary. cbn [self reseat all_results set_test_sections].
  destruct (fold_left _ _ _) as [[p f] t]. reflexivity.
Qed.

(** *** The claims about the GPIO runner *)

(** C3, as the code has it. An enabled, registered section with N cases,
    none of which throws: [runSection] invokes every case once, in the order the cases were added,
    and appends exactly N outcomes in that order, whatever the cases report
    as [passed]; a case that reports failure does not stop the ones after it. *)
Theorem runSection_runs_every_case (section : GpioTestSection) (st : State World)
        (test_section : TestSection World) :
  StdMap.find section (test_sections (self st)) = Some test_section ->
  enabled test_section = true ->
  (forall test, In test (tests test_section) -> returns test) ->
  exists (outcomes : list TestResult) (st' : State World),
    runSection now duration_ms section st = (Returned tt, st') /\
    new_outcomes st st' = outcomes /\
    all_results (self st') = all_results (self st) ++ outcomes /\
    List.length outcomes = List.length (tests test_section) /\
    invoked_in_order now duration_ms (world st) (tests test_section) outcomes (world st').
Proof.
  intros Hfind Hen Hret. apply Forall_forall in Hret.
  destruct (runSection_enabled section st Hfind Hen Hret)
    as (outcomes & st' & Hrun & Hall & _ & _ & Hlen & Hord).
  exists outcomes, st'. repeat split; try assumption.
  now apply new_outcomes_app.
Qed.

(** C4. A registered section whose [enabled] flag is false: [runSection]
    returns at once, no case is invoked, no outcome is recorded, and the
    result list with all the counts derived from it is what it was. *)
Theorem runSection_disabled_is_noop (section : GpioTestSection) (st : State World)
        (test_section : TestSection World) :
  StdMap.find section (test_sections (self st)) = Some test_section ->
  enabled test_section = false ->
  exists st' : State World,
    runSection now duration_ms section st = (Returned tt, st') /\
    new_outcomes st st' = [] /\
    world st' = world st /\
    console st' = console st ++ [SectionDisabled (name test_section)] /\
    getResults (self st') = getResults (self st) /\
    getTotalTestCount (self st') = getTotalTestCount (self st) /\
    getPassedTestCount (self st') = getPassedTestCount (self st) /\
    getFailedTestCount (self st') = getFailedTestCount (self st) /\
    getTotalExecutionTime (self st') = getTotalExecutionTime (self st).
Proof.
  intros Hfind Hen. rewrite (runSection_disabled section st Hfind Hen).
  eexists. split; [reflexivity|]. cbn [self world console print].
  split; [|repeat split].
  apply new_outcomes_app. cbn. now rewrite app_nil_r.
Qed.

(** Two runs of one section. No call of [runSection] removes an outcome
    recorded before it; and starting from an empty result list, running the
    same enabled section of N cases, none of which throws, twice with no
    [clearResults] in between leaves 2N outcomes: the second run appends to
    the outcomes of the first. The count that [getTotalTestCount] returns
    is an [int]; it is N and then 2N as long as 2N fits one. *)
Lemma runSection_twice (section : GpioTestSection) (st : State World)
        (test_section : TestSection World) :
  StdMap.find section (test_sections (self st)) = Some test_section ->
  enabled test_section = true ->
  (forall test, In test (tests test_section) -> returns test) ->
  all_results (self st) = [] ->
  (forall (any : GpioTestSection) (st0 : State World),
      exists appended : list TestResult,
        getResults (self (snd (runSection now duration_ms any st0)))
        = getResults (self st0) ++ appended) /\
  exists (first second : list TestResult) (st1 st2 : State World),
    runSection now duration_ms section st = (Returned tt, st1) /\
    runSection now duration_ms section st1 = (Returned tt, st2) /\
    getResults (self st1) = first /\
    getResults (self st2) = first ++ second /\
    List.length first = List.length (tests test_section) /\
    List.length second = List.length (tests test_section) /\
    (2 * Z.of_nat (List.length (tests test_section)) <= INT_MAX ->
     getTotalTestCount (self st1) = Z.of_nat (List.length (tests test_section)) /\
     getTotalTestCount (self st2) = 2 * Z.of_nat (List.length (tests test_section))).
Proof.
  intros Hfind Hen Hret Hempty. split.
  { intros any st0. now destruct (runSection_frame any st0) as (_ & _ & Hkeep). }
  apply Forall_forall in Hret.
  destruct (runSection_enabled section st Hfind Hen Hret)
    as (first & st1 & Hrun1 & Hall1 & Hmap1 & _ & Hlen1 & _).
  rewrite <- Hmap1 in Hfind.
  destruct (runSection_enabled section st1 Hfind Hen Hret)
    as (second & st2 & Hrun2 & Hall2 & _ & _ & Hlen2 & _).
  rewrite Hempty in Hall1. cbn in Hall1. rewrite Hall1 in Hall2.
  exists first, second, st1, st2. unfold getResults, getTotalTestCount.
  rewrite Hall1, Hall2, length_app, Hlen1, Hlen2, Nat2Z.inj_add.
  repeat split; try assumption;
    unfold INT_MAX in *; rewrite to_int_small by (unfold INT_MAX; lia); lia.
Qed.

(** C8. [clearResults] empties the result list, so that the total, passed
    and failed counts are 0 and the total duration is 0.0, and it leaves the
    map of sections, hence every [enabled] flag and every timeout, as it was. *)
Theorem clearResults_resets_counts_only (g : GpioComprehensiveTest World) :
  getResults (clearResults g) = [] /\
  getTotalTestCount (clearResults g) = 0 /\
  getPassedTestCount (clearResults g) = 0 /\
  getFailedTestCount (clearResults g) = 0 /\
  getTotalExecutionTime (clearResults g) = double_zero /\
  hasFailures (clearResults g) = false /\
  test_sections (clearResults g) = test_sections g /\
  config (clearResults g) = config g /\
  (forall section,
      isSectionEnabled section (clearResults g) = isSectionEnabled section g /\
      option_map (@timeout_seconds World) (StdMap.find section (test_sections (clearResults g)))
      = option_map (@timeout_seconds World) (StdMap.find section (test_sections g))).
Proof.
  repeat split.
Qed.

(** C10. For an identifier the map does not hold, [isSectionEnabled] is
    false, [getSectionTestCount] is 0, and [enableSection] and
    [setSectionTimeout] give back the object unchanged. *)
Theorem unknown_section_defaults (section : GpioTestSection)
        (g : GpioComprehensiveTest World) :
  StdMap.find section (test_sections g) = None ->
  isSectionEnabled section g = false /\
  getSectionTestCount section g = 0 /\
  (forall enable, enableSection section enable g = g) /\
  (forall timeout, setSectionTimeout section timeout g = g).
Proof.
  intros Hfind.
  unfold isSectionEnabled, getSectionTestCount, enableSection, setSectionTimeout.
  rewrite Hfind. repeat split.
Qed.

Lemma swept_sections_spec (g : GpioComprehensiveTest World) (section : GpioTestSection) :
  In section (swept_sections g) <->
  In section (StdMap.keys (test_sections g)) /\ section <> ALL_SECTIONS.
Proof.
  unfold swept_sections. rewrite filter_In, negb_true_iff, Z.eqb_neq. reflexivity.
Qed.

Lemma runAllSections_as_selection (st : State World) :
  runAllSections now duration_ms st =
  match runSelectedSections now duration_ms (swept_sections (self st))
                            (print RunAllBanner st) with
  | (Thrown, st') => (Thrown, st')
  | (Returned _, st') => (Returned tt, printOverallSummary st')
  end.
Proof.
  unfold Gpio.runAllSections. rewrite runAll_loop_as_selection. reflexivity.
Qed.

Lemma runAllSections_reseat (m : list (GpioTestSection * TestSection World))
      (st : State World) :
  StdMap.keys m = StdMap.keys (test_sections (self st)) ->
  (forall section, section <> ALL_SECTIONS ->
     StdMap.find section m = StdMap.find section (test_sections (self st))) ->
  runAllSections now duration_ms (reseat m st) =
  (fst (runAllSections now duration_ms st),
   reseat m (snd (runAllSections now duration_ms st))).
Proof.
  intros Hkeys Hagree. rewrite !runAllSections_as_selection.
  unfold swept_sections. cbn [self reseat test_sections set_test_sections].
  rewrite Hkeys.
  change (print RunAllBanner (reseat m st)) with (reseat m (print RunAllBanner st)).
  rewrite runSelectedSections_reseat.
  - destruct (Gpio.runSelectedSections _ _ _ _) as [[u|] st1]; [|reflexivity].
    cbn [fst snd]. now rewrite printOverallSummary_reseat.
  - intros k Hk. apply filter_In in Hk. destruct Hk as [_ Hk].
    apply negb_true_iff, Z.eqb_neq in Hk. now apply Hagree.
Qed.

(** C9. [ALL_SECTIONS] is no group of the iterations: [runAllSections] runs
    the keys of the map other than [ALL_SECTIONS], in key order, and what it
    does is the same whatever section is stored under [ALL_SECTIONS];
    [getEnabledSections] never lists it; [enableAllSections] and
    [disableAllSections] set the flag of every other section and leave the
    entry of [ALL_SECTIONS] as it was. *)
Theorem ALL_SECTIONS_is_never_iterated (st : State World) :
  ~ In ALL_SECTIONS (swept_sections (self st)) /\
  runAllSections now duration_ms st =
    match runSelectedSections now duration_ms (swept_sections (self st))
                              (print RunAllBanner st) with
    | (Thrown, st') => (Thrown, st')
    | (Returned _, st') => (Returned tt, printOverallSummary st')
    end /\
  (forall m : list (GpioTestSection * TestSection World),
      StdMap.keys m = StdMap.keys (test_sections (self st)) ->
      (forall section, section <> ALL_SECTIONS ->
         StdMap.find section m = StdMap.find section (test_sections (self st))) ->
      runAllSections now duration_ms (reseat m st) =
      (fst (runAllSections now duration_ms st),
       reseat m (snd (runAllSections now duration_ms st)))) /\
  ~ In ALL_SECTIONS (getEnabledSections (self st)) /\
  (forall sweep_to : bool,
      let swept := if sweep_to then enableAllSections (self st)
                   else disableAllSections (self st) in
      StdMap.find ALL_SECTIONS (test_sections swept) =
      StdMap.find ALL_SECTIONS (test_sections (self st)) /\
      StdMap.keys (test_sections swept) = StdMap.keys (test_sections (self st)) /\
      forall section, section <> ALL_SECTIONS ->
        StdMap.find section (test_sections swept) =
        option_map (fun s => set_enabled s sweep_to)
                   (StdMap.find section (test_sections (self st)))).
Proof.
  split; [|split; [|split; [|split]]].
  - rewrite swept_sections_spec. tauto.
  - apply runAllSections_as_selection.
  - intros m Hkeys Hagree. now apply runAllSections_reseat.
  - unfold getEnabledSections. rewrite in_map_iff.
    intros ([k s] & Hk & Hin). cbn in Hk. subst k.
    apply filter_In in Hin. destruct Hin as [_ Hin].
    cbn [fst snd] in Hin. rewrite Z.eqb_refl in Hin. discriminate Hin.
  - intros [|]; cbv zeta; unfold enableAllSections, disableAllSections;
      cbn [test_sections set_test_sections];
      (split; [|split]);
      try (rewrite find_for_each, Z.eqb_refl; cbn;
           now destruct (StdMap.find ALL_SECTIONS (test_sections (self st))));
      try apply keys_for_each;
      intros section Hne; rewrite find_for_each;
      apply Z.eqb_neq in Hne; rewrite Hne; reflexivity.
Qed.

(** C2, as the code has it. [runSelectedSections] calls [runSection] on the
    given identifiers in the given order, and [runSection] honours the
    [enabled] flag: when no case throws, the outcomes it appends are those of
    the cases of the registered, enabled sections among the given ones, in
    the given order; a section that is disabled or unknown contributes none. *)
Theorem runSelectedSections_honours_enabled (sections : list GpioTestSection)
        (st : State World) :
  (forall section test_section test,
      In section sections ->
      StdMap.find section (test_sections (self st)) = Some test_section ->
      In test (tests test_section) -> returns test) ->
  (forall section,
      isSectionEnabled section (self st) = false ->
      selected_cases (self st) section = []) /\
  exists (outcomes : list TestResult) (st' : State World),
    runSelectedSections now duration_ms sections st = (Returned tt, st') /\
    new_outcomes st st' = outcomes /\
    test_sections (self st') = test_sections (self st) /\
    invoked_in_order now duration_ms (world st)
                     (flat_map (selected_cases (self st)) sections) outcomes (world st').
Proof.
  intros Hret. split.
  - intros section. unfold isSectionEnabled, selected_cases.
    destruct (StdMap.find section (test_sections (self st))) as [s|]; [|reflexivity].
    now intros ->.
  - destruct (runSelectedSections_selected sections st)
      as (outcomes & st' & Hrun & Hall & Hmap & Hord).
    { intros section Hin. apply selected_cases_returns.
      intros test_section test Hfind Htest. eapply Hret; eauto. }
    exists outcomes, st'. repeat split; try assumption.
    now apply new_outcomes_app.
Qed.
End GpioFacts.

(** * The SPI runner *)

Section SpiFacts.
Import Num Spi.
Variable World : Type.
Variable micros : World -> Z * World.
Variables testSpiBegin testSpiEnd testSpiTransfer testSpiTransfer16
          testSpiTransfer32 testSpiTransferBuffer testSpiClockSpeed testSpiMode
          testSpiBitOrder testSpiErrorHandling testSpiPerformance testSpiStress
  : TestFunc World.

Lemma runTest_frame (testFunc : TestFunc World) (testName : string) (st : State World) :
  sectionResults (snd (runTest micros testFunc testName st)) = sectionResults st.
Proof.
  unfold runTest. destruct (micros (world st)) as [startTime w1].
  destruct (testFunc w1) as [[[|]|] w2]; destruct (micros w2) as [endTime w3];
    reflexivity.
Qed.

Lemma runTest_catches (testFunc : TestFunc World) (testName : string) (st : State World) :
  throws testFunc ->
  passed (fst (runTest micros testFunc testName st)) = false /\
  message (fst (runTest micros testFunc testName st)) = "ERROR"%string.
Proof.
  intros Hthrow. unfold runTest. destruct (micros (world st)) as [startTime w1].
  destruct (Hthrow w1) as (w2 & ->). destruct (micros w2) as [endTime w3].
  split; reflexivity.
Qed.

Lemma run_in_order_length (cases : list (TestFunc World * string)) :
  forall st : State World,
    List.length (fst (run_in_order micros cases st)) = List.length cases.
Proof.
  induction cases as [|[f testName] rest IH]; intros st; [reflexivity|].
  cbn [run_in_order]. destruct (runTest micros f testName st) as [r st1].
  specialize (IH st1). destruct (run_in_order micros rest st1) as [rs st2].
  cbn in IH |- *. now rewrite IH.
Qed.


Lemma runSection_out_of_range (section : Z) (st : State World) :
  section >= TOTAL_SECTIONS ->
  runSection micros testSpiBegin testSpiEnd testSpiTransfer testSpiTransfer16
             testSpiTransfer32 testSpiTransferBuffer testSpiClockSpeed testSpiMode
             testSpiBitOrder testSpiErrorHandling testSpiPerformance testSpiStress
             section st
  = (Returned tt, print InvalidSection st).
Proof.
  intros H. unfold runSection.
  destruct (section >=? TOTAL_SECTIONS) eqn:Hge; [reflexivity|].
  apply Z.geb_ge in H. congruence.
Qed.

Lemma runSpecificSection_out_of_range (sectionIndex : Z) (st : State World) :
  sectionIndex < 0 \/ sectionIndex >= TOTAL_SECTIONS ->
  runSpecificSection micros testSpiBegin testSpiEnd testSpiTransfer testSpiTransfer16
             testSpiTransfer32 testSpiTransferBuffer testSpiClockSpeed testSpiMode
             testSpiBitOrder testSpiErrorHandling testSpiPerformance testSpiStress
             sectionIndex st
  = (Returned tt, print (InvalidSectionIndex sectionIndex) st).
Proof.
  intros H. unfold runSpecificSection.
  destruct ((sectionIndex <? 0) || (sectionIndex >=? TOTAL_SECTIONS)) eqn:Hguard;
    [reflexivity|].
  apply orb_false_elim in Hguard. destruct Hguard as [Hlt Hge].
  apply Z.ltb_ge in Hlt. destruct H as [H|H]; [lia|].
  apply Z.geb_ge in H. congruence.
Qed.

(** The first section of the [switch] calls nothing outside [runTest]: it
    completes whatever its two callables do. *)
Lemma runSection_initialization_completes (st : State World) :
  exists st' : State World,
    runSection micros testSpiBegin testSpiEnd testSpiTransfer testSpiTransfer16
               testSpiTransfer32 testSpiTransferBuffer testSpiClockSpeed testSpiMode
               testSpiBitOrder testSpiErrorHandling testSpiPerformance testSpiStress
               SECTION_INITIALIZATION st
    = (Returned tt, st').
Proof.
  unfold runSection.
  change (SECTION_INITIALIZATION >=? TOTAL_SECTIONS) with false. cbv iota.
  change (section_tests testSpiBegin testSpiEnd testSpiTransfer testSpiTransfer16
            testSpiTransfer32 testSpiTransferBuffer testSpiClockSpeed testSpiMode
            testSpiBitOrder testSpiErrorHandling testSpiPerformance testSpiStress
            SECTION_INITIALIZATION)
    with (Some (false, [(testSpiBegin, "SPI Begin"%string); (testSpiEnd, "SPI End"%string)])).
  cbv iota beta zeta.
  destruct (run_in_order micros _ _) as [rs st1].
  match goal with
  | |- context [nth_error ?l ?n] => destruct (nth_error l n)
  end; eexists; reflexivity.
Qed.

End SpiFacts.

(** * Both runners *)

(** C5. An identifier the registry does not hold: [runSection] of the GPIO
    runner reports "not found" and returns, having invoked no case and
    recorded no outcome, with the object as it was; [runSpecificSection] of
    the SPI runner reports the invalid index and returns with the section
    results as they were. In neither does an exception escape. *)
Theorem unknown_group_is_reported_and_skipped :
  (forall (World time_point : Type) (now : World -> time_point * World)
          (duration_ms : time_point -> time_point -> double)
          (section : Gpio.GpioTestSection) (st : Gpio.State World),
      StdMap.find section (Gpio.test_sections (Gpio.self st)) = None ->
      exists st' : Gpio.State World,
        Gpio.runSection now duration_ms section st = (Returned tt, st') /\
        Gpio.new_outcomes st st' = [] /\
        Gpio.self st' = Gpio.self st /\
        Gpio.world st' = Gpio.world st /\
        Gpio.console st' = Gpio.console st ++ [Gpio.SectionNotFound]) /\
  (forall (World : Type) (micros : World -> Z * World)
          (t1 t2 t3 t4 t5 t6 t7 t8 t9 t10 t11 t12 : Spi.TestFunc World)
          (sectionIndex : Z) (st : Spi.State World),
      sectionIndex < 0 \/ sectionIndex >= Spi.TOTAL_SECTIONS ->
      exists st' : Spi.State World,
        Spi.runSpecificSection micros t1 t2 t3 t4 t5 t6 t7 t8 t9 t10 t11 t12 sectionIndex st
        = (Returned tt, st') /\
        Spi.sectionResults st' = Spi.sectionResults st /\
        Spi.world st' = Spi.world st /\
        Spi.serial st' = Spi.serial st ++ [Spi.InvalidSectionIndex sectionIndex]).
Proof.
  split.
  - intros World time_point now duration_ms section st Hfind.
    rewrite (runSection_unknown now duration_ms section st Hfind).
    eexists. split; [reflexivity|]. split; [|repeat split].
    apply new_outcomes_app. cbn. now rewrite app_nil_r.
  - intros World micros t1 t2 t3 t4 t5 t6 t7 t8 t9 t10 t11 t12 sectionIndex st Hout.
    rewrite runSpecificSection_out_of_range by exact Hout.
    eexists. repeat split.
Qed.

(** * Concrete runs on the simulated host *)

(** C1 at its failing inputs: a registered, enabled section without cases
    ([ALL_SECTIONS] of a fresh object) makes [runSection] print a success
    rate of 0 * 100.0 / 0, a NaN; so does the overall summary after a run in
    which no case ran. The average of [getAverageExecutionTime] has the guard
    that the success rates lack. *)
Lemma success_rate_of_no_tests_is_nan :
  Gpio.success_rate 0 0 = S754_nan /\
  Gpio.getSectionTestCount Gpio.ALL_SECTIONS (Gpio.self Sim.gpio) = 0 /\
  Gpio.isSectionEnabled Gpio.ALL_SECTIONS (Gpio.self Sim.gpio) = true /\
  Gpio.console (snd (Gpio.runSection Sim.now Sim.duration_ms Gpio.ALL_SECTIONS Sim.gpio))
  = [Gpio.SectionBanner "All GPIO Tests" "Runs all GPIO test sections in sequence";
     Gpio.SectionSummary "All GPIO Tests" 0 0 0 S754_nan] /\
  last (Gpio.console (snd (Gpio.runAllSections Sim.now Sim.duration_ms Sim.gpio_all_disabled)))
       Gpio.SectionNotFound
  = Gpio.OverallSummary 0 0 0 S754_nan double_zero /\
  Spi.success_rate 0 0 = S754_nan /\
  Spi.average_duration 0 0 = S754_nan /\
  Gpio.getAverageExecutionTime (Gpio.self Sim.gpio) = double_zero.
Proof.
  repeat split; vm_compute; reflexivity.
Qed.

Lemma runSection_runs_every_case_witness :
  exists (outcomes : list Gpio.TestResult) (st' : Gpio.State Sim.World),
    Gpio.runSection Sim.now Sim.duration_ms Gpio.BASIC_GPIO_OPERATIONS
      (Sim.one_section [Sim.passing; Sim.failing; Sim.failing; Sim.passing])
    = (Returned tt, st') /\
    Gpio.new_outcomes
      (Sim.one_section [Sim.passing; Sim.failing; Sim.failing; Sim.passing]) st' = outcomes /\
    Gpio.all_results (Gpio.self st') = [] ++ outcomes /\
    List.length outcomes = 4%nat /\
    Gpio.invoked_in_order Sim.now Sim.duration_ms 0
      [Sim.passing; Sim.failing; Sim.failing; Sim.passing] outcomes (Gpio.world st').
Proof.
  apply (@runSection_runs_every_case Sim.World Z Sim.now Sim.duration_ms
           Gpio.BASIC_GPIO_OPERATIONS
           (Sim.one_section [Sim.passing; Sim.failing; Sim.failing; Sim.passing])
           (Gpio.mkTestSection "Basic" "one section"
              [Sim.passing; Sim.failing; Sim.failing; Sim.passing] true 25)).
  - reflexivity.
  - reflexivity.
  - intros test [<-|[<-|[<-|[<-|[]]]]] w; eexists _, _; reflexivity.
Defined.

Lemma runSection_disabled_is_noop_witness :
  exists test_section : Gpio.TestSection Sim.World,
    StdMap.find Gpio.BASIC_GPIO_OPERATIONS
                (Gpio.test_sections (Gpio.self Sim.gpio_basic_disabled)) = Some test_section /\
    Gpio.enabled test_section = false /\
    List.length (Gpio.tests test_section) = 5%nat /\
    exists st' : Gpio.State Sim.World,
      Gpio.runSection Sim.now Sim.duration_ms Gpio.BASIC_GPIO_OPERATIONS
                      Sim.gpio_basic_disabled = (Returned tt, st') /\
      Gpio.new_outcomes Sim.gpio_basic_disabled st' = [] /\
      Gpio.world st' = Gpio.world Sim.gpio_basic_disabled /\
      Gpio.console st' =
        Gpio.console Sim.gpio_basic_disabled ++
        [Gpio.SectionDisabled (Gpio.name test_section)] /\
      Gpio.getResults (Gpio.self st') = Gpio.getResults (Gpio.self Sim.gpio_basic_disabled) /\
      Gpio.getTotalTestCount (Gpio.self st')
      = Gpio.getTotalTestCount (Gpio.self Sim.gpio_basic_disabled) /\
      Gpio.getPassedTestCount (Gpio.self st')
      = Gpio.getPassedTestCount (Gpio.self Sim.gpio_basic_disabled) /\
      Gpio.getFailedTestCount (Gpio.self st')
      = Gpio.getFailedTestCount (Gpio.self Sim.gpio_basic_disabled) /\
      Gpio.getTotalExecutionTime (Gpio.self st')
      = Gpio.getTotalExecutionTime (Gpio.self Sim.gpio_basic_disabled).
Proof.
  eexists. split; [reflexivity|]. split; [reflexivity|]. split; [reflexivity|].
  apply (@runSection_disabled_is_noop Sim.World Z Sim.now Sim.duration_ms
           Gpio.BASIC_GPIO_OPERATIONS Sim.gpio_basic_disabled); reflexivity.
Defined.

Lemma unknown_section_defaults_witness :
  Gpio.isSectionEnabled 7 (Gpio.construct_default Sim.World) = false /\
  Gpio.getSectionTestCount 7 (Gpio.construct_default Sim.World) = 0 /\
  (forall enable,
      Gpio.enableSection 7 enable (Gpio.construct_default Sim.World)
      = Gpio.construct_default Sim.World) /\
  (forall timeout,
      Gpio.setSectionTimeout 7 timeout (Gpio.construct_default Sim.World)
      = Gpio.construct_default Sim.World).
Proof.
  apply (@unknown_section_defaults Sim.World 7 (Gpio.construct_default Sim.World)).
  reflexivity.
Defined.

Lemma unknown_group_is_reported_and_skipped_witness :
  (exists st' : Gpio.State Sim.World,
      Gpio.runSection Sim.now Sim.duration_ms 42 Sim.gpio = (Returned tt, st') /\
      Gpio.new_outcomes Sim.gpio st' = [] /\
      Gpio.self st' = Gpio.self Sim.gpio /\
      Gpio.world st' = Gpio.world Sim.gpio /\
      Gpio.console st' = Gpio.console Sim.gpio ++ [Gpio.SectionNotFound]) /\
  (exists st' : Spi.State Sim.World,
      Spi.runSpecificSection Sim.micros Sim.spi_ok Sim.spi_ok Sim.spi_ok Sim.spi_ok
        Sim.spi_ok Sim.spi_ok Sim.spi_ok Sim.spi_ok Sim.spi_ok Sim.spi_ok Sim.spi_ok
        Sim.spi_ok 7 Sim.spi = (Returned tt, st') /\
      Spi.sectionResults st' = Spi.sectionResults Sim.spi /\
      Spi.world st' = Spi.world Sim.spi /\
      Spi.serial st' = Spi.serial Sim.spi ++ [Spi.InvalidSectionIndex 7]).
Proof.
  split.
  - apply (proj1 unknown_group_is_reported_and_skipped
             Sim.World Z Sim.now Sim.duration_ms 42 Sim.gpio).
    reflexivity.
  - apply (proj2 unknown_group_is_reported_and_skipped
             Sim.World Sim.micros Sim.spi_ok Sim.spi_ok Sim.spi_ok Sim.spi_ok
             Sim.spi_ok Sim.spi_ok Sim.spi_ok Sim.spi_ok Sim.spi_ok Sim.spi_ok Sim.spi_ok
             Sim.spi_ok 7 Sim.spi).
    right. vm_compute. discriminate.
Defined.

(** C2 as stated fails: the fresh object with [BASIC_GPIO_OPERATIONS]
    disabled holds five cases under it, and selecting that section runs none
    of them. *)
Lemma runSelectedSections_skips_a_disabled_section :
  Gpio.isSectionEnabled Gpio.BASIC_GPIO_OPERATIONS (Gpio.self Sim.gpio_basic_disabled) = false /\
  Gpio.getSectionTestCount Gpio.BASIC_GPIO_OPERATIONS (Gpio.self Sim.gpio_basic_disabled) = 5 /\
  fst (Gpio.runSelectedSections Sim.now Sim.duration_ms [Gpio.BASIC_GPIO_OPERATIONS]
         Sim.gpio_basic_disabled) = Returned tt /\
  Gpio.getResults
    (Gpio.self (snd (Gpio.runSelectedSections Sim.now Sim.duration_ms
                       [Gpio.BASIC_GPIO_OPERATIONS] Sim.gpio_basic_disabled))) = [] /\
  Gpio.console
    (snd (Gpio.runSelectedSections Sim.now Sim.duration_ms
            [Gpio.BASIC_GPIO_OPERATIONS] Sim.gpio_basic_disabled))
  = [Gpio.SectionDisabled "Basic GPIO Operations"].
Proof.
  repeat split.
Qed.

Lemma placeholder_returns (World : Type) (test : string) :
  Gpio.returns (@Gpio.placeholder World test).
Proof. intros w. eexists _, _. reflexivity. Qed.

Lemma runSelectedSections_honours_enabled_witness :
  (forall section,
      Gpio.isSectionEnabled section (Gpio.self Sim.gpio_basic_disabled) = false ->
      Gpio.selected_cases (Gpio.self Sim.gpio_basic_disabled) section = []) /\
  exists (outcomes : list Gpio.TestResult) (st' : Gpio.State Sim.World),
    Gpio.runSelectedSections Sim.now Sim.duration_ms
      [Gpio.GPIO_EDGE_CASES; Gpio.BASIC_GPIO_OPERATIONS; 42; Gpio.GPIO_ANALOG_READS]
      Sim.gpio_basic_disabled = (Returned tt, st') /\
    Gpio.new_outcomes Sim.gpio_basic_disabled st' = outcomes /\
    Gpio.test_sections (Gpio.self st') = Gpio.test_sections (Gpio.self Sim.gpio_basic_disabled) /\
    Gpio.invoked_in_order Sim.now Sim.duration_ms (Gpio.world Sim.gpio_basic_disabled)
      (flat_map (Gpio.selected_cases (Gpio.self Sim.gpio_basic_disabled))
         [Gpio.GPIO_EDGE_CASES; Gpio.BASIC_GPIO_OPERATIONS; 42; Gpio.GPIO_ANALOG_READS])
      outcomes (Gpio.world st').
Proof.
  apply (@runSelectedSections_honours_enabled Sim.World Z Sim.now Sim.duration_ms
           [Gpio.GPIO_EDGE_CASES; Gpio.BASIC_GPIO_OPERATIONS; 42; Gpio.GPIO_ANALOG_READS]
           Sim.gpio_basic_disabled).
  intros section test_section test [<-|[<-|[<-|[<-|[]]]]] Hfind Htest;
    cbv in Hfind; try discriminate Hfind;
    injection Hfind as <-; cbn in Htest;
    repeat (destruct Htest as [<-|Htest]; [apply placeholder_returns|]);
    destruct Htest.
Defined.

(** C3 as stated fails when a case throws: the section is registered and
    enabled and holds three cases, yet [runSection] does not return, and
    one outcome is recorded where the claim has three: the cases after the
    one that throws are not invoked. *)
Lemma runSection_does_not_run_every_case :
  (exists test_section : Gpio.TestSection Sim.World,
      StdMap.find Gpio.BASIC_GPIO_OPERATIONS (Gpio.test_sections (Gpio.self Sim.gpio_faulty))
      = Some test_section /\
      Gpio.enabled test_section = true /\
      List.length (Gpio.tests test_section) = 3%nat) /\
  ~ (exists (outcomes : list Gpio.TestResult) (st' : Gpio.State Sim.World),
        Gpio.runSection Sim.now Sim.duration_ms Gpio.BASIC_GPIO_OPERATIONS Sim.gpio_faulty
        = (Returned tt, st') /\
        Gpio.all_results (Gpio.self st')
        = Gpio.all_results (Gpio.self Sim.gpio_faulty) ++ outcomes /\
        List.length outcomes = 3%nat) /\
  List.length
    (Gpio.getResults
       (Gpio.self (snd (Gpio.runSection Sim.now Sim.duration_ms
                          Gpio.BASIC_GPIO_OPERATIONS Sim.gpio_faulty)))) = 1%nat.
Proof.
  split; [|split].
  - eexists. repeat split.
  - intros (outcomes & st' & Hrun & _).
    assert (Hthrown : fst (Gpio.runSection Sim.now Sim.duration_ms
                             Gpio.BASIC_GPIO_OPERATIONS Sim.gpio_faulty) = Thrown)
      by reflexivity.
    rewrite Hrun in Hthrown. discriminate Hthrown.
  - reflexivity.
Qed.



Lemma ALL_SECTIONS_is_never_iterated_witness :
  StdMap.find Gpio.ALL_SECTIONS Sim.sections_with_cases_under_ALL
  <> StdMap.find Gpio.ALL_SECTIONS (Gpio.test_sections (Gpio.self Sim.gpio)) /\
  Gpio.runAllSections Sim.now Sim.duration_ms
    (Gpio.reseat Sim.sections_with_cases_under_ALL Sim.gpio)
  = (fst (Gpio.runAllSections Sim.now Sim.duration_ms Sim.gpio),
     Gpio.reseat Sim.sections_with_cases_under_ALL
       (snd (Gpio.runAllSections Sim.now Sim.duration_ms Sim.gpio))).
Proof.
  split.
  - cbv. discriminate.
  - apply (proj1 (proj2 (proj2
             (@ALL_SECTIONS_is_never_iterated Sim.World Z Sim.now Sim.duration_ms Sim.gpio)))).
    + reflexivity.
    + intros section Hne. unfold Sim.sections_with_cases_under_ALL.
      apply find_assign_other. congruence.
Defined.

(** * The PWM table, for comparison *)

(** A section function of the PWM file appends to the table: two runs of
    the frequency section leave ten results. *)
Remark pwm_section_runs_accumulate :
  Pwm.test_result_count (Sim.run_frequency_tests Sim.pwm) = 5 /\
  Pwm.test_result_count (Sim.run_frequency_tests (Sim.run_frequency_tests Sim.pwm)) = 10.
Proof. split; reflexivity. Qed.

(** Its run-all entry point sets the count back to 0 before it runs the
    sections: a second full run leaves the 23 results of one run. *)
Remark pwm_full_run_starts_from_zero :
  Pwm.test_result_count (Sim.run_pwm_comprehensive_tests Sim.pwm) = 23 /\
  Pwm.test_result_count
    (Sim.run_pwm_comprehensive_tests (Sim.run_pwm_comprehensive_tests Sim.pwm)) = 23.
Proof. split; vm_compute; reflexivity. Qed.

(** Its selection entry point overwrites the flags with the selection and
    runs the selected sections in the file's fixed order: selecting stress
    before performance, with stress disabled beforehand, runs performance
    first and then stress. *)
Remark pwm_selection_overwrites_flags :
  Pwm.test_section_enabled
    (Sim.run_specific_test_sections
       [Pwm.SECTION_STRESS_TESTS; Pwm.SECTION_PERFORMANCE_TESTS]
       (Pwm.enable_test_section Pwm.SECTION_STRESS_TESTS false Sim.pwm))
  = [false; false; false; false; true; false; true] /\
  map Pwm.test_name
    (firstn 2 (Pwm.test_results
                 (Sim.run_specific_test_sections
                    [Pwm.SECTION_STRESS_TESTS; Pwm.SECTION_PERFORMANCE_TESTS]
                    (Pwm.enable_test_section Pwm.SECTION_STRESS_TESTS false Sim.pwm))))
  = ["High Frequency Switching"%string; "Continuous Operation"%string].
Proof. split; vm_compute; reflexivity. Qed.

(** * More about the GPIO object *)

Section GpioCounts.
Import Gpio GpioSpec.
Variable World : Type.

Lemma count_loop (A : Type) (p : A -> bool) (rs : list A) :
  forall n : Z,
    0 <= n -> n + Z.of_nat (List.length rs) <= INT_MAX ->
    fold_left (fun n r => if p r then int_incr n else n) rs n
    = n + Z.of_nat (List.length (filter p rs)).
Proof.
  induction rs as [|r rs IH]; intros n Hn Hmax; cbn [fold_left filter List.length].
  - lia.
  - cbn [List.length] in Hmax. rewrite Nat2Z.inj_succ in Hmax.
    destruct (p r).
    + unfold int_incr. rewrite to_int_small by (unfold INT_MAX in *; lia).
      rewrite IH by lia. cbn [List.length]. lia.
    + rewrite IH by lia. lia.
Qed.

Lemma filter_partition_length (A : Type) (p : A -> bool) (rs : list A) :
  (List.length (filter p rs) + List.length (filter (fun r => negb (p r)) rs))%nat
  = List.length rs.
Proof.
  induction rs as [|r rs IH]; [reflexivity|].
  cbn [filter]. destruct (p r); cbn [negb List.length]; lia.
Qed.

Lemma counters_count (g : GpioComprehensiveTest World) :
  Z.of_nat (List.length (all_results g)) <= INT_MAX ->
  getPassedTestCount g = passed_among (all_results g) /\
  getFailedTestCount g = failed_among (all_results g) /\
  getTotalTestCount g = Z.of_nat (List.length (all_results g)) /\
  passed_among (all_results g) + failed_among (all_results g)
  = Z.of_nat (List.length (all_results g)).
Proof.
  intros Hmax.
  unfold getPassedTestCount, getFailedTestCount, getTotalTestCount,
    passed_among, failed_among.
  rewrite (count_loop passed) by lia.
  rewrite (count_loop (fun r => negb (passed r))) by lia.
  rewrite to_int_small by (unfold INT_MAX in *; lia).
  pose proof (filter_partition_length passed (all_results g)).
  repeat split; lia.
Qed.

(** X1. The three counters split the result list: as long as the list is no
    longer than [INT_MAX], the passed and failed counts are the numbers of
    passed and failed outcomes and add up to the total. *)
Theorem counts_partition_results (g : GpioComprehensiveTest World) :
  Z.of_nat (List.length (all_results g)) <= INT_MAX ->
  getPassedTestCount g = passed_among (getResults g) /\
  getFailedTestCount g = failed_among (getResults g) /\
  getPassedTestCount g + getFailedTestCount g = getTotalTestCount g.
Proof.
  intros Hmax. unfold getResults.
  destruct (counters_count g Hmax) as (Hp & Hf & Ht & Hsum).
  rewrite Hp, Hf, Ht. auto.
Qed.

(** X2. [hasFailures] is true exactly when some recorded outcome did not pass,
    which (for a list no longer than [INT_MAX]) is when the failed count is
    not 0. *)
Theorem hasFailures_iff_failed_outcome (g : GpioComprehensiveTest World) :
  (hasFailures g = true <-> exists r, In r (getResults g) /\ passed r = false) /\
  (Z.of_nat (List.length (all_results g)) <= INT_MAX ->
   (hasFailures g = true <-> getFailedTestCount g > 0) /\
   (hasFailures g = false <-> getPassedTestCount g = getTotalTestCount g)).
Proof.
  assert (Hex : hasFailures g = true <-> exists r, In r (getResults g) /\ passed r = false).
  { unfold hasFailures, getResults. rewrite existsb_exists.
    split; intros (r & Hin & Hr); exists r; split; try assumption.
    - now apply negb_true_iff in Hr.
    - now apply negb_true_iff. }
  split; [exact Hex|]. intros Hmax.
  assert (Hpos : hasFailures g = true <-> getFailedTestCount g > 0).
  { unfold getFailedTestCount. rewrite (count_loop (fun r => negb (passed r))) by lia.
    rewrite Hex. unfold getResults. split.
    - intros (r & Hin & Hr).
      assert (Hf : In r (filter (fun r => negb (passed r)) (all_results g)))
        by (apply filter_In; split; [assumption|now rewrite Hr]).
      destruct (filter _ (all_results g)); [destruct Hf|cbn [List.length]; lia].
    - intros Hgt.
      destruct (filter (fun r => negb (passed r)) (all_results g)) as [|r l] eqn:Hfil;
        [cbn in Hgt; lia|].
      assert (Hin : In r (filter (fun r => negb (passed r)) (all_results g)))
        by (rewrite Hfil; now left).
      apply filter_In in Hin. destruct Hin as [Hin Hr].
      exists r. split; [assumption|now apply negb_true_iff]. }
  split; [exact Hpos|].
  destruct (counters_count g Hmax) as (Hp & Hf & Ht & Hsum).
  rewrite <- not_true_iff_false, Hpos, Hp, Ht. rewrite Hf.
  unfold passed_among, failed_among in *. lia.
Qed.

Lemma overall_loop (rs : list TestResult) :
  forall (p f : Z) (t : double),
    fold_left
      (fun '(p, f, t) r =>
         if passed r then (int_incr p, f, double_add t (execution_time_ms r))
         else (p, int_incr f, double_add t (execution_time_ms r)))
      rs (p, f, t)
    = (fold_left (fun n r => if passed r then int_incr n else n) rs p,
       fold_left (fun n r => if negb (passed r) then int_incr n else n) rs f,
       fold_left (fun t r => double_add t (execution_time_ms r)) rs t).
Proof.
  induction rs as [|r rs IH]; intros p f t; [reflexivity|].
  cbn [fold_left]. destruct (passed r); cbn [negb]; apply IH.
Qed.

(** X3. The overall summary prints what the accessors return: the total, passed
    and failed counts, the success rate computed from them and the total
    execution time. *)
Theorem printOverallSummary_agrees_with_accessors (st : State World) :
  printOverallSummary st
  = print (OverallSummary (getTotalTestCount (self st))
             (getPassedTestCount (self st)) (getFailedTestCount (self st))
             (success_rate (getPassedTestCount (self st)) (getTotalTestCount (self st)))
             (getTotalExecutionTime (self st))) st.
Proof.
  unfold printOverallSummary. rewrite overall_loop. reflexivity.
Qed.

Lemma In_keys_find (V : Type) (k : Z) (m : list (Z * V)) :
  In k (StdMap.keys m) -> exists v, StdMap.find k m = Some v.
Proof.
  induction m as [|[k' v'] m IH]; cbn; [tauto|].
  intros [->|Hin].
  - rewrite Z.eqb_refl. eauto.
  - destruct (k =? k'); eauto.
Qed.

(** X4. [enableSection] and [setSectionTimeout] on a registered section change
    that one field of that one section: the flag (or the timeout) reads back
    as set, the section keeps its cases, every other section and the
    recorded results stay as they were. *)
Theorem setters_change_one_field (section : GpioTestSection)
        (g : GpioComprehensiveTest World) (s : TestSection World) :
  StdMap.find section (test_sections g) = Some s ->
  (forall enable : bool,
      let g' := enableSection section enable g in
      isSectionEnabled section g' = enable /\
      StdMap.find section (test_sections g') = Some (set_enabled s enable) /\
      getSectionTestCount section g' = getSectionTestCount section g /\
      (forall other, other <> section ->
         StdMap.find other (test_sections g') = StdMap.find other (test_sections g)) /\
      getResults g' = getResults g) /\
  (forall timeout : Z,
      let g' := setSectionTimeout section timeout g in
      StdMap.find section (test_sections g') = Some (set_timeout_seconds s timeout) /\
      isSectionEnabled section g' = isSectionEnabled section g /\
      getSectionTestCount section g' = getSectionTestCount section g /\
      (forall other, other <> section ->
         StdMap.find other (test_sections g') = StdMap.find other (test_sections g)) /\
      getResults g' = getResults g).
Proof.
  intros Hfind. split; intros x; cbv zeta;
    unfold enableSection, setSectionTimeout, isSectionEnabled, getSectionTestCount, getResults;
    rewrite Hfind; cbn [test_sections set_test_sections all_results];
    rewrite find_assign_same, ?Hfind; cbn;
    repeat split; intros other Hne; apply find_assign_other; congruence.
Qed.

Lemma getEnabledSections_after_sweep (b : bool) (m : list (GpioTestSection * TestSection World)) :
  map fst
    (filter (fun kv => negb (fst kv =? ALL_SECTIONS) && enabled (snd kv))
       (StdMap.for_each
          (fun section s => if negb (section =? ALL_SECTIONS) then set_enabled s b else s) m))
  = if b then filter (fun section => negb (section =? ALL_SECTIONS)) (StdMap.keys m)
    else map fst (filter (fun kv => (fst kv =? ALL_SECTIONS) && false) m).
Proof.
  unfold StdMap.for_each, StdMap.keys.
  induction m as [|[k s] m IH]; [now destruct b|].
  cbn [map filter fst snd].
  destruct (k =? ALL_SECTIONS) eqn:Hk; cbn [negb andb].
  - destruct b; cbn [andb]; exact IH.
  - destruct b; cbn [enabled set_enabled map fst]; [now rewrite IH|exact IH].
Qed.

(** X5. After [enableAllSections] the enabled sections are all the keys of the
    map but [ALL_SECTIONS], in key order; after [disableAllSections] there
    are none; and whatever the flags, [getEnabledSections] lists only
    registered sections whose flag reads true. *)
Theorem sweeps_set_the_enabled_list (g : GpioComprehensiveTest World) :
  getEnabledSections (enableAllSections g) = swept_sections g /\
  getEnabledSections (disableAllSections g) = [] /\
  (forall section, In section (swept_sections g) ->
     isSectionEnabled section (enableAllSections g) = true /\
     isSectionEnabled section (disableAllSections g) = false) /\
  (forall section, In section (getEnabledSections g) ->
     In section (swept_sections g)).
Proof.
  split; [|split; [|split]].
  - unfold getEnabledSections, enableAllSections, swept_sections.
    cbn [test_sections set_test_sections].
    now rewrite (getEnabledSections_after_sweep true).
  - unfold getEnabledSections, disableAllSections.
    cbn [test_sections set_test_sections].
    rewrite (getEnabledSections_after_sweep false).
    induction (test_sections g) as [|[k s] m IH]; [reflexivity|].
    cbn [filter fst]. now rewrite andb_false_r.
  - intros section Hin. unfold swept_sections in Hin. apply filter_In in Hin.
    destruct Hin as [Hin Hne].
    destruct (In_keys_find section (test_sections g) Hin) as (s & Hfind).
    unfold isSectionEnabled, enableAllSections, disableAllSections.
    cbn [test_sections set_test_sections].
    rewrite !find_for_each, Hfind. cbn [option_map]. rewrite Hne. split; reflexivity.
  - intros section Hin. unfold getEnabledSections in Hin.
    apply in_map_iff in Hin. destruct Hin as ([k s] & Hk & Hin). cbn in Hk. subst k.
    apply filter_In in Hin. destruct Hin as [Hin Hcond]. cbn [fst snd] in Hcond.
    apply andb_prop in Hcond. destruct Hcond as [Hne _].
    unfold swept_sections. apply filter_In. split; [|exact Hne].
    unfold StdMap.keys. apply in_map_iff. exists (section, s). auto.
Qed.
End GpioCounts.

(** * More about the GPIO runs *)

Section GpioRuns.
Import Gpio GpioSpec.
Variables World time_point : Type.
Variable now : World -> time_point * World.
Variable duration_ms : time_point -> time_point -> double.

Lemma run_tests_app (total : Z) (ts1 ts2 : list (TestFn World)) :
  forall (i : Z) (loc : Locals) (st : State World),
    run_tests now duration_ms total i (ts1 ++ ts2) loc st =
    match run_tests now duration_ms total i ts1 loc st with
    | (Returned loc1, st1) =>
        run_tests now duration_ms total (i + Z.of_nat (List.length ts1)) ts2 loc1 st1
    | (Thrown, st1) => (Thrown, st1)
    end.
Proof.
  induction ts1 as [|test ts1 IH]; intros i loc st.
  - cbn. now rewrite Z.add_0_r.
  - cbn [app Gpio.run_tests]. cbn [world print].
    destruct (now (world st)) as [start_time w1].
    destruct (test w1) as [[result|] w2]; [|reflexivity].
    destruct (now w2) as [end_time w3].
    rewrite IH. cbn [List.length]. rewrite Nat2Z.inj_succ.
    replace (i + 1 + Z.of_nat (List.length ts1)) with (i + Z.succ (Z.of_nat (List.length ts1)))
      by lia.
    reflexivity.
Qed.

(** What the loop leaves in its locals and on the console when every case
    returns. *)
Lemma run_tests_tally (total : Z) (ts : list (TestFn World)) :
  Forall (@returns World) ts ->
  forall (i : Z) (loc : Locals) (st : State World),
  exists (rs : list TestResult) (lines : list Output) (loc' : Locals) (st' : State World),
    run_tests now duration_ms total i ts loc st = (Returned loc', st') /\
    all_results (self st') = all_results (self st) ++ rs /\
    List.length rs = List.length ts /\
    console st' = console st ++ lines /\
    n_passed loc'
    = fold_left (fun n r => if passed r then int_incr n else n) rs (n_passed loc) /\
    n_failed loc'
    = fold_left (fun n r => if negb (passed r) then int_incr n else n) rs (n_failed loc).
Proof.
  induction 1 as [|test ts Hret _ IH]; intros i loc st.
  - exists [], [], loc, st. cbn. rewrite !app_nil_r. repeat split.
  - cbn [Gpio.run_tests]. cbn [world print].
    destruct (now (world st)) as [start_time w1].
    destruct (Hret w1) as (result & w2 & Hcall). rewrite Hcall.
    destruct (now w2) as [end_time w3].
    match goal with
    | |- context [Gpio.run_tests _ _ _ _ ts ?l ?s] =>
        destruct (IH (i + 1) l s)
          as (rs & lines & loc' & st' & Hrun & Hall & Hlen & Hcon & Hp & Hf)
    end.
    rewrite Hrun. clear Hrun.
    set (r := set_execution_time_ms result (duration_ms start_time end_time)) in *.
    exists (r :: rs).
    destruct (message r =? "")%string; cbn in Hall, Hcon;
      eexists _, loc', st';
      (split; [reflexivity|]);
      (split; [rewrite Hall, <- app_assoc; reflexivity|]);
      (split; [cbn; now rewrite Hlen|]);
      (split; [rewrite Hcon, <- !app_assoc; reflexivity|]);
      cbn [fold_left]; rewrite Hp, Hf; destruct (passed r); cbn; split; reflexivity.
Qed.

(** X6. The summary line of a section: when every case returns, [runSection]
    prints the banner, the lines of the cases and then a summary whose total
    is the number of cases and whose passed and failed counts are the
    numbers of passed and failed outcomes of this run (for at most
    [INT_MAX] cases), which add up to the total. *)
Theorem runSection_summary_counts_outcomes (section : GpioTestSection) (st : State World)
        (test_section : TestSection World) :
  StdMap.find section (test_sections (self st)) = Some test_section ->
  enabled test_section = true ->
  (forall test, In test (tests test_section) -> returns test) ->
  Z.of_nat (List.length (tests test_section)) <= INT_MAX ->
  exists (outcomes : list TestResult) (lines : list Output) (st' : State World),
    runSection now duration_ms section st = (Returned tt, st') /\
    getResults (self st') = getResults (self st) ++ outcomes /\
    console st'
    = console st
      ++ [SectionBanner (name test_section) (description test_section)]
      ++ lines
      ++ [SectionSummary (name test_section)
            (Z.of_nat (List.length (tests test_section)))
            (passed_among outcomes) (failed_among outcomes)
            (success_rate (passed_among outcomes)
               (Z.of_nat (List.length (tests test_section))))] /\
    passed_among outcomes + failed_among outcomes
    = Z.of_nat (List.length (tests test_section)).
Proof.
  intros Hfind Hen Hret Hmax. apply Forall_forall in Hret.
  unfold Gpio.runSection. rewrite Hfind, Hen. cbn [negb].
  match goal with
  | |- context [Gpio.run_tests _ _ ?t ?i ?ts ?l ?s] =>
      destruct (run_tests_tally t Hret i l s)
        as (rs & lines & loc' & st' & Hrun & Hall & Hlen & Hcon & Hp & Hf)
  end.
  rewrite Hrun. cbn [n_passed n_failed] in Hp, Hf.
  rewrite (count_loop passed) in Hp by lia.
  rewrite (count_loop (fun r => negb (passed r))) in Hf by lia.
  cbn in Hp, Hf, Hall, Hcon.
  exists rs, lines, (print (SectionSummary (name test_section)
                             (Z.of_nat (List.length (tests test_section)))
                             (n_passed loc') (n_failed loc')
                             (success_rate (n_passed loc')
                                (Z.of_nat (List.length (tests test_section))))) st').
  split; [reflexivity|]. unfold getResults, passed_among, failed_among.
  cbn [self console print]. rewrite Hp, Hf, Hall, Hcon.
  split; [reflexivity|]. split; [now rewrite <- !app_assoc|].
  pose proof (filter_partition_length passed rs). lia.
Qed.

(** X7. A case that throws ends the run: [runSection] lets the exception out
    after recording the outcomes of the cases before it and nothing for the
    cases after it, and [runSelectedSections] stops there too, so that the
    sections listed after this one are not run. *)
Theorem runSection_fault_ends_the_run (section : GpioTestSection) (st : State World)
        (test_section : TestSection World)
        (before after : list (TestFn World)) (thrower : TestFn World) :
  StdMap.find section (test_sections (self st)) = Some test_section ->
  enabled test_section = true ->
  tests test_section = before ++ thrower :: after ->
  (forall test, In test before -> returns test) ->
  throws thrower ->
  exists (outcomes : list TestResult) (st' : State World),
    runSection now duration_ms section st = (Thrown, st') /\
    getResults (self st') = getResults (self st) ++ outcomes /\
    List.length outcomes = List.length before /\
    (forall rest : list GpioTestSection,
        runSelectedSections now duration_ms (section :: rest) st = (Thrown, st')).
Proof.
  intros Hfind Hen Hsplit Hret Hthrow. apply Forall_forall in Hret.
  assert (Hrun : exists (outcomes : list TestResult) (st' : State World),
             runSection now duration_ms section st = (Thrown, st') /\
             all_results (self st') = all_results (self st) ++ outcomes /\
             List.length outcomes = List.length before).
  { unfold Gpio.runSection. rewrite Hfind, Hen. cbn [negb]. rewrite Hsplit.
    rewrite run_tests_app.
    match goal with
    | |- context [Gpio.run_tests _ _ ?t ?i before ?l ?s] =>
        destruct (run_tests_tally t Hret i l s)
          as (rs & lines & loc1 & st1 & Hrun1 & Hall & Hlen & _)
    end.
    rewrite Hrun1. cbn [Gpio.run_tests]. cbn [world print].
    destruct (now (world st1)) as [start_time w1].
    destruct (Hthrow w1) as (w2 & ->).
    eexists rs, _. split; [reflexivity|]. cbn in Hall |- *. auto. }
  destruct Hrun as (outcomes & st' & Hrun & Hall & Hlen).
  exists outcomes, st'. repeat split; try assumption.
  intros rest. cbn [Gpio.runSelectedSections]. now rewrite Hrun.
Qed.

Lemma flat_map_all_nil (A B : Type) (f : A -> list B) (l : list A) :
  (forall a, In a l -> f a = []) -> flat_map f l = [].
Proof.
  induction l as [|a l IH]; intros H; [reflexivity|].
  cbn. rewrite (H a) by now left. apply IH. intros b Hb. apply H. now right.
Qed.

Lemma printOverallSummary_frame (st : State World) :
  self (printOverallSummary st) = self st /\ world (printOverallSummary st) = world st.
Proof.
  unfold printOverallSummary. destruct (fold_left _ _ _) as [[p f] t]. split; reflexivity.
Qed.

(** X8. [runAllSections] runs the cases of the registered, enabled sections
    other than [ALL_SECTIONS], section after section in key order: when none
    of them throws it returns, and the outcomes it appends are theirs, in
    that order. *)
Theorem runAllSections_runs_the_enabled_sections (st : State World) :
  (forall section test_section test,
      In section (swept_sections (self st)) ->
      StdMap.find section (test_sections (self st)) = Some test_section ->
      In test (tests test_section) -> returns test) ->
  exists (outcomes : list TestResult) (st' : State World),
    runAllSections now duration_ms st = (Returned tt, st') /\
    getResults (self st') = getResults (self st) ++ outcomes /\
    test_sections (self st') = test_sections (self st) /\
    invoked_in_order now duration_ms (world st)
      (flat_map (selected_cases (self st)) (swept_sections (self st)))
      outcomes (world st').
Proof.
  intros Hret. rewrite runAllSections_as_selection.
  destruct (runSelectedSections_selected now duration_ms (swept_sections (self st))
              (print RunAllBanner st))
    as (outcomes & st1 & Hrun & Hall & Hmap & Hord).
  { intros section Hin. apply selected_cases_returns.
    intros test_section test Hfind Htest. eapply Hret; eauto. }
  rewrite Hrun. destruct (printOverallSummary_frame st1) as [Hself Hworld].
  exists outcomes, (printOverallSummary st1). unfold getResults.
  rewrite Hself, Hworld. cbn in Hall, Hmap, Hord. auto.
Qed.

(** X9. After [disableAllSections], [runAllSections] invokes no case: it
    returns with the result list and the world as they were. *)
Theorem runAllSections_after_disableAllSections (st : State World) :
  exists st' : State World,
    runAllSections now duration_ms
      (mkState (disableAllSections (self st)) (world st) (console st))
    = (Returned tt, st') /\
    getResults (self st') = getResults (self st) /\
    world st' = world st /\
    getEnabledSections (self st') = [].
Proof.
  set (st0 := mkState (disableAllSections (self st)) (world st) (console st)).
  assert (Hnone : forall section,
             In section (swept_sections (self st0)) ->
             selected_cases (self st0) section = []).
  { intros section Hin. unfold swept_sections in Hin. apply filter_In in Hin.
    destruct Hin as [_ Hne].
    unfold selected_cases, st0, disableAllSections.
    cbn [self test_sections set_test_sections].
    rewrite find_for_each.
    destruct (StdMap.find section (test_sections (self st))); [|reflexivity].
    cbn [option_map]. now rewrite Hne. }
  rewrite runAllSections_as_selection.
  destruct (runSelectedSections_selected now duration_ms (swept_sections (self st0))
              (print RunAllBanner st0))
    as (outcomes & st1 & Hrun & Hall & Hmap & Hord).
  { intros section Hin. cbn [self print]. rewrite (Hnone section Hin). constructor. }
  rewrite Hrun. destruct (printOverallSummary_frame st1) as [Hself Hworld].
  exists (printOverallSummary st1). split; [reflexivity|].
  cbn [self world print] in Hall, Hmap, Hord.
  rewrite (flat_map_all_nil _ _ Hnone) in Hord. inversion Hord; subst.
  unfold getResults, getEnabledSections. rewrite Hself, Hworld, Hall, Hmap.
  split; [now rewrite app_nil_r|]. split; [congruence|].
  unfold st0, disableAllSections. cbn [self test_sections set_test_sections].
  rewrite (getEnabledSections_after_sweep false).
  induction (test_sections (self st)) as [|[k s] m IH]; [reflexivity|].
  cbn [filter fst]. now rewrite andb_false_r.
Qed.
End GpioRuns.

(** * Names of sections and the command line *)

Section GpioCliFacts.
Import Gpio GpioCli.
Variables World time_point : Type.
Variable now : World -> time_point * World.
Variable duration_ms : time_point -> time_point -> double.

Lemma stringToGpioTestSection_named (str : string) :
  In (stringToGpioTestSection str) named_sections.
Proof.
  unfold stringToGpioTestSection, named_sections.
  repeat match goal with
         | |- context [String.eqb str ?s] => destruct (String.eqb str s)
         end; cbn; tauto.
Qed.

(** X10. The two conversions: a named identifier survives the round trip through
    its name; every other identifier prints as ["unknown_section"], which
    reads back as [BASIC_GPIO_OPERATIONS]; every string reads as one of the
    seven named identifiers, and it is one of the seven names exactly when
    printing what was read gives the string back; every string that is
    none of the seven names reads as [BASIC_GPIO_OPERATIONS]. *)
Theorem section_names_round_trip :
  (forall section, In section named_sections ->
     stringToGpioTestSection (gpioTestSectionToString section) = section) /\
  (forall section, ~ In section named_sections ->
     gpioTestSectionToString section = "unknown_section"%string /\
     stringToGpioTestSection (gpioTestSectionToString section) = BASIC_GPIO_OPERATIONS) /\
  (forall str, In (stringToGpioTestSection str) named_sections) /\
  (forall str,
     gpioTestSectionToString (stringToGpioTestSection str) = str <->
     In str (map gpioTestSectionToString named_sections)) /\
  (forall str,
     ~ In str (map gpioTestSectionToString named_sections) ->
     stringToGpioTestSection str = BASIC_GPIO_OPERATIONS).
Proof.
  split; [|split; [|split; [|split]]].
  - intros section Hin. cbn in Hin.
    repeat (destruct Hin as [<-|Hin]; [reflexivity|]). destruct Hin.
  - intros section Hnot.
    assert (Hname : gpioTestSectionToString section = "unknown_section"%string).
    { unfold gpioTestSectionToString.
      repeat match goal with
             | |- context [section =? ?k] =>
                 destruct (Z.eqb_spec section k) as [->|_];
                 [exfalso; apply Hnot; cbn; tauto|]
             end.
      reflexivity. }
    rewrite Hname. split; reflexivity.
  - exact stringToGpioTestSection_named.
  - intros str. split.
    + intros <-. apply in_map, stringToGpioTestSection_named.
    + intros Hin. cbn in Hin.
      repeat (destruct Hin as [<-|Hin]; [reflexivity|]). destruct Hin.
  - intros str Hnot. unfold stringToGpioTestSection.
    repeat match goal with
           | |- context [String.eqb str ?s] =>
               destruct (String.eqb_spec str s) as [->|_];
               [exfalso; apply Hnot; cbn; tauto|]
           end.
    reflexivity.
Qed.

Lemma find_Forall (V : Type) (P : V -> Prop) (k : Z) (v : V) (m : list (Z * V)) :
  Forall (fun kv => P (snd kv)) m -> StdMap.find k m = Some v -> P v.
Proof.
  induction 1 as [|[k' v'] m Hhead _ IH]; cbn; [discriminate|].
  destruct (k =? k'); [|exact IH]. intros [= <-]. exact Hhead.
Qed.

(** Every case the constructor registers is a placeholder that returns. *)
Lemma fresh_cases_return (section : GpioTestSection) (test_section : TestSection World)
      (test : TestFn World) :
  StdMap.find section (test_sections (construct_default World)) = Some test_section ->
  In test (tests test_section) -> returns test.
Proof.
  intros Hfind Hin.
  assert (Hall : Forall (fun kv => Forall (@returns World) (tests (snd kv)))
                        (test_sections (construct_default World))).
  { repeat constructor; intros w; eexists _, _; reflexivity. }
  pose proof (@find_Forall _ (fun s => Forall (@returns World) (tests s)) _ _ _ Hall Hfind)
    as Hts. cbv beta in Hts.
  rewrite Forall_forall in Hts. now apply Hts.
Qed.

Lemma fresh_section_runs (section : GpioTestSection) (w : World) :
  exists st' : State World,
    runSection now duration_ms section (mkState (construct_default World) w [])
    = (Returned tt, st').
Proof.
  destruct (runSection_selected now duration_ms section
              (mkState (construct_default World) w []))
    as (outcomes & st' & Hrun & _).
  - apply selected_cases_returns. intros test_section test. apply fresh_cases_return.
  - eauto.
Qed.

Lemma fresh_runAll_runs (w : World) :
  exists st' : State World,
    runAllSections now duration_ms (mkState (construct_default World) w [])
    = (Returned tt, st').
Proof.
  rewrite runAllSections_as_selection.
  match goal with
  | |- context [Gpio.runSelectedSections _ _ ?l ?s] =>
      destruct (runSelectedSections_selected now duration_ms l s)
        as (outcomes & st' & Hrun & _)
  end.
  - intros section _. apply selected_cases_returns.
    intros test_section test. apply fresh_cases_return.
  - rewrite Hrun. eauto.
Qed.

(** X11. [main] reports success whatever it is asked: the exit status is 0 for
    every command line, an unknown command or a missing argument included,
    and no exception leaves it. *)
Theorem main_exit_status_is_0 (argv : list string) (w : World) :
  fst (fst (main now duration_ms argv w)) = Returned 0.
Proof.
  unfold main.
  destruct argv as [|program [|command rest]]; [reflexivity|reflexivity|].
  repeat match goal with
         | |- context [if ?c then _ else _] =>
             lazymatch c with
             | context [if _ then _ else _] => fail
             | _ => destruct c
             end
         end;
    try reflexivity;
    try (destruct (fresh_runAll_runs w) as (st' & ->); reflexivity);
    match goal with
    | |- context [Gpio.runSection _ _ ?k _] =>
        destruct (fresh_section_runs k w) as (st' & ->); reflexivity
    end.
Qed.

(** X12. [enable <name>] and [disable <name>] set the flag of the section that
    [stringToGpioTestSection] reads from the name, run nothing and leave
    every other section as the constructor made it. A name that is none of
    the seven is read as [BASIC_GPIO_OPERATIONS]: [disable] with a
    misspelt name disables the basic section. *)
Theorem main_enable_disable_by_name (program name : string) (more : list string)
        (enable : bool) (w : World) :
  let command := if enable then "enable"%string else "disable"%string in
  let target := stringToGpioTestSection name in
  exists st' : State World,
    main now duration_ms (program :: command :: name :: more) w
    = (Returned 0, st', [if enable then SectionEnabled name else SectionDisabledByUser name]) /\
    isSectionEnabled target (self st') = enable /\
    (forall other, other <> target ->
       StdMap.find other (test_sections (self st'))
       = StdMap.find other (test_sections (construct_default World))) /\
    getResults (self st') = [] /\
    world st' = w /\
    console st' = [] /\
    (~ In name (map gpioTestSectionToString named_sections) ->
     target = BASIC_GPIO_OPERATIONS).
Proof.
  cbv zeta.
  destruct (In_keys_find (stringToGpioTestSection name)
              (test_sections (construct_default World))) as (s & Hfind).
  { pose proof (stringToGpioTestSection_named name) as Hin. exact Hin. }
  assert (Hfallback : ~ In name (map gpioTestSectionToString named_sections) ->
                      stringToGpioTestSection name = BASIC_GPIO_OPERATIONS).
  { intros Hnot. unfold stringToGpioTestSection.
    repeat match goal with
           | |- context [String.eqb name ?s] =>
               destruct (String.eqb_spec name s) as [->|_];
               [exfalso; apply Hnot; cbn; tauto|]
           end.
    reflexivity. }
  assert (Hargc : forall command,
             (Z.of_nat (List.length (program :: command :: name :: more)) >? 2) = true).
  { intros command. cbn [List.length]. apply Z.gtb_lt. lia. }
  destruct enable; unfold main; rewrite Hargc; cbn [String.eqb Ascii.eqb Bool.eqb andb nth];
    eexists; (split; [reflexivity|]);
    cbn [self world console]; unfold isSectionEnabled, enableSection, getResults;
    rewrite Hfind; cbn [test_sections set_test_sections all_results];
    rewrite find_assign_same; cbn [enabled set_enabled];
    repeat split; try assumption;
    intros other Hne; apply find_assign_other; congruence.
Qed.
End GpioCliFacts.

(** * Fixed arrays *)

Section ArrayFacts.
Context {A : Type}.
Implicit Types (a : list A) (f : A -> A) (i : Z).

Lemma at_index_length i f a : List.length (at_index i f a) = List.length a.
Proof.
  unfold at_index.
  destruct ((0 <=? i) && (i <? Z.of_nat (List.length a))) eqn:Hin; [|reflexivity].
  apply andb_prop in Hin. destruct Hin as [H0 H1].
  apply Z.leb_le in H0. apply Z.ltb_lt in H1.
  rewrite <- (firstn_skipn (Z.to_nat i) a) at 3.
  rewrite !length_app. f_equal.
  destruct (skipn (Z.to_nat i) a) eqn:Hskip; [reflexivity|reflexivity].
Qed.

Lemma nth_error_at_index_same i f a :
  0 <= i < Z.of_nat (List.length a) ->
  nth_error (at_index i f a) (Z.to_nat i) = option_map f (nth_error a (Z.to_nat i)).
Proof.
  intros Hin. unfold at_index.
  replace ((0 <=? i) && (i <? Z.of_nat (List.length a))) with true
    by (symmetry; apply andb_true_intro; split; [apply Z.leb_le|apply Z.ltb_lt]; lia).
  assert (Hlen : List.length (firstn (Z.to_nat i) a) = Z.to_nat i)
    by (rewrite length_firstn; lia).
  rewrite nth_error_app2 by lia. rewrite Hlen, Nat.sub_diag.
  rewrite <- (firstn_skipn (Z.to_nat i) a) at 2.
  rewrite nth_error_app2 by lia. rewrite Hlen, Nat.sub_diag.
  now destruct (skipn (Z.to_nat i) a).
Qed.

Lemma nth_error_at_index_other i f a (j : nat) :
  j <> Z.to_nat i ->
  nth_error (at_index i f a) j = nth_error a j.
Proof.
  intros Hne. unfold at_index.
  destruct ((0 <=? i) && (i <? Z.of_nat (List.length a))) eqn:Hin; [|reflexivity].
  apply andb_prop in Hin. destruct Hin as [H0 H1].
  apply Z.leb_le in H0. apply Z.ltb_lt in H1.
  assert (Hlen : List.length (firstn (Z.to_nat i) a) = Z.to_nat i)
    by (rewrite length_firstn; lia).
  rewrite <- (firstn_skipn (Z.to_nat i) a) at 3.
  destruct (Nat.lt_ge_cases j (Z.to_nat i)) as [Hlt|Hge].
  - rewrite !nth_error_app1 by lia. reflexivity.
  - rewrite !nth_error_app2 by lia. rewrite Hlen.
    destruct (skipn (Z.to_nat i) a) as [|x rest]; [reflexivity|].
    destruct (j - Z.to_nat i)%nat eqn:Hd; [lia|reflexivity].
Qed.
End ArrayFacts.

(** * More about the SPI runner *)

Section SpiRuns.
Import Spi.
Variable World : Type.
Variable micros : World -> Z * World.
Variables testSpiBegin testSpiEnd testSpiTransfer testSpiTransfer16
          testSpiTransfer32 testSpiTransferBuffer testSpiClockSpeed testSpiMode
          testSpiBitOrder testSpiErrorHandling testSpiPerformance testSpiStress
  : TestFunc World.

Local Notation runSection :=
  (Spi.runSection micros testSpiBegin testSpiEnd testSpiTransfer testSpiTransfer16
     testSpiTransfer32 testSpiTransferBuffer testSpiClockSpeed testSpiMode
     testSpiBitOrder testSpiErrorHandling testSpiPerformance testSpiStress).
Local Notation section_tests :=
  (Spi.section_tests testSpiBegin testSpiEnd testSpiTransfer testSpiTransfer16
     testSpiTransfer32 testSpiTransferBuffer testSpiClockSpeed testSpiMode
     testSpiBitOrder testSpiErrorHandling testSpiPerformance testSpiStress).

Lemma run_in_order_frame (cases : list (TestFunc World * string)) :
  forall st : State World,
    sectionResults (snd (run_in_order micros cases st)) = sectionResults st.
Proof.
  induction cases as [|[f testName] rest IH]; intros st; [reflexivity|].
  cbn [run_in_order].
  pose proof (runTest_frame micros f testName st) as Hone.
  destruct (runTest micros f testName st) as [r st1].
  specialize (IH st1). destruct (run_in_order micros rest st1) as [rs st2].
  cbn in *. congruence.
Qed.

Lemma section_tests_valid (section : Z) :
  0 <= section < TOTAL_SECTIONS ->
  exists (begin_first : bool) (cases : list (TestFunc World * string)),
    section_tests section = Some (begin_first, cases) /\
    (begin_first = false <-> section = SECTION_INITIALIZATION) /\
    List.length cases = nth (Z.to_nat section) [2; 4; 3; 1; 1; 1; 1]%nat 0%nat.
Proof.
  unfold TOTAL_SECTIONS. intros H.
  assert (Hcases : section = 0 \/ section = 1 \/ section = 2 \/ section = 3 \/
                   section = 4 \/ section = 5 \/ section = 6) by lia.
  destruct Hcases as [->|[->|[->|[->|[->|[->| ->]]]]]];
    eexists _, _; (split; [reflexivity|]); split; try reflexivity;
    split; try discriminate; reflexivity.
Qed.

(** A valid section whose preparatory [testSpiBegin()] call, if it has one,
    returns. *)
Lemma runSection_body (section : Z) (st : State World) (begin_first : bool)
      (cases : list (TestFunc World * string)) :
  0 <= section < Z.of_nat (List.length (sectionResults st)) ->
  section < TOTAL_SECTIONS ->
  section_tests section = Some (begin_first, cases) ->
  (begin_first = true -> exists b w', testSpiBegin (world st) = (Returned b, w')) ->
  exists (started st' : State World) (rs : list TestResult),
    runSection section st = (Returned tt, st') /\
    world started
    = (if begin_first then snd (testSpiBegin (world st)) else world st) /\
    rs = fst (run_in_order micros cases started) /\
    world st' = world (snd (run_in_order micros cases started)) /\
    nth_error (sectionResults st') (Z.to_nat section)
    = Some (tally (mkSectionResult (nth (Z.to_nat section) SECTION_NAMES ""%string)
                     (Z.of_nat (List.length cases)) 0 0 0 (Some rs)) rs) /\
    (forall j, j <> Z.to_nat section ->
       nth_error (sectionResults st') j = nth_error (sectionResults st) j) /\
    List.length (sectionResults st') = List.length (sectionResults st).
Proof.
  intros Hin Hmax Htests Hbegin. unfold Spi.runSection.
  replace (section >=? TOTAL_SECTIONS) with false
    by (symmetry; rewrite Z.geb_leb; apply Z.leb_gt; lia).
  rewrite Htests.
  set (nm := nth (Z.to_nat section) SECTION_NAMES ""%string).
  set (a := sectionResults st) in *.
  destruct (nth_error a (Z.to_nat section)) as [x|] eqn:Hx;
    [|apply nth_error_None in Hx; lia].
  assert (Hfinish :
            forall started : State World,
              sectionResults started
              = at_index section
                  (fun sr => mkSectionResult (sectionName sr) (Z.of_nat (List.length cases))
                               (passedTests sr) (failedTests sr) (totalDuration sr)
                               (Some (repeat (mkTestResult false "" 0) (List.length cases))))
                  (at_index section
                     (fun sr => mkSectionResult nm 0 0 0 0 (results sr)) a) ->
              exists (st' : State World) (rs : list TestResult),
                (let (c, st0) :=
                   let (rs0, st1) := run_in_order micros cases started in
                   (Returned rs0,
                    set_section section
                      (fun sr => mkSectionResult (sectionName sr) (totalTests sr)
                                   (passedTests sr) (failedTests sr) (totalDuration sr)
                                   (Some rs0)) st1) in
                 match c with
                 | Returned rs0 =>
                     let st0 := set_section section (fun sr => tally sr rs0) st0 in
                     match nth_error (sectionResults st0) (Z.to_nat section) with
                     | Some sr => (Returned tt, printSectionResults sr st0)
                     | None => (Returned tt, st0)
                     end
                 | Thrown => (Thrown, st0)
                 end) = (Returned tt, st') /\
                rs = fst (run_in_order micros cases started) /\
                world st' = world (snd (run_in_order micros cases started)) /\
                nth_error (sectionResults st') (Z.to_nat section)
                = Some (tally (mkSectionResult nm (Z.of_nat (List.length cases)) 0 0 0
                                 (Some rs)) rs) /\
                (forall j, j <> Z.to_nat section ->
                   nth_error (sectionResults st') j = nth_error a j) /\
                List.length (sectionResults st') = List.length a).
  { intros started Hsec.
    pose proof (run_in_order_frame cases started) as Hframe.
    destruct (run_in_order micros cases started) as [rs st5].
    cbn [fst snd] in Hframe |- *. cbv zeta.
    cbn [set_section sectionResults world serial]. rewrite Hframe, Hsec.
    match goal with
    | |- context [nth_error ?l (Z.to_nat section)] =>
        assert (Hnth : nth_error l (Z.to_nat section)
                       = Some (tally (mkSectionResult nm (Z.of_nat (List.length cases))
                                        0 0 0 (Some rs)) rs))
          by (rewrite !nth_error_at_index_same, Hx
                by (rewrite ?at_index_length; lia); reflexivity);
        assert (Hoth : forall j, j <> Z.to_nat section -> nth_error l j = nth_error a j)
          by (intros j Hj; now rewrite !nth_error_at_index_other by exact Hj);
        assert (Hlen : List.length l = List.length a)
          by (now rewrite !at_index_length)
    end.
    rewrite Hnth. eexists _, rs. split; [reflexivity|].
    unfold printSectionResults.
    cbn [set_section sectionResults world serial print]. rewrite Hframe, Hsec. auto. }
  destruct begin_first.
  - destruct (Hbegin eq_refl) as (b & w' & Hb).
    cbn [world set_section print sectionResults serial]. rewrite Hb.
    match goal with
    | |- context [run_in_order micros cases ?s] =>
        destruct (Hfinish s eq_refl) as (st' & rs & Hrun & Hrest);
        exists s, st', rs
    end.
    split; [exact Hrun|]. split; [reflexivity|exact Hrest].
  - match goal with
    | |- context [run_in_order micros cases ?s] =>
        destruct (Hfinish s eq_refl) as (st' & rs & Hrun & Hrest);
        exists s, st', rs
    end.
    split; [exact Hrun|]. split; [reflexivity|exact Hrest].
Qed.

Lemma tally_fields (rs : list TestResult) :
  forall sr : SectionResult,
    sectionName (tally sr rs) = sectionName sr /\
    totalTests (tally sr rs) = totalTests sr /\
    results (tally sr rs) = results sr /\
    passedTests (tally sr rs)
    = fold_left (fun n r => if passed r then int_incr n else n) rs (passedTests sr) /\
    failedTests (tally sr rs)
    = fold_left (fun n r => if negb (passed r) then int_incr n else n) rs (failedTests sr).
Proof.
  unfold tally. induction rs as [|r rs IH]; intros sr; [repeat split|].
  cbn [fold_left].
  match goal with
  | |- context [fold_left _ rs ?acc] => destruct (IH acc) as (Hn & Ht & Hr & Hp & Hf)
  end.
  rewrite Hn, Ht, Hr, Hp, Hf. cbn. destruct (passed r); repeat split.
Qed.

(** X13. Running one valid section of the SPI runner, given that its preparatory
    [testSpiBegin()] call (every section but the first has one) returns:
    the section's record holds one outcome per case of its arm of the
    [switch], its passed and failed counts are the numbers of passed and
    failed outcomes and add up to the total, and the records of the other
    sections are untouched. *)
Theorem runSection_tallies_its_cases (section : Z) (st : State World) :
  0 <= section < TOTAL_SECTIONS ->
  List.length (sectionResults st) = Z.to_nat TOTAL_SECTIONS ->
  (section <> SECTION_INITIALIZATION ->
   exists b w', testSpiBegin (world st) = (Returned b, w')) ->
  exists (sr : SectionResult) (rs : list TestResult) (st' : State World),
    runSection section st = (Returned tt, st') /\
    nth_error (sectionResults st') (Z.to_nat section) = Some sr /\
    sectionName sr = nth (Z.to_nat section) SECTION_NAMES ""%string /\
    results sr = Some rs /\
    List.length rs = nth (Z.to_nat section) [2; 4; 3; 1; 1; 1; 1]%nat 0%nat /\
    totalTests sr = Z.of_nat (List.length rs) /\
    passedTests sr = Z.of_nat (List.length (filter passed rs)) /\
    failedTests sr = Z.of_nat (List.length (filter (fun r => negb (passed r)) rs)) /\
    passedTests sr + failedTests sr = totalTests sr /\
    (forall j, j <> Z.to_nat section ->
       nth_error (sectionResults st') j = nth_error (sectionResults st) j).
Proof.
  intros Hsection Hlen Hbegin.
  destruct (section_tests_valid Hsection) as (begin_first & cases & Htests & Hfirst & Hn).
  destruct (@runSection_body section st begin_first cases)
    as (started & st' & rs & Hrun & _ & Hrs & _ & Hnth & Hother & _).
  { rewrite Hlen. unfold TOTAL_SECTIONS in *. lia. }
  { lia. }
  { exact Htests. }
  { intros ->. apply Hbegin. intros Heq. apply Hfirst in Heq. discriminate. }
  assert (Hrsl : List.length rs = List.length cases)
    by (rewrite Hrs; apply run_in_order_length).
  match type of Hnth with
  | _ = Some (tally ?sr0 rs) =>
      destruct (tally_fields rs sr0) as (Hname & Htotal & Hres & Hp & Hf)
  end.
  cbn [sectionName totalTests results passedTests failedTests] in Hname, Htotal, Hres, Hp, Hf.
  assert (Hsmall : Z.of_nat (List.length rs) <= INT_MAX).
  { rewrite Hrsl, Hn. unfold TOTAL_SECTIONS, INT_MAX in *.
    assert (Hcases : section = 0 \/ section = 1 \/ section = 2 \/ section = 3 \/
                     section = 4 \/ section = 5 \/ section = 6) by lia.
    destruct Hcases as [->|[->|[->|[->|[->|[->| ->]]]]]]; cbv; discriminate. }
  rewrite (count_loop passed) in Hp by lia.
  rewrite (count_loop (fun r => negb (passed r))) in Hf by lia.
  eexists _, rs, st'. split; [exact Hrun|]. split; [exact Hnth|].
  rewrite Hname, Htotal, Hres, Hp, Hf, Hrsl, <- Hn.
  pose proof (filter_partition_length passed rs).
  repeat split; try assumption; lia.
Qed.

(** X14. What one [runTest] call leaves: the message is ["PASSED"], ["FAILED"] or
    ["ERROR"], and the test counts as passed only with ["PASSED"], that is
    when the callable returned [true]; the duration is a 32-bit unsigned
    difference; one line is printed and the section records are untouched. *)
Theorem runTest_outcome_shape (testFunc : TestFunc World) (testName : string)
        (st : State World) :
  let r := fst (runTest micros testFunc testName st) in
  let st' := snd (runTest micros testFunc testName st) in
  let outcome := fst (testFunc (snd (micros (world st)))) in
  (outcome = Returned true /\ passed r = true /\ message r = "PASSED"%string \/
   outcome = Returned false /\ passed r = false /\ message r = "FAILED"%string \/
   outcome = Thrown /\ passed r = false /\ message r = "ERROR"%string) /\
  0 <= duration r < 4294967296 /\
  serial st' = serial st ++ [TestLine testName (message r) (duration r)] /\
  sectionResults st' = sectionResults st.
Proof.
  cbv zeta. unfold runTest.
  destruct (micros (world st)) as [startTime w1]. cbn [snd].
  destruct (testFunc w1) as [[[|]|] w2]; destruct (micros w2) as [endTime w3];
    cbn [fst snd passed message duration print serial sectionResults];
    (split; [tauto|]); (split; [apply Z.mod_pos_bound; lia|]); split; reflexivity.
Qed.

Lemma runSection_begin_fault (section : Z) (st : State World) (w' : World) :
  1 <= section < TOTAL_SECTIONS ->
  testSpiBegin (world st) = (Thrown, w') ->
  exists st' : State World,
    runSection section st = (Thrown, st') /\
    world st' = w' /\
    serial st' = serial st ++ [SectionBanner (nth (Z.to_nat section) SECTION_NAMES ""%string)].
Proof.
  unfold TOTAL_SECTIONS. intros Hsection Hthrow.
  assert (Hcases : section = 1 \/ section = 2 \/ section = 3 \/
                   section = 4 \/ section = 5 \/ section = 6) by lia.
  destruct Hcases as [->|[->|[->|[->|[->| ->]]]]];
    unfold Spi.runSection;
    cbn [Z.geb Z.compare Pos.compare Pos.compare_cont TOTAL_SECTIONS Spi.section_tests Z.eqb
         Pos.eqb SECTION_INITIALIZATION SECTION_BASIC_OPERATIONS SECTION_TRANSFER_MODES
         SECTION_CLOCK_SPEEDS SECTION_ERROR_HANDLING SECTION_PERFORMANCE SECTION_STRESS_TESTING];
    cbn [world set_section print serial sectionResults]; rewrite Hthrow;
    eexists; split; reflexivity || (split; reflexivity).
Qed.

(** X15. The handler of [runTest] does not cover the [testSpiBegin()] call that
    every section but the first makes before its cases: if that call throws,
    the exception leaves [runSection] with the banner printed and no report,
    and when [testSpiBegin] always throws, [runAllSections] completes the
    first section (where the fault is caught and recorded) and is ended by
    the second. *)
Theorem runSection_preparation_fault_escapes (st : State World) :
  (forall section w',
      1 <= section < TOTAL_SECTIONS ->
      testSpiBegin (world st) = (Thrown, w') ->
      exists st' : State World,
        runSection section st = (Thrown, st') /\
        world st' = w' /\
        serial st'
        = serial st ++ [SectionBanner (nth (Z.to_nat section) SECTION_NAMES ""%string)]) /\
  (throws testSpiBegin ->
   List.length (sectionResults st) = Z.to_nat TOTAL_SECTIONS ->
   exists st' : State World,
     Spi.runAllSections micros testSpiBegin testSpiEnd testSpiTransfer testSpiTransfer16
       testSpiTransfer32 testSpiTransferBuffer testSpiClockSpeed testSpiMode
       testSpiBitOrder testSpiErrorHandling testSpiPerformance testSpiStress st
     = (Thrown, st') /\
     option_map totalTests (nth_error (sectionResults st') 0) = Some 2 /\
     option_map failedTests (nth_error (sectionResults st') 0) <> Some 0).
Proof.
  split.
  - intros section w'. apply runSection_begin_fault.
  - intros Hthrow Hlen. unfold Spi.runAllSections. cbn [run_sections].
    destruct (@runSection_body 0 (print RunAllBanner st) false
                [(testSpiBegin, "SPI Begin"%string); (testSpiEnd, "SPI End"%string)])
      as (started & st0 & rs & Hrun & _ & Hrs & _ & Hnth & _ & _).
    { cbn [print sectionResults]. rewrite Hlen. unfold TOTAL_SECTIONS. lia. }
    { unfold TOTAL_SECTIONS. lia. }
    { reflexivity. }
    { discriminate. }
    rewrite Hrun.
    destruct (Hthrow (world st0)) as (w' & Hw).
    destruct (@runSection_begin_fault 1 st0 w') as (st1 & Hrun1 & _).
    { unfold TOTAL_SECTIONS. lia. }
    { exact Hw. }
    rewrite Hrun1. exists st1. split; [reflexivity|].
    assert (Hkeep : nth_error (sectionResults st1) 0 = nth_error (sectionResults st0) 0).
    { revert Hrun1. unfold Spi.runSection.
      cbn [Z.geb Z.compare Pos.compare Pos.compare_cont TOTAL_SECTIONS Spi.section_tests
           Z.eqb Pos.eqb SECTION_INITIALIZATION SECTION_BASIC_OPERATIONS].
      cbn [world set_section print serial sectionResults]. rewrite Hw.
      intros [= <-]. cbn [sectionResults].
      now rewrite !nth_error_at_index_other by (cbn; lia). }
    rewrite Hkeep. change (Z.to_nat 0) with 0%nat in Hnth. rewrite Hnth.
    match goal with
    | |- context [tally ?sr0 rs] =>
        destruct (tally_fields rs sr0) as (_ & Htotal & _ & _ & Hf)
    end.
    cbn [option_map]. rewrite Htotal, Hf. cbn [totalTests failedTests List.length].
    split; [reflexivity|].
    (* the first outcome is the caught fault *)
    subst rs. cbn [run_in_order].
    destruct (runTest_catches micros "SPI Begin"%string started Hthrow) as [Hp _].
    destruct (runTest micros testSpiBegin "SPI Begin" started) as [r1 s1].
    destruct (runTest micros testSpiEnd "SPI End" s1) as [r2 s2].
    cbn [fst] in Hp |- *. cbn [fold_left]. rewrite Hp. cbn [negb].
    destruct (passed r2); cbn; intros [= H]; discriminate H.
Qed.

Lemma runTest_returned (f : TestFunc World) (testName : string) (st : State World)
      (b : bool) (w2 : World) :
  f (snd (micros (world st))) = (Returned b, w2) ->
  passed (fst (runTest micros f testName st)) = b /\
  world (snd (runTest micros f testName st)) = snd (micros w2).
Proof.
  unfold runTest. destruct (micros (world st)) as [startTime w1]. cbn [snd].
  intros ->. destruct b; cbv iota beta; destruct (micros w2) as [endTime w3];
    split; reflexivity.
Qed.

Lemma tally_all_passed (rs : list TestResult) (sr : SectionResult) :
  Forall (fun r => passed r = true) rs ->
  passedTests sr = 0 -> failedTests sr = 0 ->
  Z.of_nat (List.length rs) <= INT_MAX ->
  passedTests (tally sr rs) = Z.of_nat (List.length rs) /\
  failedTests (tally sr rs) = 0.
Proof.
  intros Hall Hp0 Hf0 Hsmall.
  destruct (tally_fields rs sr) as (_ & _ & _ & Hp & Hf).
  rewrite Hp, Hf, Hp0, Hf0.
  rewrite (count_loop passed) by lia.
  rewrite (count_loop (fun r => negb (passed r))) by lia.
  assert (Hyes : filter passed rs = rs).
  { clear - Hall. induction Hall as [|r rs Hr _ IH]; [reflexivity|]. cbn. now rewrite Hr, IH. }
  assert (Hno : filter (fun r => negb (passed r)) rs = []).
  { clear - Hall. induction Hall as [|r rs Hr _ IH]; [reflexivity|]. cbn. now rewrite Hr. }
  rewrite Hyes, Hno. cbn. split; lia.
Qed.
End SpiRuns.

(** * The SPI test functions *)

Section SpiBusFacts.
Import Spi SpiBus.
Variable Hw : Type.
Variables spi_begin spi_end : Hw -> Hw.
Variables spi_transfer spi_transfer16 spi_transfer32 : Z -> Hw -> Z * Hw.
Variable spi_transfer_buffer : list Z -> Hw -> list Z * Hw.
Variables spi_setClockDivider spi_setDataMode spi_setBitOrder : Z -> Hw -> Hw.
Variable delay : Z -> Hw -> Hw.
Variable hw_micros : Hw -> Z * Hw.
Variables SPI_CLOCK_DIV4 SPI_CLOCK_DIV16 SPI_CLOCK_DIV64 : Z.
Variables SPI_MODE0 SPI_MODE1 SPI_MODE2 SPI_MODE3 MSBFIRST LSBFIRST : Z.

Local Notation micros := (SpiBus.micros hw_micros).
Local Notation testSpiBegin := (SpiBus.testSpiBegin spi_begin spi_end).
Local Notation testSpiEnd := (@SpiBus.testSpiEnd Hw spi_end).
Local Notation testSpiTransfer := (@SpiBus.testSpiTransfer Hw spi_transfer).
Local Notation testSpiTransfer16 := (@SpiBus.testSpiTransfer16 Hw spi_transfer16).
Local Notation testSpiTransfer32 := (@SpiBus.testSpiTransfer32 Hw spi_transfer32).
Local Notation testSpiTransferBuffer := (@SpiBus.testSpiTransferBuffer Hw spi_transfer_buffer).
Local Notation testSpiClockSpeed :=
  (SpiBus.testSpiClockSpeed spi_setClockDivider delay SPI_CLOCK_DIV4 SPI_CLOCK_DIV16
     SPI_CLOCK_DIV64).
Local Notation testSpiMode :=
  (SpiBus.testSpiMode spi_setDataMode delay SPI_MODE0 SPI_MODE1 SPI_MODE2 SPI_MODE3).
Local Notation testSpiBitOrder := (SpiBus.testSpiBitOrder spi_setBitOrder delay MSBFIRST LSBFIRST).
Local Notation testSpiErrorHandling :=
  (SpiBus.testSpiErrorHandling spi_setClockDivider delay SPI_CLOCK_DIV4).
Local Notation testSpiPerformance := (SpiBus.testSpiPerformance spi_transfer hw_micros).
Local Notation testSpiStress := (SpiBus.testSpiStress spi_transfer delay).

Lemma micros_keeps_flag (w : World Hw) :
  spiInitialized (snd (micros w)) = spiInitialized w.
Proof. reflexivity. Qed.

Lemma testSpiBegin_passes (w : World Hw) :
  exists w', testSpiBegin w = (Returned true, w') /\ spiInitialized w' = true.
Proof. unfold SpiBus.testSpiBegin. eexists. split; reflexivity. Qed.

Lemma testSpiEnd_reports (w : World Hw) :
  exists w', testSpiEnd w = (Returned (spiInitialized w), w') /\ spiInitialized w' = false.
Proof.
  unfold SpiBus.testSpiEnd. destruct w as [[|] h p]; cbn; eexists; split; reflexivity.
Qed.

Ltac flag_only :=
  let w := fresh "w" in
  intros w; destruct w as [[|] ? ?];
  unfold SpiBus.testSpiTransfer, SpiBus.testSpiTransfer16, SpiBus.testSpiTransfer32,
    SpiBus.testSpiTransferBuffer, SpiBus.testSpiClockSpeed, SpiBus.testSpiMode,
    SpiBus.testSpiBitOrder, SpiBus.testSpiErrorHandling, SpiBus.testSpiStress, on_hw;
  cbn [negb spiInitialized SpiBus.hw SpiBus.printed];
  eexists; split; reflexivity.

Lemma transfer_tests_report_the_flag :
  reports_the_flag testSpiTransfer /\
  reports_the_flag testSpiTransfer16 /\
  reports_the_flag testSpiTransfer32 /\
  reports_the_flag testSpiTransferBuffer /\
  reports_the_flag testSpiClockSpeed /\
  reports_the_flag testSpiMode /\
  reports_the_flag testSpiBitOrder /\
  reports_the_flag testSpiErrorHandling /\
  reports_the_flag testSpiPerformance /\
  reports_the_flag testSpiStress.
Proof.
  repeat split; try flag_only.
  intros [[|] h p]; unfold SpiBus.testSpiPerformance; cbn [negb spiInitialized SpiBus.hw];
    [|eexists; split; reflexivity].
  destruct (hw_micros h) as [t0 h0].
  destruct (hw_micros _) as [t1 h1]. eexists. split; reflexivity.
Qed.

Local Notation bus_micros := (SpiBus.micros hw_micros).

Lemma flag_cases_pass (cases : list (TestFunc (World Hw) * string)) :
  Forall (fun c => reports_the_flag (fst c)) cases ->
  forall st : State (World Hw),
    spiInitialized (world st) = true ->
    Forall (fun r => passed r = true) (fst (run_in_order bus_micros cases st)) /\
    spiInitialized (world (snd (run_in_order bus_micros cases st))) = true.
Proof.
  induction 1 as [|[f testName] rest Hf _ IH]; intros st Hflag; [split; [constructor|exact Hflag]|].
  cbn [run_in_order fst] in Hf |- *.
  destruct (Hf (snd (bus_micros (world st)))) as (w2 & Hcall & Hkeep).
  destruct (runTest_returned bus_micros f testName st Hcall) as [Hp Hwd].
  destruct (runTest bus_micros f testName st) as [r st1]. cbn [fst snd] in Hp, Hwd.
  destruct (IH st1) as [Hrest Hend].
  { rewrite Hwd. cbn [snd SpiBus.micros on_hw spiInitialized]. rewrite Hkeep. exact Hflag. }
  destruct (run_in_order bus_micros rest st1) as [rs st2]. cbn [fst snd] in *.
  split; [|exact Hend]. constructor; [|exact Hrest].
  rewrite Hp. exact Hflag.
Qed.

Local Notation bus_section_tests :=
  (Spi.section_tests testSpiBegin testSpiEnd testSpiTransfer testSpiTransfer16
     testSpiTransfer32 testSpiTransferBuffer testSpiClockSpeed testSpiMode
     testSpiBitOrder testSpiErrorHandling testSpiPerformance testSpiStress).

Lemma bus_cases_pass (section : Z) (begin_first : bool)
      (cases : list (TestFunc (World Hw) * string)) (st started : State (World Hw)) :
  bus_section_tests section = Some (begin_first, cases) ->
  world started = (if begin_first then snd (testSpiBegin (world st)) else world st) ->
  Forall (fun r => passed r = true) (fst (run_in_order bus_micros cases started)).
Proof.
  destruct transfer_tests_report_the_flag
    as (Ht & Ht16 & Ht32 & Htb & Hclk & Hmode & Hbit & Herr & Hperf & Hstress).
  unfold Spi.section_tests.
  repeat match goal with
         | |- context [section =? ?k] => destruct (section =? k)
         end;
    intros Htests Hworld; try discriminate Htests;
    injection Htests as <- <-.
  - (* the first section: begin, then end *)
    cbn [run_in_order].
    destruct (testSpiBegin_passes (snd (bus_micros (world started)))) as (w2 & Hcall & Hon).
    destruct (runTest_returned bus_micros testSpiBegin "SPI Begin"%string started Hcall)
      as [Hp1 Hw1].
    destruct (runTest bus_micros testSpiBegin "SPI Begin" started) as [r1 st1].
    cbn [fst snd] in Hp1, Hw1.
    destruct (testSpiEnd_reports (snd (bus_micros (world st1)))) as (w3 & Hcall2 & _).
    destruct (runTest_returned bus_micros testSpiEnd "SPI End"%string st1 Hcall2)
      as [Hp2 _].
    destruct (runTest bus_micros testSpiEnd "SPI End" st1) as [r2 st2].
    cbn [fst snd] in Hp2 |- *.
    repeat constructor; [exact Hp1|].
    rewrite Hp2, Hw1. cbn [snd SpiBus.micros on_hw spiInitialized]. exact Hon.
  - apply flag_cases_pass; [repeat constructor; assumption|].
    rewrite Hworld. now destruct (testSpiBegin_passes (world st)) as (w' & -> & Hon).
  - apply flag_cases_pass; [repeat constructor; assumption|].
    rewrite Hworld. now destruct (testSpiBegin_passes (world st)) as (w' & -> & Hon).
  - apply flag_cases_pass; [repeat constructor; assumption|].
    rewrite Hworld. now destruct (testSpiBegin_passes (world st)) as (w' & -> & Hon).
  - apply flag_cases_pass; [repeat constructor; assumption|].
    rewrite Hworld. now destruct (testSpiBegin_passes (world st)) as (w' & -> & Hon).
  - apply flag_cases_pass; [repeat constructor; assumption|].
    rewrite Hworld. now destruct (testSpiBegin_passes (world st)) as (w' & -> & Hon).
  - apply flag_cases_pass; [repeat constructor; assumption|].
    rewrite Hworld. now destruct (testSpiBegin_passes (world st)) as (w' & -> & Hon).
Qed.

(** One section of the concrete runner, from any state with the seven
    records allocated. *)
Lemma bus_section_passes (section : Z) (st : State (World Hw)) :
  0 <= section < TOTAL_SECTIONS ->
  List.length (sectionResults st) = Z.to_nat TOTAL_SECTIONS ->
  exists (sr : SectionResult) (rs : list TestResult) (st' : State (World Hw)),
    SpiBus.runSection spi_begin spi_end spi_transfer spi_transfer16 spi_transfer32
      spi_transfer_buffer spi_setClockDivider spi_setDataMode spi_setBitOrder delay
      hw_micros SPI_CLOCK_DIV4 SPI_CLOCK_DIV16 SPI_CLOCK_DIV64 SPI_MODE0 SPI_MODE1
      SPI_MODE2 SPI_MODE3 MSBFIRST LSBFIRST section st = (Returned tt, st') /\
    nth_error (sectionResults st') (Z.to_nat section) = Some sr /\
    results sr = Some rs /\
    Forall (fun r => passed r = true) rs /\
    totalTests sr = Z.of_nat (nth (Z.to_nat section) [2; 4; 3; 1; 1; 1; 1]%nat 0%nat) /\
    passedTests sr = totalTests sr /\
    failedTests sr = 0 /\
    (forall j, j <> Z.to_nat section ->
       nth_error (sectionResults st') j = nth_error (sectionResults st) j) /\
    List.length (sectionResults st') = List.length (sectionResults st).
Proof.
  intros Hsection Hlen.
  destruct (section_tests_valid testSpiBegin testSpiEnd testSpiTransfer testSpiTransfer16
              testSpiTransfer32 testSpiTransferBuffer testSpiClockSpeed testSpiMode
              testSpiBitOrder testSpiErrorHandling testSpiPerformance testSpiStress Hsection)
    as (begin_first & cases & Htests & _ & Hn).
  destruct (@runSection_body _ bus_micros testSpiBegin testSpiEnd testSpiTransfer
              testSpiTransfer16 testSpiTransfer32 testSpiTransferBuffer testSpiClockSpeed
              testSpiMode testSpiBitOrder testSpiErrorHandling testSpiPerformance
              testSpiStress section st begin_first cases)
    as (started & st' & rs & Hrun & Hstart & Hrs & _ & Hnth & Hother & Hlen').
  { rewrite Hlen. unfold TOTAL_SECTIONS in *. lia. }
  { lia. }
  { exact Htests. }
  { intros _. destruct (testSpiBegin_passes (world st)) as (w' & Hcall & _). eauto. }
  pose proof (bus_cases_pass section st started Htests Hstart) as Hpass.
  rewrite <- Hrs in Hpass.
  assert (Hrsl : List.length rs = List.length cases)
    by (rewrite Hrs; apply run_in_order_length).
  match type of Hnth with
  | _ = Some (tally ?sr0 rs) =>
      destruct (tally_fields rs sr0) as (_ & Htotal & Hres & _);
      destruct (@tally_all_passed rs sr0 Hpass eq_refl eq_refl) as [Hp Hf]
  end.
  { rewrite Hrsl, Hn. unfold TOTAL_SECTIONS, INT_MAX in *.
    assert (Hcases : section = 0 \/ section = 1 \/ section = 2 \/ section = 3 \/
                     section = 4 \/ section = 5 \/ section = 6) by lia.
    destruct Hcases as [->|[->|[->|[->|[->|[->| ->]]]]]]; cbv; discriminate. }
  cbn [totalTests results] in Htotal, Hres.
  eexists _, rs, st'. split; [exact Hrun|]. split; [exact Hnth|].
  rewrite Htotal, Hres, Hp, Hf, Hrsl, <- Hn. auto 10.
Qed.

Local Notation bus_runSection :=
  (SpiBus.runSection spi_begin spi_end spi_transfer spi_transfer16 spi_transfer32
     spi_transfer_buffer spi_setClockDivider spi_setDataMode spi_setBitOrder delay
     hw_micros SPI_CLOCK_DIV4 SPI_CLOCK_DIV16 SPI_CLOCK_DIV64 SPI_MODE0 SPI_MODE1
     SPI_MODE2 SPI_MODE3 MSBFIRST LSBFIRST).
Local Notation bus_runAllSections :=
  (SpiBus.runAllSections spi_begin spi_end spi_transfer spi_transfer16 spi_transfer32
     spi_transfer_buffer spi_setClockDivider spi_setDataMode spi_setBitOrder delay
     hw_micros SPI_CLOCK_DIV4 SPI_CLOCK_DIV16 SPI_CLOCK_DIV64 SPI_MODE0 SPI_MODE1
     SPI_MODE2 SPI_MODE3 MSBFIRST LSBFIRST).
Local Notation bus_run_sections :=
  (Spi.run_sections bus_micros testSpiBegin testSpiEnd testSpiTransfer testSpiTransfer16
     testSpiTransfer32 testSpiTransferBuffer testSpiClockSpeed testSpiMode
     testSpiBitOrder testSpiErrorHandling testSpiPerformance testSpiStress).

Lemma bus_section_all_passed (section : Z) (st : State (World Hw)) :
  0 <= section < TOTAL_SECTIONS ->
  List.length (sectionResults st) = Z.to_nat TOTAL_SECTIONS ->
  exists st' : State (World Hw),
    bus_runSection section st = (Returned tt, st') /\
    all_passed (sectionResults st') section /\
    (forall j, j <> Z.to_nat section ->
       nth_error (sectionResults st') j = nth_error (sectionResults st) j) /\
    List.length (sectionResults st') = Z.to_nat TOTAL_SECTIONS.
Proof.
  intros Hsection Hlen.
  destruct (bus_section_passes st Hsection Hlen)
    as (sr & rs & st' & Hrun & Hnth & Hres & Hpass & Htotal & Hp & Hf & Hother & Hlen').
  exists st'. split; [exact Hrun|]. split; [|split; [exact Hother|congruence]].
  exists sr, rs. unfold cases_of. rewrite Hp. auto 10.
Qed.

Lemma bus_sections_in_sequence (todo : list Z) :
  NoDup todo ->
  (forall k, In k todo -> 0 <= k < TOTAL_SECTIONS) ->
  forall st : State (World Hw),
    List.length (sectionResults st) = Z.to_nat TOTAL_SECTIONS ->
    exists st' : State (World Hw),
      bus_run_sections todo st = (Returned tt, st') /\
      (forall k, In k todo -> all_passed (sectionResults st') k) /\
      (forall j, ~ In (Z.of_nat j) todo ->
         nth_error (sectionResults st') j = nth_error (sectionResults st) j) /\
      List.length (sectionResults st') = Z.to_nat TOTAL_SECTIONS.
Proof.
  induction 1 as [|k todo Hfresh _ IH]; intros Hvalid st Hlen.
  - exists st. cbn. repeat split; tauto.
  - destruct (bus_section_all_passed st (Hvalid k (or_introl eq_refl)) Hlen)
      as (st1 & Hrun1 & Hdone1 & Hother1 & Hlen1).
    destruct (IH (fun k' Hk' => Hvalid k' (or_intror Hk')) st1 Hlen1)
      as (st2 & Hrun2 & Hdone2 & Hother2 & Hlen2).
    exists st2. cbn [run_sections].
    change (Spi.runSection bus_micros testSpiBegin testSpiEnd testSpiTransfer
              testSpiTransfer16 testSpiTransfer32 testSpiTransferBuffer testSpiClockSpeed
              testSpiMode testSpiBitOrder testSpiErrorHandling testSpiPerformance
              testSpiStress k st) with (bus_runSection k st).
    rewrite Hrun1, Hrun2. split; [reflexivity|]. split; [|split; [|exact Hlen2]].
    + intros k' [<-|Hk']; [|now apply Hdone2].
      destruct Hdone1 as (sr & rs & Hnth & Hrest).
      exists sr, rs. split; [|exact Hrest].
      rewrite Hother2; [exact Hnth|].
      rewrite Z2Nat.id by (specialize (Hvalid k (or_introl eq_refl)); lia).
      exact Hfresh.
    + intros j Hj. rewrite Hother2 by (intros Hin; apply Hj; now right).
      apply Hother1. intros ->. apply Hj. left.
      rewrite Z2Nat.id by (specialize (Hvalid k (or_introl eq_refl)); lia). reflexivity.
Qed.

(** X16. The verdict of an SPI test function is decided by the flag
    [spiInitialized] alone, never by what the bus returns: [testSpiBegin]
    always passes and leaves the flag set, [testSpiEnd] passes exactly when
    the flag was set and clears it, and each of the other ten passes
    exactly when the flag is set and leaves it as it was. *)
Theorem spi_verdicts_ignore_the_bus :
  (forall w, exists w',
      testSpiBegin w = (Returned true, w') /\ spiInitialized w' = true) /\
  (forall w, exists w',
      testSpiEnd w = (Returned (spiInitialized w), w') /\ spiInitialized w' = false) /\
  Forall (@reports_the_flag Hw)
    [testSpiTransfer; testSpiTransfer16; testSpiTransfer32; testSpiTransferBuffer;
     testSpiClockSpeed; testSpiMode; testSpiBitOrder; testSpiErrorHandling;
     testSpiPerformance; testSpiStress].
Proof.
  split; [exact testSpiBegin_passes|]. split; [exact testSpiEnd_reports|].
  destruct transfer_tests_report_the_flag
    as (Ht & Ht16 & Ht32 & Htb & Hclk & Hmode & Hbit & Herr & Hperf & Hstress).
  repeat constructor; assumption.
Qed.

(** X17. On a bus whose every call returns, whatever the calls return and
    whether or not the SPI was begun before, a valid section index makes
    [runSpecificSection] return with every case of that section recorded as
    passed and no failure, the records of the other sections untouched. *)
Theorem spi_section_passes_whatever_the_bus_returns (sectionIndex : Z) (st : State (World Hw)) :
  0 <= sectionIndex < TOTAL_SECTIONS ->
  List.length (sectionResults st) = Z.to_nat TOTAL_SECTIONS ->
  exists st' : State (World Hw),
    SpiBus.runSpecificSection spi_begin spi_end spi_transfer spi_transfer16 spi_transfer32
      spi_transfer_buffer spi_setClockDivider spi_setDataMode spi_setBitOrder delay
      hw_micros SPI_CLOCK_DIV4 SPI_CLOCK_DIV16 SPI_CLOCK_DIV64 SPI_MODE0 SPI_MODE1
      SPI_MODE2 SPI_MODE3 MSBFIRST LSBFIRST sectionIndex st = (Returned tt, st') /\
    all_passed (sectionResults st') sectionIndex /\
    (forall j, j <> Z.to_nat sectionIndex ->
       nth_error (sectionResults st') j = nth_error (sectionResults st) j).
Proof.
  intros Hindex Hlen.
  destruct (bus_section_all_passed st Hindex Hlen) as (st' & Hrun & Hdone & Hother & _).
  exists st'. split; [|split; assumption].
  unfold SpiBus.runSpecificSection, Spi.runSpecificSection.
  replace (sectionIndex <? 0) with false by (symmetry; apply Z.ltb_ge; lia).
  replace (sectionIndex >=? TOTAL_SECTIONS) with false
    by (symmetry; rewrite Z.geb_leb; apply Z.leb_gt; lia).
  exact Hrun.
Qed.

(** X18. On a bus whose every call returns, whatever the calls return,
    [runAllSections] returns with all seven sections recorded as passed and
    ends its output with the overall report: 13 tests, 13 passed, 0 failed. *)
Theorem spi_runAllSections_reports_13_passed (st : State (World Hw)) :
  List.length (sectionResults st) = Z.to_nat TOTAL_SECTIONS ->
  exists (st' : State (World Hw)) (total_duration : Z),
    bus_runAllSections st = (Returned tt, st') /\
    (forall section, 0 <= section < TOTAL_SECTIONS ->
       all_passed (sectionResults st') section) /\
    last (serial st') InvalidSection
    = OverallReport 13 13 0 (Spi.success_rate 13 13) total_duration
        (Spi.average_duration total_duration 13).
Proof.
  intros Hlen.
  destruct (@bus_sections_in_sequence [0; 1; 2; 3; 4; 5; 6]) with (st := print RunAllBanner st)
    as (st1 & Hrun & Hdone & _ & Hlen1).
  { repeat constructor; cbn; intuition discriminate. }
  { unfold TOTAL_SECTIONS. cbn. intros k Hk. intuition lia. }
  { exact Hlen. }
  unfold SpiBus.runAllSections, Spi.runAllSections. rewrite Hrun.
  assert (Hall : forall section, 0 <= section < TOTAL_SECTIONS ->
                                 all_passed (sectionResults st1) section).
  { unfold TOTAL_SECTIONS. intros section Hs. apply Hdone. cbn. lia. }
  destruct (Hall 0) as (s0 & r0 & Hn0 & Hr0 & _ & Ht0 & Hp0 & Hf0); [unfold TOTAL_SECTIONS; lia|].
  destruct (Hall 1) as (s1 & r1 & Hn1 & Hr1 & _ & Ht1 & Hp1 & Hf1); [unfold TOTAL_SECTIONS; lia|].
  destruct (Hall 2) as (s2 & r2 & Hn2 & Hr2 & _ & Ht2 & Hp2 & Hf2); [unfold TOTAL_SECTIONS; lia|].
  destruct (Hall 3) as (s3 & r3 & Hn3 & Hr3 & _ & Ht3 & Hp3 & Hf3); [unfold TOTAL_SECTIONS; lia|].
  destruct (Hall 4) as (s4 & r4 & Hn4 & Hr4 & _ & Ht4 & Hp4 & Hf4); [unfold TOTAL_SECTIONS; lia|].
  destruct (Hall 5) as (s5 & r5 & Hn5 & Hr5 & _ & Ht5 & Hp5 & Hf5); [unfold TOTAL_SECTIONS; lia|].
  destruct (Hall 6) as (s6 & r6 & Hn6 & Hr6 & _ & Ht6 & Hp6 & Hf6); [unfold TOTAL_SECTIONS; lia|].
  assert (Hlist : sectionResults st1 = [s0; s1; s2; s3; s4; s5; s6]).
  { destruct (sectionResults st1) as [|a0 [|a1 [|a2 [|a3 [|a4 [|a5 [|a6 [|a7 l]]]]]]]];
      try discriminate Hlen1.
    cbv in Hn0, Hn1, Hn2, Hn3, Hn4, Hn5, Hn6. congruence. }
  eexists (printOverallResults st1), _. split; [reflexivity|]. split.
  { unfold printOverallResults.
    destruct (fold_left _ _ _) as [[[t p] f] d]. exact Hall. }
  unfold printOverallResults. rewrite Hlist.
  change (Z.to_nat TOTAL_SECTIONS) with 7%nat. cbn [firstn fold_left].
  rewrite Hr0, Hr1, Hr2, Hr3, Hr4, Hr5, Hr6.
  rewrite Ht0, Ht1, Ht2, Ht3, Ht4, Ht5, Ht6, Hp0, Hp1, Hp2, Hp3, Hp4, Hp5, Hp6,
    Hf0, Hf1, Hf2, Hf3, Hf4, Hf5, Hf6.
  cbn [print serial]. rewrite last_last.
  match goal with
  | |- OverallReport ?a ?b ?c _ _ _ = _ =>
      change a with 13; change b with 13; change c with 0
  end.
  reflexivity.
Qed.
End SpiBusFacts.

(** * PwmComprehensiveTest.cpp *)

Section FlagFacts.

Lemma flag_at_index (flags : list bool) (i k : Z) (enable : bool) :
  0 <= i < Z.of_nat (List.length flags) -> 0 <= k ->
  Pwm.flag (at_index i (fun _ => enable) flags) k
  = if k =? i then enable else Pwm.flag flags k.
Proof.
  intros Hi Hk. unfold Pwm.flag.
  destruct (Z.eqb_spec k i) as [->|Hne].
  - apply nth_error_nth. rewrite nth_error_at_index_same by exact Hi.
    destruct (nth_error flags (Z.to_nat i)) eqn:Hnth; [reflexivity|].
    apply nth_error_None in Hnth. lia.
  - assert (Hj : Z.to_nat k <> Z.to_nat i) by lia.
    pose proof (nth_error_at_index_other i (fun _ : bool => enable) flags Hj) as Hsame.
    revert Hsame.
    destruct (nth_error flags (Z.to_nat k)) eqn:Hnth; intros Hsame.
    + rewrite (nth_error_nth _ _ _ Hsame). symmetry. now apply nth_error_nth.
    + apply nth_error_None in Hnth. apply nth_error_None in Hsame.
      now rewrite !nth_overflow.
Qed.

Lemma flag_all_false (flags : list bool) (k : Z) :
  Pwm.flag (map (fun _ => false) flags) k = false.
Proof.
  unfold Pwm.flag. generalize (Z.to_nat k) as n.
  induction flags as [|b flags IH]; intros [|n]; cbn; auto.
Qed.

End FlagFacts.

Section PwmFacts.
Import Pwm PwmSpec.
Variable World : Type.
Variables test_pwm_initialization test_pwm_frequency_setting
          test_pwm_duty_cycle_setting test_pwm_output_validation test_pwm_cleanup
  : World -> bool * World.

Local Notation run_basic_pwm_tests :=
  (Pwm.run_basic_pwm_tests test_pwm_initialization test_pwm_frequency_setting
     test_pwm_duty_cycle_setting test_pwm_output_validation test_pwm_cleanup).
Local Notation run_pwm_comprehensive_tests :=
  (Pwm.run_pwm_comprehensive_tests test_pwm_initialization test_pwm_frequency_setting
     test_pwm_duty_cycle_setting test_pwm_output_validation test_pwm_cleanup).
Local Notation run_specific_test_sections :=
  (Pwm.run_specific_test_sections test_pwm_initialization test_pwm_frequency_setting
     test_pwm_duty_cycle_setting test_pwm_output_validation test_pwm_cleanup).

(** ** The flags and the count *)

Lemma int_incr_small (x : Z) : 0 <= x < INT_MAX -> int_incr x = x + 1.
Proof. intros Hx. unfold int_incr. apply to_int_small. unfold INT_MAX in *. lia. Qed.

Lemma count_run_one test f failure ms (st : State World) :
  test_result_count (run_one test f failure ms st) = int_incr (test_result_count st).
Proof. unfold run_one. now destruct (f (world st)). Qed.

Lemma groups_run_one test f failure ms (st : State World) :
  test_group_enabled (run_one test f failure ms st) = test_group_enabled st.
Proof. unfold run_one. now destruct (f (world st)). Qed.

Lemma sections_run_one test f failure ms (st : State World) :
  test_section_enabled (run_one test f failure ms st) = test_section_enabled st.
Proof. unfold run_one. now destruct (f (world st)). Qed.

Lemma table_run_one test f failure ms (st : State World) :
  List.length (test_results (run_one test f failure ms st))
  = List.length (test_results st).
Proof. unfold run_one. destruct (f (world st)). cbn. apply at_index_length. Qed.

Ltac incrs :=
  repeat match goal with
         | |- context [int_incr ?x] => rewrite (@int_incr_small x) by (unfold INT_MAX in *; lia)
         end.

Lemma planned_basic_range (groups : list bool) : 0 <= planned_basic groups <= 5.
Proof.
  unfold planned_basic.
  destruct (flag groups GROUP_INITIALIZATION), (flag groups GROUP_FUNCTIONALITY),
    (flag groups GROUP_VALIDATION), (flag groups GROUP_CLEANUP); lia.
Qed.

Lemma planned_range (sections groups : list bool) : 0 <= planned sections groups <= 23.
Proof.
  unfold planned. pose proof (planned_basic_range groups).
  destruct (flag sections SECTION_BASIC_PWM), (flag sections SECTION_FREQUENCY_TESTS),
    (flag sections SECTION_DUTY_CYCLE_TESTS), (flag sections SECTION_PIN_TESTS),
    (flag sections SECTION_PERFORMANCE_TESTS), (flag sections SECTION_ERROR_HANDLING),
    (flag sections SECTION_STRESS_TESTS); lia.
Qed.

Lemma run_basic_pwm_tests_count (st : State World) :
  0 <= test_result_count st <= 100 ->
  same_flags st (run_basic_pwm_tests st) /\
  test_result_count (run_basic_pwm_tests st)
  = test_result_count st
    + (if flag (test_section_enabled st) SECTION_BASIC_PWM
       then planned_basic (test_group_enabled st) else 0).
Proof.
  intros Hc. unfold Pwm.run_basic_pwm_tests, same_flags, planned_basic.
  destruct (flag (test_section_enabled st) SECTION_BASIC_PWM); cbn [negb].
  - cbv zeta.
    cbn [print test_group_enabled].
    destruct (flag (test_group_enabled st) GROUP_INITIALIZATION);
      repeat first [rewrite groups_run_one | progress cbn [print test_group_enabled]];
      (destruct (flag (test_group_enabled st) GROUP_FUNCTIONALITY);
       repeat first [rewrite groups_run_one | progress cbn [print test_group_enabled]];
       (destruct (flag (test_group_enabled st) GROUP_VALIDATION);
        repeat first [rewrite groups_run_one | progress cbn [print test_group_enabled]];
        (destruct (flag (test_group_enabled st) GROUP_CLEANUP);
         repeat first [rewrite groups_run_one | rewrite sections_run_one
                      | rewrite count_run_one
                      | progress cbn [print test_group_enabled test_section_enabled
                                      test_result_count]];
         incrs; repeat split; lia))).
  - cbn. repeat split. lia.
Qed.

Lemma record_passing_count (n : nat) test ms :
  forall st : State World,
    0 <= test_result_count st -> test_result_count st + Z.of_nat n <= INT_MAX ->
    same_flags st (record_passing n test ms st) /\
    test_result_count (record_passing n test ms st) = test_result_count st + Z.of_nat n.
Proof.
  unfold same_flags.
  induction n as [|n IH]; intros st Hc Hmax; cbn [record_passing].
  - repeat split. lia.
  - destruct (IH (record (mkTestResult true test None ms) st)) as ((Hs & Hg) & Hcount).
    + cbn. incrs. lia.
    + cbn. incrs. lia.
    + rewrite Hs, Hg, Hcount. cbn. incrs. repeat split. lia.
Qed.

Lemma placeholder_section_count section skipped header (n : nat) test ms (st : State World) :
  0 <= test_result_count st -> test_result_count st + Z.of_nat n <= INT_MAX ->
  same_flags st (placeholder_section section skipped header n test ms st) /\
  test_result_count (placeholder_section section skipped header n test ms st)
  = test_result_count st
    + (if flag (test_section_enabled st) section then Z.of_nat n else 0).
Proof.
  intros Hc Hmax. unfold placeholder_section.
  destruct (flag (test_section_enabled st) section); cbn [negb].
  - apply (@record_passing_count n test ms (print (SectionHeader header) st)); assumption.
  - unfold same_flags. cbn. repeat split. lia.
Qed.

Lemma same_flags_trans (st1 st2 st3 : State World) :
  same_flags st1 st2 -> same_flags st2 st3 -> same_flags st1 st3.
Proof. unfold same_flags. intros [-> ->] [-> ->]. now split. Qed.

(** The sections of a full run, before the summary. *)
Local Notation sections_run st :=
  (run_stress_tests
     (run_error_handling_tests
        (run_performance_tests
           (run_pin_tests
              (run_duty_cycle_tests
                 (run_frequency_tests
                    (run_basic_pwm_tests
                       (mkState (test_section_enabled st) (test_group_enabled st)
                          (test_results st) 0 (world st)
                          (serial st ++ [Starting]))))))))).

Lemma run_pwm_comprehensive_tests_unfold (st : State World) :
  run_pwm_comprehensive_tests st = print_test_summary (sections_run st).
Proof. reflexivity. Qed.

Lemma sections_run_count (st : State World) :
  same_flags st (sections_run st) /\
  test_result_count (sections_run st)
  = planned (test_section_enabled st) (test_group_enabled st).
Proof.
  set (st0 := mkState (test_section_enabled st) (test_group_enabled st)
                (test_results st) 0 (world st) (serial st ++ [Starting])).
  pose proof (planned_basic_range (test_group_enabled st)) as Hbasic.
  destruct (@run_basic_pwm_tests_count st0) as ((Hs1 & Hg1) & Hc1); [cbn; lia|].
  set (st1 := run_basic_pwm_tests st0) in *.
  cbn [st0 test_result_count test_section_enabled test_group_enabled] in Hs1, Hg1, Hc1.
  assert (H1 : 0 <= test_result_count st1 <= 5)
    by (rewrite Hc1; destruct (flag _ SECTION_BASIC_PWM); lia).
  unfold run_stress_tests, run_error_handling_tests, run_performance_tests,
    run_pin_tests, run_duty_cycle_tests, run_frequency_tests.
  destruct (@placeholder_section_count SECTION_FREQUENCY_TESTS "Frequency tests"
              "Frequency Tests" 5 "Frequency Test" 50 st1) as ((Hs2 & Hg2) & Hc2);
    [lia|unfold INT_MAX; lia|].
  set (st2 := placeholder_section SECTION_FREQUENCY_TESTS _ _ _ _ _ st1) in *.
  assert (H2 : 0 <= test_result_count st2 <= 10)
    by (rewrite Hc2; destruct (flag _ SECTION_FREQUENCY_TESTS); lia).
  destruct (@placeholder_section_count SECTION_DUTY_CYCLE_TESTS "Duty Cycle tests"
              "Duty Cycle Tests" 5 "Duty Cycle Test" 50 st2) as ((Hs3 & Hg3) & Hc3);
    [lia|unfold INT_MAX; lia|].
  set (st3 := placeholder_section SECTION_DUTY_CYCLE_TESTS _ _ _ _ _ st2) in *.
  assert (H3 : 0 <= test_result_count st3 <= 15)
    by (rewrite Hc3; destruct (flag _ SECTION_DUTY_CYCLE_TESTS); lia).
  destruct (@placeholder_section_count SECTION_PIN_TESTS "Pin tests" "Pin Tests" 5
              "Pin Test" 50 st3) as ((Hs4 & Hg4) & Hc4);
    [lia|unfold INT_MAX; lia|].
  set (st4 := placeholder_section SECTION_PIN_TESTS _ _ _ _ _ st3) in *.
  assert (H4 : 0 <= test_result_count st4 <= 20)
    by (rewrite Hc4; destruct (flag _ SECTION_PIN_TESTS); lia).
  destruct (@placeholder_section_count SECTION_PERFORMANCE_TESTS "Performance tests"
              "Performance Tests" 1 "High Frequency Switching" 1000 st4)
    as ((Hs5 & Hg5) & Hc5); [lia|unfold INT_MAX; lia|].
  set (st5 := placeholder_section SECTION_PERFORMANCE_TESTS _ _ _ _ _ st4) in *.
  assert (H5 : 0 <= test_result_count st5 <= 21)
    by (rewrite Hc5; destruct (flag _ SECTION_PERFORMANCE_TESTS); lia).
  destruct (@placeholder_section_count SECTION_ERROR_HANDLING "Error Handling tests"
              "Error Handling Tests" 1 "Invalid Frequency Test" 50 st5)
    as ((Hs6 & Hg6) & Hc6); [lia|unfold INT_MAX; lia|].
  set (st6 := placeholder_section SECTION_ERROR_HANDLING _ _ _ _ _ st5) in *.
  assert (H6 : 0 <= test_result_count st6 <= 22)
    by (rewrite Hc6; destruct (flag _ SECTION_ERROR_HANDLING); lia).
  destruct (@placeholder_section_count SECTION_STRESS_TESTS "Stress tests"
              "Stress Tests" 1 "Continuous Operation" 5000 st6)
    as ((Hs7 & Hg7) & Hc7); [lia|unfold INT_MAX; lia|].
  set (st7 := placeholder_section SECTION_STRESS_TESTS _ _ _ _ _ st6) in *.
  assert (Hs : test_section_enabled st7 = test_section_enabled st) by congruence.
  assert (Hg : test_group_enabled st7 = test_group_enabled st) by congruence.
  split; [now split|].
  rewrite Hc7, Hc6, Hc5, Hc4, Hc3, Hc2, Hc1.
  rewrite Hs6, Hs5, Hs4, Hs3, Hs2, Hs1. unfold planned.
  destruct (flag (test_section_enabled st) SECTION_BASIC_PWM),
    (flag (test_section_enabled st) SECTION_FREQUENCY_TESTS),
    (flag (test_section_enabled st) SECTION_DUTY_CYCLE_TESTS),
    (flag (test_section_enabled st) SECTION_PIN_TESTS),
    (flag (test_section_enabled st) SECTION_PERFORMANCE_TESTS),
    (flag (test_section_enabled st) SECTION_ERROR_HANDLING),
    (flag (test_section_enabled st) SECTION_STRESS_TESTS); lia.
Qed.

Lemma full_run_stores_what_the_flags_plan_aux (st : State World) :
  test_result_count (run_pwm_comprehensive_tests st)
  = planned (test_section_enabled st) (test_group_enabled st) /\
  same_flags st (run_pwm_comprehensive_tests st).
Proof.
  rewrite run_pwm_comprehensive_tests_unfold.
  destruct (sections_run_count st) as (Hflags & Hcount).
  unfold print_test_summary. cbn [print test_result_count].
  rewrite Hcount. split; [reflexivity|apply Hflags].
Qed.

(** X19. A full run stores as many results as the flags plan, 23 at most,
    whatever the count was before and whatever the tests answer; the flags
    are as they were. *)
Theorem full_run_stores_what_the_flags_plan (st : State World) :
  test_result_count (run_pwm_comprehensive_tests st)
  = planned (test_section_enabled st) (test_group_enabled st) /\
  0 <= test_result_count (run_pwm_comprehensive_tests st) <= 23 /\
  same_flags st (run_pwm_comprehensive_tests st).
Proof.
  rewrite run_pwm_comprehensive_tests_unfold.
  destruct (sections_run_count st) as (Hflags & Hcount).
  pose proof (planned_range (test_section_enabled st) (test_group_enabled st)).
  unfold print_test_summary. cbn [print test_result_count].
  rewrite Hcount. repeat split; try lia; apply Hflags.
Qed.


(** ** The table and the console *)

Lemma results_printed_app (outs outs' : list Output) :
  results_printed (outs ++ outs') = results_printed outs ++ results_printed outs'.
Proof. unfold results_printed. apply flat_map_app. Qed.

Lemma tracks_le base (b b' : Z) (st : State World) :
  b <= b' -> tracks base b st -> tracks base b' st.
Proof.
  intros Hle (outs & Hserial & Htable & Hcount & Hbound & Hlen).
  exists outs. repeat split; try assumption. lia.
Qed.

Lemma tracks_print base (b : Z) (o : Output) (st : State World) :
  results_printed [o] = [] -> tracks base b st -> tracks base b (print o st).
Proof.
  intros Ho (outs & Hserial & Htable & Hcount & Hbound & Hlen).
  exists (outs ++ [o]). cbn [print serial test_result_count test_results].
  rewrite results_printed_app, Ho, app_nil_r, Hserial, app_assoc.
  repeat split; assumption.
Qed.

Lemma firstn_at_index_end (A : Type) (c : Z) (x : A) (table : list A) :
  0 <= c < Z.of_nat (List.length table) ->
  firstn (Z.to_nat (c + 1)) (at_index c (fun _ => x) table)
  = firstn (Z.to_nat c) table ++ [x].
Proof.
  intros Hc. unfold at_index.
  replace ((0 <=? c) && (c <? Z.of_nat (List.length table))) with true
    by (symmetry; apply andb_true_intro; split; [apply Z.leb_le|apply Z.ltb_lt]; lia).
  assert (Hlen : List.length (firstn (Z.to_nat c) table) = Z.to_nat c)
    by (rewrite length_firstn; lia).
  replace (Z.to_nat (c + 1)) with (List.length (firstn (Z.to_nat c) table) + 1)%nat by lia.
  rewrite firstn_app_2.
  destruct (skipn (Z.to_nat c) table) as [|y rest] eqn:Hskip.
  - apply (f_equal (@List.length A)) in Hskip. rewrite length_skipn in Hskip.
    cbn in Hskip. lia.
  - reflexivity.
Qed.

Lemma tracks_stored base (B : Z) (r : TestResult) (w : World) (st : State World) :
  B <= 100 -> tracks base (B - 1) st ->
  tracks base B
    (print (ResultLine r)
       (mkState (test_section_enabled st) (test_group_enabled st)
          (at_index (test_result_count st) (fun _ => r) (test_results st))
          (int_incr (test_result_count st)) w (serial st))).
Proof.
  intros HB (outs & Hserial & Htable & Hcount & Hbound & Hlen).
  assert (H0 : 0 <= test_result_count st) by lia.
  exists (outs ++ [ResultLine r]). cbn [print serial test_result_count test_results].
  rewrite int_incr_small by (unfold INT_MAX; lia).
  rewrite results_printed_app, Hserial, app_assoc, length_app, at_index_length.
  rewrite firstn_at_index_end by lia. rewrite Htable.
  repeat split; try assumption; try reflexivity.
  - cbn [results_printed flat_map List.length app]. lia.
  - lia.
Qed.

Lemma tracks_record base (B : Z) (r : TestResult) (st : State World) :
  B <= 100 -> tracks base (B - 1) st -> tracks base B (record r st).
Proof. intros HB Ht. unfold record. now apply tracks_stored. Qed.

Lemma tracks_run_one base (B : Z) test f failure ms (st : State World) :
  B <= 100 -> tracks base (B - 1) st -> tracks base B (run_one test f failure ms st).
Proof.
  intros HB Ht. unfold run_one. destruct (f (world st)) as [ok w].
  unfold record. cbn [test_section_enabled test_group_enabled test_results
                      test_result_count world serial].
  now apply tracks_stored.
Qed.

Lemma tracks_record_passing base (n : nat) test ms :
  forall (B : Z) (st : State World),
    B <= 100 -> tracks base (B - Z.of_nat n) st ->
    tracks base B (record_passing n test ms st).
Proof.
  induction n as [|n IH]; intros B st HB Ht; cbn [record_passing].
  - apply tracks_le with (B - Z.of_nat 0); [lia|assumption].
  - apply IH; [assumption|]. apply tracks_record; [lia|].
    apply tracks_le with (B - Z.of_nat (S n)); [lia|assumption].
Qed.

Lemma tracks_placeholder_section base section skipped header (n : nat) test ms (B : Z)
      (st : State World) :
  B <= 100 -> tracks base (B - Z.of_nat n) st ->
  tracks base B (placeholder_section section skipped header n test ms st).
Proof.
  intros HB Ht. unfold placeholder_section. destruct (negb _).
  - apply tracks_print; [reflexivity|]. apply tracks_le with (B - Z.of_nat n); [lia|assumption].
  - apply tracks_record_passing; [assumption|]. now apply tracks_print.
Qed.

Ltac tracked_group :=
  match goal with
  | |- tracks _ ?B (if ?c then _ else _) =>
      destruct c;
      [ repeat first [ apply tracks_run_one; [lia|]
                     | apply tracks_print; [reflexivity|] ]
      | apply tracks_le with (B - 1); [lia|] ]
  end.

Lemma tracks_run_basic_pwm_tests base (B : Z) (st : State World) :
  B <= 100 -> tracks base (B - 5) st -> tracks base B (run_basic_pwm_tests st).
Proof.
  intros HB Ht. unfold Pwm.run_basic_pwm_tests. destruct (negb _).
  - apply tracks_print; [reflexivity|]. apply tracks_le with (B - 5); [lia|assumption].
  - cbv zeta. do 4 tracked_group;
      (try (apply tracks_print; [reflexivity|]);
       apply tracks_le with (B - 5); [lia|assumption]).
Qed.

Lemma sections_run_tracks (st : State World) :
  List.length (test_results st) = 100%nat ->
  tracks (serial st ++ [Starting]) 23 (sections_run st).
Proof.
  intros Hlen.
  unfold run_stress_tests, run_error_handling_tests, run_performance_tests,
    run_pin_tests, run_duty_cycle_tests, run_frequency_tests.
  apply tracks_placeholder_section; [lia|].
  apply tracks_placeholder_section; [lia|].
  apply tracks_placeholder_section; [lia|].
  apply tracks_placeholder_section; [lia|].
  apply tracks_placeholder_section; [lia|].
  apply tracks_placeholder_section; [lia|].
  apply tracks_run_basic_pwm_tests; [lia|].
  exists []. cbn. rewrite app_nil_r. repeat split; try lia; exact Hlen.
Qed.

Lemma count_failed_loop (rs : list TestResult) :
  forall n : Z,
    0 <= n -> n + Z.of_nat (List.length rs) <= INT_MAX ->
    fold_left (fun n r => if passed r then n else int_incr n) rs n
    = n + Z.of_nat (List.length (filter (fun r => negb (passed r)) rs)).
Proof.
  induction rs as [|r rs IH]; intros n Hn Hmax; cbn [fold_left filter List.length].
  - lia.
  - cbn [List.length] in Hmax. rewrite Nat2Z.inj_succ in Hmax.
    destruct (passed r); cbn [negb].
    + rewrite IH by lia. lia.
    + rewrite int_incr_small by lia. rewrite IH by lia. cbn [List.length]. lia.
Qed.

(** The summary of a state whose table tracks the console. *)
Lemma print_test_summary_tracked base (b : Z) (st : State World) :
  tracks base b st -> b <= INT_MAX ->
  exists outs : list Output,
    serial st = base ++ outs /\
    Z.of_nat (List.length (results_printed outs)) <= b /\
    print_test_summary st = print (summary_of (results_printed outs)) st.
Proof.
  intros (outs & Hserial & Htable & Hcount & Hbound & Hlen) Hb.
  exists outs. split; [assumption|]. split; [lia|].
  unfold print_test_summary, summary_of. cbv zeta. rewrite Htable.
  rewrite (@count_loop _ passed (results_printed outs) 0) by lia.
  rewrite count_failed_loop by lia.
  rewrite Hcount. reflexivity.
Qed.

Lemma run_summary (st : State World) :
  List.length (test_results st) = 100%nat ->
  exists outs : list Output,
    serial (run_pwm_comprehensive_tests st)
    = serial st ++ Starting :: outs ++ [summary_of (results_printed outs)] /\
    (List.length (results_printed outs) <= 23)%nat.
Proof.
  intros Hlen. rewrite run_pwm_comprehensive_tests_unfold.
  destruct (@print_test_summary_tracked (serial st ++ [Starting]) 23 (sections_run st))
    as (outs & Hserial & Hbound & Hsummary);
    [now apply sections_run_tracks|unfold INT_MAX; lia|].
  rewrite Hsummary. cbn [print serial]. rewrite Hserial.
  exists outs. split; [|lia].
  rewrite <- !app_assoc. reflexivity.
Qed.

(** X20. With the table of 100 entries, the summary that ends a full run counts
    the result lines printed since the run started: their number, the
    passed and the failed ones among them, with the success rate when there
    is a result; at most 23 results are printed. *)
Theorem summary_counts_the_printed_results (st : State World) :
  List.length (test_results st) = 100%nat ->
  exists outs : list Output,
    serial (run_pwm_comprehensive_tests st)
    = serial st ++ Starting :: outs ++ [summary_of (results_printed outs)] /\
    (List.length (results_printed outs) <= 23)%nat.
Proof. exact (@run_summary st). Qed.

(** ** Selecting sections *)

Lemma flags_after_enabling (sections : list Z) :
  forall st : State World,
    List.length (test_section_enabled st) = Z.to_nat SECTION_MAX ->
    let st' := fold_left (fun st section => enable_test_section section true st)
                         sections st in
    List.length (test_section_enabled st') = Z.to_nat SECTION_MAX /\
    test_group_enabled st' = test_group_enabled st /\
    forall k, 0 <= k < SECTION_MAX ->
      flag (test_section_enabled st') k
      = existsb (Z.eqb k) sections || flag (test_section_enabled st) k.
Proof.
  induction sections as [|s sections IH]; intros st Hlen; cbn [fold_left existsb].
  - split; [assumption|]. split; [reflexivity|]. intros k Hk. reflexivity.
  - cbv zeta in IH.
    destruct (IH (enable_test_section s true st)) as (Hlen' & Hg & Hflags).
    + unfold enable_test_section. destruct ((s >=? 0) && (s <? SECTION_MAX)); [|assumption].
      cbn. now rewrite at_index_length.
    + split; [assumption|]. split.
      * rewrite Hg. unfold enable_test_section.
        now destruct ((s >=? 0) && (s <? SECTION_MAX)).
      * intros k Hk. rewrite (Hflags k Hk). unfold enable_test_section.
        destruct ((s >=? 0) && (s <? SECTION_MAX)) eqn:Hin.
        -- apply andb_prop in Hin. destruct Hin as [H0 H1].
           rewrite Z.geb_leb in H0. apply Z.leb_le in H0. apply Z.ltb_lt in H1.
           cbn [set_section_flags test_section_enabled].
           rewrite flag_at_index by (rewrite ?Hlen; unfold SECTION_MAX in *; lia).
           destruct (Z.eqb_spec k s); cbn [orb].
           ++ now rewrite orb_true_r.
           ++ reflexivity.
        -- destruct (Z.eqb_spec k s) as [->|Hne]; cbn [orb]; [|reflexivity].
           apply andb_false_iff in Hin. destruct Hin as [Hin|Hin].
           ++ rewrite Z.geb_leb in Hin. apply Z.leb_gt in Hin. lia.
           ++ apply Z.ltb_ge in Hin. lia.
Qed.

(** X21. [run_specific_test_sections] leaves exactly the listed sections
    enabled, whatever was enabled before: an entry outside the enumeration
    is passed over, the group flags are as they were, and the run stores
    what these flags plan. *)
Theorem run_specific_test_sections_sets_the_flags (sections : list Z) (st : State World) :
  List.length (test_section_enabled st) = Z.to_nat SECTION_MAX ->
  let st' := run_specific_test_sections sections st in
  (forall k, 0 <= k < SECTION_MAX ->
     flag (test_section_enabled st') k = existsb (Z.eqb k) sections) /\
  test_group_enabled st' = test_group_enabled st /\
  test_result_count st' = planned (test_section_enabled st') (test_group_enabled st).
Proof.
  intros Hlen st'. subst st'. unfold Pwm.run_specific_test_sections. cbv zeta.
  set (cleared := set_section_flags (map (fun _ => false) (test_section_enabled st)) st).
  destruct (@flags_after_enabling sections cleared) as (Hlen' & Hg & Hflags).
  { subst cleared. cbn. now rewrite length_map. }
  cbv zeta in Hlen', Hg, Hflags.
  set (selected := fold_left (fun st section => enable_test_section section true st)
                     sections cleared) in *.
  destruct (full_run_stores_what_the_flags_plan_aux selected) as (Hcount & (Hs & Hgr)).
  rewrite Hs, Hgr, Hcount, Hg. subst cleared. cbn [set_section_flags test_group_enabled].
  split; [|split; reflexivity].
  intros k Hk. rewrite (Hflags k) by lia.
  cbn [set_section_flags test_section_enabled]. rewrite flag_all_false.
  apply orb_false_r.
Qed.

End PwmFacts.

(** * PwmTestUsageExamples.cpp *)

Section PwmExampleFacts.
Import Pwm PwmSpec PwmExamples.
Variable World : Type.
Variables test_pwm_initialization test_pwm_frequency_setting
          test_pwm_duty_cycle_setting test_pwm_output_validation test_pwm_cleanup
  : World -> bool * World.

Lemma disable_all_sections_clears (st : State World) :
  List.length (test_section_enabled st) = Z.to_nat SECTION_MAX ->
  disable_all_sections st
  = set_section_flags (map (fun _ => false) (test_section_enabled st)) st.
Proof.
  destruct st as [sections groups table count w console]. cbn [test_section_enabled].
  destruct sections as [|s0 [|s1 [|s2 [|s3 [|s4 [|s5 [|s6 [|s7 sections]]]]]]]];
    try discriminate.
  intros _. reflexivity.
Qed.

Lemma disable_all_groups_clears (st : State World) :
  List.length (test_group_enabled st) = Z.to_nat GROUP_MAX ->
  disable_all_groups st
  = mkState (test_section_enabled st) (map (fun _ => false) (test_group_enabled st))
            (test_results st) (test_result_count st) (world st) (serial st).
Proof.
  destruct st as [sections groups table count w console]. cbn [test_group_enabled].
  destruct groups as [|g0 [|g1 [|g2 [|g3 [|g4 groups]]]]]; try discriminate.
  intros _. reflexivity.
Qed.

(** X22. The examples that disable every section in a loop of
    [enable_test_section] calls and then enable one or two do, after their
    headline, what [run_specific_test_sections] does on the same sections. *)
Theorem examples_agree_with_run_specific_test_sections (st : State World) :
  List.length (test_section_enabled st) = Z.to_nat SECTION_MAX ->
  snd (example_run_basic_tests_only test_pwm_initialization test_pwm_frequency_setting
         test_pwm_duty_cycle_setting test_pwm_output_validation test_pwm_cleanup st)
  = Pwm.run_specific_test_sections test_pwm_initialization test_pwm_frequency_setting
      test_pwm_duty_cycle_setting test_pwm_output_validation test_pwm_cleanup
      [SECTION_BASIC_PWM] st /\
  snd (example_run_frequency_and_duty_cycle_tests test_pwm_initialization
         test_pwm_frequency_setting test_pwm_duty_cycle_setting
         test_pwm_output_validation test_pwm_cleanup st)
  = Pwm.run_specific_test_sections test_pwm_initialization test_pwm_frequency_setting
      test_pwm_duty_cycle_setting test_pwm_output_validation test_pwm_cleanup
      [SECTION_FREQUENCY_TESTS; SECTION_DUTY_CYCLE_TESTS] st.
Proof.
  intros Hlen.
  unfold example_run_basic_tests_only, example_run_frequency_and_duty_cycle_tests.
  cbn [snd]. cbv zeta. rewrite (disable_all_sections_clears st Hlen).
  split; reflexivity.
Qed.

End PwmExampleFacts.

(** * PwmComprehensiveTest.cpp: the LEDC test functions *)

Section RunOneFacts.
Import Pwm.
Variable World : Type.

Lemma serial_run_one test (f : World -> bool * World) failure ms (st : State World) :
  serial (run_one test f failure ms st)
  = serial st
    ++ [ResultLine (mkTestResult (fst (f (world st))) test
                      (if fst (f (world st)) then None else Some failure) ms)].
Proof. unfold run_one. now destruct (f (world st)). Qed.

Lemma world_run_one test (f : World -> bool * World) failure ms (st : State World) :
  world (run_one test f failure ms st) = snd (f (world st)).
Proof. unfold run_one. now destruct (f (world st)). Qed.

End RunOneFacts.

Section PwmLedcFacts.
Import Pwm PwmSpec PwmLedc.
Variable Hw : Type.
Variables ESP_OK LEDC_TIMER_13_BIT LEDC_HIGH_SPEED_MODE LEDC_TIMER_0 LEDC_AUTO_CLK
          LEDC_CHANNEL_0 : Z.
Variable ledc_timer_config : ledc_timer_config_t -> Hw -> Z * Hw.
Variable ledc_channel_config : ledc_channel_config_t -> Hw -> Z * Hw.
Variable ledc_set_freq : Z -> Z -> Z -> Hw -> Z * Hw.
Variable ledc_set_duty : Z -> Z -> Z -> Hw -> Z * Hw.
Variable ledc_update_duty : Z -> Z -> Hw -> Z * Hw.
Variable ledc_stop : Z -> Z -> Z -> Hw -> Z * Hw.
Variable delay : Z -> Hw -> Hw.

Local Notation test_pwm_initialization :=
  (PwmLedc.test_pwm_initialization ESP_OK LEDC_TIMER_13_BIT LEDC_HIGH_SPEED_MODE
     LEDC_TIMER_0 LEDC_AUTO_CLK LEDC_CHANNEL_0 ledc_timer_config ledc_channel_config).
Local Notation test_pwm_frequency_setting :=
  (PwmLedc.test_pwm_frequency_setting ESP_OK LEDC_HIGH_SPEED_MODE LEDC_TIMER_0
     ledc_set_freq delay).
Local Notation test_pwm_duty_cycle_setting :=
  (PwmLedc.test_pwm_duty_cycle_setting ESP_OK LEDC_TIMER_13_BIT LEDC_HIGH_SPEED_MODE
     LEDC_CHANNEL_0 ledc_set_duty delay).
Local Notation test_pwm_output_validation :=
  (PwmLedc.test_pwm_output_validation ESP_OK LEDC_TIMER_13_BIT LEDC_HIGH_SPEED_MODE
     LEDC_CHANNEL_0 ledc_set_duty ledc_update_duty ledc_stop delay).
Local Notation test_pwm_cleanup :=
  (PwmLedc.test_pwm_cleanup ESP_OK LEDC_HIGH_SPEED_MODE LEDC_CHANNEL_0
     ledc_channel_config ledc_stop).
Local Notation run_basic_pwm_tests :=
  (PwmLedc.run_basic_pwm_tests ESP_OK LEDC_TIMER_13_BIT LEDC_HIGH_SPEED_MODE
     LEDC_TIMER_0 LEDC_AUTO_CLK LEDC_CHANNEL_0 ledc_timer_config ledc_channel_config
     ledc_set_freq ledc_set_duty ledc_update_duty ledc_stop delay).
Local Notation driver_accepts_everything :=
  (PwmLedc.driver_accepts_everything ESP_OK ledc_timer_config ledc_channel_config
     ledc_set_freq ledc_set_duty ledc_update_duty ledc_stop).
Local Notation set_each := (PwmLedc.set_each ESP_OK delay).

Lemma set_each_accepted (set : Z -> Hw -> Z * Hw) (values : list Z) :
  (forall v h, fst (set v h) = ESP_OK) ->
  forall h, fst (set_each set values h) = true.
Proof.
  intros Hset. induction values as [|v values IH]; intros h; cbn [PwmLedc.set_each].
  - reflexivity.
  - specialize (Hset v h). destruct (set v h) as [ret h']. cbn [fst] in Hset.
    subst ret. rewrite Z.eqb_refl. cbn [negb]. apply IH.
Qed.

Lemma test_pwm_initialization_verdict (w : World Hw) :
  pwm_initialized (snd (test_pwm_initialization w)) = fst (test_pwm_initialization w).
Proof.
  unfold PwmLedc.test_pwm_initialization.
  destruct (pwm_initialized w) eqn:Hflag; [exact Hflag|].
  cbv zeta. destruct (ledc_timer_config _ _) as [ret h].
  destruct (ret =? ESP_OK); cbn [negb]; [|reflexivity].
  destruct (ledc_channel_config _ _) as [ret' h'].
  destruct (ret' =? ESP_OK); reflexivity.
Qed.

Lemma test_pwm_cleanup_verdict (w : World Hw) :
  pwm_initialized (snd (test_pwm_cleanup w)) = negb (fst (test_pwm_cleanup w)).
Proof.
  unfold PwmLedc.test_pwm_cleanup.
  destruct (pwm_initialized w) eqn:Hflag; cbn [negb]; [|exact Hflag].
  destruct (ledc_stop _ _ _ _) as [ret h].
  destruct (ret =? ESP_OK); cbn [negb]; [|exact Hflag].
  destruct (ledc_channel_config _ _) as [ret' h'].
  destruct (ret' =? ESP_OK); cbn [negb]; [reflexivity|exact Hflag].
Qed.

Lemma test_pwm_frequency_setting_guarded : @guarded_by_the_flag Hw test_pwm_frequency_setting.
Proof.
  intros w. unfold PwmLedc.test_pwm_frequency_setting.
  destruct (pwm_initialized w) eqn:Hflag; cbn [negb]; [|now repeat split].
  destruct (set_each _ _ _) as [[|] h].
  - destruct (ledc_set_freq _ _ _ _) as [ret h']. repeat split; try assumption.
    discriminate.
  - repeat split; try assumption. discriminate.
Qed.

Lemma test_pwm_duty_cycle_setting_guarded : @guarded_by_the_flag Hw test_pwm_duty_cycle_setting.
Proof.
  intros w. unfold PwmLedc.test_pwm_duty_cycle_setting.
  destruct (pwm_initialized w) eqn:Hflag; cbn [negb]; [|now repeat split].
  destruct (set_each _ _ _) as [[|] h].
  - cbv zeta. destruct (ledc_set_duty _ _ _ _) as [ret h']. repeat split; try assumption.
    discriminate.
  - repeat split; try assumption. discriminate.
Qed.

Lemma test_pwm_output_validation_guarded : @guarded_by_the_flag Hw test_pwm_output_validation.
Proof.
  intros w. unfold PwmLedc.test_pwm_output_validation.
  destruct (pwm_initialized w) eqn:Hflag; cbn [negb]; [|now repeat split].
  cbv zeta. destruct (ledc_set_duty _ _ _ _) as [ret h].
  destruct (ret =? ESP_OK); cbn [negb]; [|repeat split; try assumption; discriminate].
  destruct (ledc_update_duty _ _ _) as [ret1 h1].
  destruct (ret1 =? ESP_OK); cbn [negb]; [|repeat split; try assumption; discriminate].
  destruct (ledc_stop _ _ _ _) as [ret2 h2].
  destruct (ret2 =? ESP_OK); cbn [negb]; repeat split; try assumption; discriminate.
Qed.

Lemma test_pwm_cleanup_uninitialized (w : World Hw) :
  pwm_initialized w = false -> test_pwm_cleanup w = (true, w).
Proof. intros Hflag. unfold PwmLedc.test_pwm_cleanup. now rewrite Hflag. Qed.


(** X23. The flag [pwm_initialized] follows the verdicts: [test_pwm_initialization]
    returns the value the flag has afterwards and calls no driver function
    once it is set; [test_pwm_cleanup] returns true exactly when the flag
    is clear afterwards and calls no driver function when it was clear;
    the tests of the frequency, the duty cycle and the output leave the
    flag and both configurations as they were, and fail without a call of
    the driver when the flag is clear. *)
Theorem pwm_flag_follows_the_verdicts :
  (forall w, pwm_initialized (snd (test_pwm_initialization w))
             = fst (test_pwm_initialization w)) /\
  (forall w, pwm_initialized w = true -> test_pwm_initialization w = (true, w)) /\
  (forall w, pwm_initialized (snd (test_pwm_cleanup w))
             = negb (fst (test_pwm_cleanup w))) /\
  (forall w, pwm_initialized w = false -> test_pwm_cleanup w = (true, w)) /\
  Forall (@guarded_by_the_flag Hw)
    [test_pwm_frequency_setting; test_pwm_duty_cycle_setting; test_pwm_output_validation].
Proof.
  split; [exact test_pwm_initialization_verdict|].
  split; [intros w Hflag; unfold PwmLedc.test_pwm_initialization; now rewrite Hflag|].
  split; [exact test_pwm_cleanup_verdict|].
  split; [exact test_pwm_cleanup_uninitialized|].
  apply Forall_cons; [exact test_pwm_frequency_setting_guarded|].
  apply Forall_cons; [exact test_pwm_duty_cycle_setting_guarded|].
  apply Forall_cons; [exact test_pwm_output_validation_guarded|].
  apply Forall_nil.
Qed.

(** ** The basic section on a driver that accepts every call *)

Section Accepting.
Hypothesis Hok : driver_accepts_everything.

Lemma test_pwm_initialization_accepted (w : World Hw) :
  fst (test_pwm_initialization w) = true.
Proof.
  destruct Hok as (Htimer & Hchannel & _).
  unfold PwmLedc.test_pwm_initialization.
  destruct (pwm_initialized w); [reflexivity|]. cbv zeta.
  match goal with |- context [ledc_timer_config ?c ?h] =>
    specialize (Htimer c h); destruct (ledc_timer_config c h) as [ret h1] end.
  cbn [fst] in Htimer. subst ret. rewrite Z.eqb_refl. cbn [negb].
  match goal with |- context [ledc_channel_config ?c ?h] =>
    specialize (Hchannel c h); destruct (ledc_channel_config c h) as [ret h2] end.
  cbn [fst] in Hchannel. subst ret. rewrite Z.eqb_refl. reflexivity.
Qed.

Lemma test_pwm_frequency_setting_accepted (w : World Hw) :
  pwm_initialized w = true -> fst (test_pwm_frequency_setting w) = true.
Proof.
  destruct Hok as (_ & _ & Hfreq & _). intros Hflag.
  unfold PwmLedc.test_pwm_frequency_setting. rewrite Hflag. cbn [negb].
  pose proof (@set_each_accepted (ledc_set_freq LEDC_HIGH_SPEED_MODE LEDC_TIMER_0)
                [500; 1000; 2000; 5000] (Hfreq _ _) (hw w)) as Hloop.
  destruct (set_each _ _ _) as [ok h]. cbn [fst] in Hloop. subst ok.
  now destruct (ledc_set_freq _ _ _ _).
Qed.

Lemma test_pwm_duty_cycle_setting_accepted (w : World Hw) :
  pwm_initialized w = true -> fst (test_pwm_duty_cycle_setting w) = true.
Proof.
  destruct Hok as (_ & _ & _ & Hduty & _). intros Hflag.
  unfold PwmLedc.test_pwm_duty_cycle_setting. rewrite Hflag. cbn [negb].
  match goal with |- context [PwmLedc.set_each _ _ ?set ?values ?h] =>
    pose proof (@set_each_accepted set values (Hduty _ _) h) as Hloop;
    destruct (PwmLedc.set_each ESP_OK delay set values h) as [ok h1] end.
  cbn [fst] in Hloop. subst ok. cbv zeta.
  now destruct (ledc_set_duty _ _ _ _).
Qed.

Lemma test_pwm_output_validation_accepted (w : World Hw) :
  pwm_initialized w = true -> fst (test_pwm_output_validation w) = true.
Proof.
  destruct Hok as (_ & _ & _ & Hduty & Hupdate & Hstop). intros Hflag.
  unfold PwmLedc.test_pwm_output_validation. rewrite Hflag. cbn [negb]. cbv zeta.
  match goal with |- context [ledc_set_duty ?m ?c ?d ?h] =>
    specialize (Hduty m c d h); destruct (ledc_set_duty m c d h) as [ret h1] end.
  cbn [fst] in Hduty. subst ret. rewrite Z.eqb_refl. cbn [negb].
  match goal with |- context [ledc_update_duty ?m ?c ?h] =>
    specialize (Hupdate m c h); destruct (ledc_update_duty m c h) as [ret h2] end.
  cbn [fst] in Hupdate. subst ret. rewrite Z.eqb_refl. cbn [negb].
  match goal with |- context [ledc_stop ?m ?c ?i ?h] =>
    specialize (Hstop m c i h); destruct (ledc_stop m c i h) as [ret h3] end.
  cbn [fst] in Hstop. subst ret. rewrite Z.eqb_refl. reflexivity.
Qed.

Lemma test_pwm_cleanup_accepted (w : World Hw) : fst (test_pwm_cleanup w) = true.
Proof.
  destruct Hok as (_ & Hchannel & _ & _ & _ & Hstop).
  unfold PwmLedc.test_pwm_cleanup.
  destruct (pwm_initialized w); cbn [negb]; [|reflexivity].
  match goal with |- context [ledc_stop ?m ?c ?i ?h] =>
    specialize (Hstop m c i h); destruct (ledc_stop m c i h) as [ret h1] end.
  cbn [fst] in Hstop. subst ret. rewrite Z.eqb_refl. cbn [negb].
  match goal with |- context [ledc_channel_config ?c ?h] =>
    specialize (Hchannel c h); destruct (ledc_channel_config c h) as [ret h2] end.
  cbn [fst] in Hchannel. subst ret. rewrite Z.eqb_refl. reflexivity.
Qed.

End Accepting.

Ltac group_flags :=
  repeat first [rewrite groups_run_one | progress cbn [print test_group_enabled]].

Ltac console :=
  repeat first [rewrite serial_run_one | rewrite world_run_one
               | progress cbn [print serial world fst snd]].

(** X24. On a driver that accepts every call, with the basic section and its
    four groups enabled, [run_basic_pwm_tests] prints five passed results
    in the order of the groups, whether or not the PWM was initialized
    before, and leaves it not initialized. *)
Theorem run_basic_pwm_tests_on_an_accepting_driver (st : State (World Hw)) :
  driver_accepts_everything ->
  flag (test_section_enabled st) SECTION_BASIC_PWM = true ->
  Forall (fun group => flag (test_group_enabled st) group = true)
    [GROUP_INITIALIZATION; GROUP_FUNCTIONALITY; GROUP_VALIDATION; GROUP_CLEANUP] ->
  serial (run_basic_pwm_tests st)
  = serial st
    ++ [SectionHeader "Basic PWM Tests";
        GroupHeader "Initialization Tests";
        ResultLine (mkTestResult true "PWM Timer Configuration" None 100);
        GroupHeader "Functionality Tests";
        ResultLine (mkTestResult true "PWM Frequency Setting" None 150);
        ResultLine (mkTestResult true "PWM Duty Cycle Setting" None 120);
        GroupHeader "Validation Tests";
        ResultLine (mkTestResult true "PWM Output Validation" None 200);
        GroupHeader "Cleanup Tests";
        ResultLine (mkTestResult true "PWM Cleanup" None 80)] /\
  pwm_initialized (world (run_basic_pwm_tests st)) = false.
Proof.
  intros Hok Hsection Hgroups.
  inversion_clear Hgroups as [|? ? Hg0 Hgs1].
  inversion_clear Hgs1 as [|? ? Hg1 Hgs2].
  inversion_clear Hgs2 as [|? ? Hg2 Hgs3].
  inversion_clear Hgs3 as [|? ? Hg3 _].
  unfold PwmLedc.run_basic_pwm_tests, Pwm.run_basic_pwm_tests.
  rewrite Hsection. cbn [negb]. cbv zeta.
  group_flags. rewrite Hg0. group_flags. rewrite Hg1. group_flags. rewrite Hg2.
  group_flags. rewrite Hg3. console.
  set (w0 := world st).
  set (w1 := snd (test_pwm_initialization w0)).
  set (w2 := snd (test_pwm_frequency_setting w1)).
  set (w3 := snd (test_pwm_duty_cycle_setting w2)).
  set (w4 := snd (test_pwm_output_validation w3)).
  assert (F1 : pwm_initialized w1 = true).
  { subst w1. rewrite test_pwm_initialization_verdict.
    now apply test_pwm_initialization_accepted. }
  assert (F2 : pwm_initialized w2 = true).
  { subst w2. now rewrite (proj1 (test_pwm_frequency_setting_guarded w1)). }
  assert (F3 : pwm_initialized w3 = true).
  { subst w3. now rewrite (proj1 (test_pwm_duty_cycle_setting_guarded w2)). }
  assert (F4 : pwm_initialized w4 = true).
  { subst w4. now rewrite (proj1 (test_pwm_output_validation_guarded w3)). }
  rewrite (test_pwm_initialization_accepted Hok w0).
  rewrite (test_pwm_frequency_setting_accepted Hok w1 F1).
  rewrite (test_pwm_duty_cycle_setting_accepted Hok w2 F2).
  rewrite (test_pwm_output_validation_accepted Hok w3 F3).
  rewrite test_pwm_cleanup_verdict.
  rewrite (test_pwm_cleanup_accepted Hok w4).
  split; [|reflexivity].
  repeat rewrite <- app_assoc. reflexivity.
Qed.

(** ** The basic section without the initialization group *)

Lemma run_basic_pwm_tests_uninitialized (st : State (World Hw)) :
  pwm_initialized (world st) = false ->
  flag (test_section_enabled st) SECTION_BASIC_PWM = true ->
  flag (test_group_enabled st) GROUP_INITIALIZATION = false ->
  serial (run_basic_pwm_tests st)
  = serial st
    ++ SectionHeader "Basic PWM Tests"
    :: (if flag (test_group_enabled st) GROUP_FUNCTIONALITY
        then [GroupHeader "Functionality Tests";
              ResultLine (mkTestResult false "PWM Frequency Setting"
                            (Some "Failed to set PWM frequency"%string) 150);
              ResultLine (mkTestResult false "PWM Duty Cycle Setting"
                            (Some "Failed to set PWM duty cycle"%string) 120)]
        else [])
    ++ (if flag (test_group_enabled st) GROUP_VALIDATION
        then [GroupHeader "Validation Tests";
              ResultLine (mkTestResult false "PWM Output Validation"
                            (Some "PWM output validation failed"%string) 200)]
        else [])
    ++ (if flag (test_group_enabled st) GROUP_CLEANUP
        then [GroupHeader "Cleanup Tests";
              ResultLine (mkTestResult true "PWM Cleanup" None 80)]
        else []) /\
  world (run_basic_pwm_tests st) = world st.
Proof.
  intros Hflag Hsection Hg0.
  pose proof (proj2 (proj2 (proj2 (test_pwm_frequency_setting_guarded (world st)))) Hflag)
    as Hfreq.
  pose proof (proj2 (proj2 (proj2 (test_pwm_duty_cycle_setting_guarded (world st)))) Hflag)
    as Hduty.
  pose proof (proj2 (proj2 (proj2 (test_pwm_output_validation_guarded (world st)))) Hflag)
    as Hvalid.
  pose proof (test_pwm_cleanup_uninitialized (world st) Hflag) as Hclean.
  unfold PwmLedc.run_basic_pwm_tests, Pwm.run_basic_pwm_tests.
  rewrite Hsection. cbn [negb]. cbv zeta.
  group_flags. rewrite Hg0. group_flags.
  destruct (flag (test_group_enabled st) GROUP_FUNCTIONALITY); group_flags;
    (destruct (flag (test_group_enabled st) GROUP_VALIDATION); group_flags;
     (destruct (flag (test_group_enabled st) GROUP_CLEANUP);
      repeat first [rewrite serial_run_one | rewrite world_run_one
                   | rewrite Hfreq | rewrite Hduty | rewrite Hvalid | rewrite Hclean
                   | progress cbn [print serial world fst snd]];
      (split; [|reflexivity]); repeat rewrite <- app_assoc; reflexivity)).
Qed.

(** X25. With the initialization group disabled and the PWM not initialized,
    [run_basic_pwm_tests] reports the frequency, duty cycle and output
    tests of the enabled groups as failed and the cleanup as passed,
    whatever the driver would answer: the driver is never called. *)
Theorem run_basic_pwm_tests_without_initialization (st : State (World Hw)) :
  pwm_initialized (world st) = false ->
  flag (test_section_enabled st) SECTION_BASIC_PWM = true ->
  flag (test_group_enabled st) GROUP_INITIALIZATION = false ->
  serial (run_basic_pwm_tests st)
  = serial st
    ++ SectionHeader "Basic PWM Tests"
    :: (if flag (test_group_enabled st) GROUP_FUNCTIONALITY
        then [GroupHeader "Functionality Tests";
              ResultLine (mkTestResult false "PWM Frequency Setting"
                            (Some "Failed to set PWM frequency"%string) 150);
              ResultLine (mkTestResult false "PWM Duty Cycle Setting"
                            (Some "Failed to set PWM duty cycle"%string) 120)]
        else [])
    ++ (if flag (test_group_enabled st) GROUP_VALIDATION
        then [GroupHeader "Validation Tests";
              ResultLine (mkTestResult false "PWM Output Validation"
                            (Some "PWM output validation failed"%string) 200)]
        else [])
    ++ (if flag (test_group_enabled st) GROUP_CLEANUP
        then [GroupHeader "Cleanup Tests";
              ResultLine (mkTestResult true "PWM Cleanup" None 80)]
        else []) /\
  world (run_basic_pwm_tests st) = world st.
Proof. exact (@run_basic_pwm_tests_uninitialized st). Qed.


(** ** Example 6 on a board whose PWM is not initialized *)

(** X26. [example_custom_test_configuration] enables the validation and cleanup
    groups without the initialization group.  Started with the PWM not
    initialized it therefore reports the output validation as failed,
    whatever the driver would answer, and ends with 2 tests, 1 passed, 1
    failed, 50 percent. *)
Theorem example_custom_test_configuration_fails_validation (st : State (World Hw)) :
  pwm_initialized (world st) = false ->
  List.length (test_section_enabled st) = Z.to_nat SECTION_MAX ->
  List.length (test_group_enabled st) = Z.to_nat GROUP_MAX ->
  List.length (test_results st) = 100%nat ->
  serial (snd (PwmExamples.example_custom_test_configuration
                 test_pwm_initialization test_pwm_frequency_setting
                 test_pwm_duty_cycle_setting test_pwm_output_validation
                 test_pwm_cleanup st))
  = serial st
    ++ [Starting;
        SectionHeader "Basic PWM Tests";
        GroupHeader "Validation Tests";
        ResultLine (mkTestResult false "PWM Output Validation"
                      (Some "PWM output validation failed"%string) 200);
        GroupHeader "Cleanup Tests";
        ResultLine (mkTestResult true "PWM Cleanup" None 80);
        Skipping "Frequency tests"; Skipping "Duty Cycle tests"; Skipping "Pin tests";
        Skipping "Performance tests"; Skipping "Error Handling tests";
        Skipping "Stress tests";
        Summary 2 1 1
          (Some (float_mul (float_div (float_of_Z 1) (float_of_Z 2)) (float_of_Z 100)))].
Proof.
  destruct st as [sections groups table count w console].
  cbn [world test_section_enabled test_group_enabled test_results serial].
  intros Hflag Hsections Hgroups Htable.
  destruct sections as [|s0 [|s1 [|s2 [|s3 [|s4 [|s5 [|s6 [|s7 sections]]]]]]]];
    try discriminate Hsections.
  destruct groups as [|g0 [|g1 [|g2 [|g3 [|g4 groups]]]]]; try discriminate Hgroups.
  clear Hsections Hgroups.
  unfold PwmExamples.example_custom_test_configuration,
    PwmExamples.run_pwm_comprehensive_tests.
  cbn [snd]. cbv zeta.
  set (cfg := mkState [true; false; false; false; false; false; false]
                [false; false; true; true] table count w console).
  change (enable_test_section SECTION_BASIC_PWM true _) with cfg.
  destruct (@run_summary _ test_pwm_initialization test_pwm_frequency_setting
              test_pwm_duty_cycle_setting test_pwm_output_validation
              test_pwm_cleanup cfg Htable) as (outs & Hserial & _).
  (* the console of the same run, read off the flags *)
  set (st0 := mkState [true; false; false; false; false; false; false]
                [false; false; true; true] table 0 w (console ++ [Starting])).
  destruct (@run_basic_pwm_tests_uninitialized st0 Hflag eq_refl eq_refl)
    as (Hconsole1 & _).
  destruct (@run_basic_pwm_tests_count _ test_pwm_initialization
              test_pwm_frequency_setting test_pwm_duty_cycle_setting
              test_pwm_output_validation test_pwm_cleanup st0) as ((Hsections1 & _) & _);
    [cbn; lia|].
  set (known := [SectionHeader "Basic PWM Tests";
                 GroupHeader "Validation Tests";
                 ResultLine (mkTestResult false "PWM Output Validation"
                               (Some "PWM output validation failed"%string) 200);
                 GroupHeader "Cleanup Tests";
                 ResultLine (mkTestResult true "PWM Cleanup" None 80);
                 Skipping "Frequency tests"; Skipping "Duty Cycle tests";
                 Skipping "Pin tests"; Skipping "Performance tests";
                 Skipping "Error Handling tests"; Skipping "Stress tests"]).
  assert (Hknown : exists o,
             serial (Pwm.run_pwm_comprehensive_tests test_pwm_initialization
                       test_pwm_frequency_setting test_pwm_duty_cycle_setting
                       test_pwm_output_validation test_pwm_cleanup cfg)
             = console ++ Starting :: known ++ [o]).
  { unfold Pwm.run_pwm_comprehensive_tests. cbv zeta.
    change (mkState _ _ _ 0 _ _) with st0.
    unfold PwmLedc.run_basic_pwm_tests in Hconsole1, Hsections1.
    set (st1 := Pwm.run_basic_pwm_tests _ _ _ _ _ st0) in *. clearbody st1.
    cbn [st0 test_section_enabled serial test_group_enabled flag nth Z.to_nat
         GROUP_FUNCTIONALITY GROUP_VALIDATION GROUP_CLEANUP Pos.to_nat Pos.iter_op
         Nat.add app] in Hconsole1, Hsections1.
    unfold run_stress_tests, run_error_handling_tests, run_performance_tests,
      run_pin_tests, run_duty_cycle_tests, run_frequency_tests, placeholder_section.
    repeat (cbn [print test_section_enabled]; rewrite Hsections1;
            match goal with
            | |- context [flag ?flags ?section] =>
                change (flag flags section) with false
            end; cbn [negb]).
    unfold print_test_summary. cbn [print serial]. rewrite Hconsole1.
    eexists. subst known. repeat rewrite <- app_assoc. reflexivity. }
  destruct Hknown as (o & Hknown).
  pose proof Hserial as Hsame. rewrite Hknown in Hsame.
  apply app_inv_head in Hsame. injection Hsame as Hsame.
  apply (@app_inj_tail _ known outs o _) in Hsame. destruct Hsame as [Houts _].
  rewrite Hserial, <- Houts. reflexivity.
Qed.

End PwmLedcFacts.

(** * Accumulation of results *)

(** C7, as the code has it. In the GPIO runner results accumulate across
    [runSection] calls and nothing clears them in between: no call removes
    an outcome recorded before it, and starting from an empty result list,
    running the same enabled section of N cases, none of which throws,
    twice leaves 2N outcomes, N and then 2N being what [getTotalTestCount]
    returns as long as 2N fits an [int].  The PWM file's
    [run_pwm_comprehensive_tests] does not accumulate: it sets
    [test_result_count] to 0 first, so a second run leaves the count of
    the first, which is what the flags plan. *)
Theorem results_accumulate_unless_the_run_resets :
  (forall (World time_point : Type) (now : World -> time_point * World)
          (duration_ms : time_point -> time_point -> double)
          (any : Gpio.GpioTestSection) (st0 : Gpio.State World),
      exists appended : list Gpio.TestResult,
        Gpio.getResults (Gpio.self (snd (Gpio.runSection now duration_ms any st0)))
        = Gpio.getResults (Gpio.self st0) ++ appended) /\
  (forall (World time_point : Type) (now : World -> time_point * World)
          (duration_ms : time_point -> time_point -> double)
          (section : Gpio.GpioTestSection) (st : Gpio.State World)
          (test_section : Gpio.TestSection World),
      StdMap.find section (Gpio.test_sections (Gpio.self st)) = Some test_section ->
      Gpio.enabled test_section = true ->
      (forall test, In test (Gpio.tests test_section) -> Gpio.returns test) ->
      Gpio.all_results (Gpio.self st) = [] ->
      exists (first second : list Gpio.TestResult) (st1 st2 : Gpio.State World),
        Gpio.runSection now duration_ms section st = (Returned tt, st1) /\
        Gpio.runSection now duration_ms section st1 = (Returned tt, st2) /\
        Gpio.getResults (Gpio.self st1) = first /\
        Gpio.getResults (Gpio.self st2) = first ++ second /\
        List.length first = List.length (Gpio.tests test_section) /\
        List.length second = List.length (Gpio.tests test_section) /\
        (2 * Z.of_nat (List.length (Gpio.tests test_section)) <= INT_MAX ->
         Gpio.getTotalTestCount (Gpio.self st1)
         = Z.of_nat (List.length (Gpio.tests test_section)) /\
         Gpio.getTotalTestCount (Gpio.self st2)
         = 2 * Z.of_nat (List.length (Gpio.tests test_section)))) /\
  (forall (World : Type)
          (test_pwm_initialization test_pwm_frequency_setting
           test_pwm_duty_cycle_setting test_pwm_output_validation test_pwm_cleanup
           : World -> bool * World)
          (st : Pwm.State World),
      let once :=
        Pwm.run_pwm_comprehensive_tests test_pwm_initialization
          test_pwm_frequency_setting test_pwm_duty_cycle_setting
          test_pwm_output_validation test_pwm_cleanup st in
      let twice :=
        Pwm.run_pwm_comprehensive_tests test_pwm_initialization
          test_pwm_frequency_setting test_pwm_duty_cycle_setting
          test_pwm_output_validation test_pwm_cleanup once in
      Pwm.test_result_count once
      = PwmSpec.planned (Pwm.test_section_enabled st) (Pwm.test_group_enabled st) /\
      Pwm.test_result_count twice = Pwm.test_result_count once).
Proof.
  split; [|split].
  - intros World time_point now duration_ms any st0.
    now destruct (runSection_frame now duration_ms any st0) as (_ & _ & Hkeep).
  - intros World time_point now duration_ms section st test_section
           Hfind Hen Hret Hempty.
    exact (proj2 (@runSection_twice World time_point now duration_ms section st
                    test_section Hfind Hen Hret Hempty)).
  - intros World t_init t_freq t_duty t_valid t_clean st once twice.
    destruct (@full_run_stores_what_the_flags_plan_aux World t_init t_freq t_duty
                t_valid t_clean st) as (Hcount1 & Hsections & Hgroups).
    destruct (@full_run_stores_what_the_flags_plan_aux World t_init t_freq t_duty
                t_valid t_clean once) as (Hcount2 & _).
    subst once twice. split; [exact Hcount1|].
    rewrite Hcount2, Hcount1, Hsections, Hgroups. reflexivity.
Qed.

(** * Instances *)

Lemma counts_partition_results_witness :
  let g := Gpio.mkGpio (Gpio.initializeTestSections Sim.World)
             [Gpio.mkTestResult "a" true "" double_zero;
              Gpio.mkTestResult "b" false "boom" double_zero;
              Gpio.mkTestResult "c" true "" double_zero]
             Gpio.default_config in
  Gpio.getPassedTestCount g = GpioSpec.passed_among (Gpio.getResults g) /\
  Gpio.getFailedTestCount g = GpioSpec.failed_among (Gpio.getResults g) /\
  Gpio.getPassedTestCount g + Gpio.getFailedTestCount g = Gpio.getTotalTestCount g.
Proof.
  intros g. apply (@counts_partition_results Sim.World g).
  vm_compute. discriminate.
Defined.

Lemma setters_change_one_field_witness :
  Gpio.isSectionEnabled Gpio.BASIC_GPIO_OPERATIONS
    (Gpio.enableSection Gpio.BASIC_GPIO_OPERATIONS false (Gpio.construct_default Sim.World))
  = false /\
  Gpio.getSectionTestCount Gpio.BASIC_GPIO_OPERATIONS
    (Gpio.setSectionTimeout Gpio.BASIC_GPIO_OPERATIONS 5 (Gpio.construct_default Sim.World))
  = Gpio.getSectionTestCount Gpio.BASIC_GPIO_OPERATIONS (Gpio.construct_default Sim.World).
Proof.
  destruct (@setters_change_one_field Sim.World Gpio.BASIC_GPIO_OPERATIONS
              (Gpio.construct_default Sim.World) _ eq_refl) as [Henable Htimeout].
  destruct (Henable false) as (Hflag & _).
  destruct (Htimeout 5) as (_ & _ & Hcount & _).
  split; assumption.
Defined.

Lemma runSection_summary_counts_outcomes_witness :
  exists (outcomes : list Gpio.TestResult) (lines : list Gpio.Output)
         (st' : Gpio.State Sim.World),
    Gpio.runSection Sim.now Sim.duration_ms Gpio.BASIC_GPIO_OPERATIONS
      (Sim.one_section [Sim.passing; Sim.failing; Sim.failing; Sim.passing])
    = (Returned tt, st') /\
    Gpio.getResults (Gpio.self st') = [] ++ outcomes /\
    Gpio.console st'
    = [] ++ [Gpio.SectionBanner "Basic" "one section"] ++ lines
      ++ [Gpio.SectionSummary "Basic" 4
            (GpioSpec.passed_among outcomes) (GpioSpec.failed_among outcomes)
            (Gpio.success_rate (GpioSpec.passed_among outcomes) 4)] /\
    GpioSpec.passed_among outcomes + GpioSpec.failed_among outcomes = 4.
Proof.
  apply (@runSection_summary_counts_outcomes Sim.World Z Sim.now Sim.duration_ms
           Gpio.BASIC_GPIO_OPERATIONS
           (Sim.one_section [Sim.passing; Sim.failing; Sim.failing; Sim.passing])
           (Gpio.mkTestSection "Basic" "one section"
              [Sim.passing; Sim.failing; Sim.failing; Sim.passing] true 25)).
  - reflexivity.
  - reflexivity.
  - intros test [<-|[<-|[<-|[<-|[]]]]] w; eexists _, _; reflexivity.
  - vm_compute. discriminate.
Defined.

Lemma runSection_fault_ends_the_run_witness :
  exists (outcomes : list Gpio.TestResult) (st' : Gpio.State Sim.World),
    Gpio.runSection Sim.now Sim.duration_ms Gpio.BASIC_GPIO_OPERATIONS Sim.gpio_faulty
    = (Thrown, st') /\
    Gpio.getResults (Gpio.self st') = [] ++ outcomes /\
    List.length outcomes = 1%nat /\
    (forall rest : list Gpio.GpioTestSection,
        Gpio.runSelectedSections Sim.now Sim.duration_ms
          (Gpio.BASIC_GPIO_OPERATIONS :: rest) Sim.gpio_faulty = (Thrown, st')).
Proof.
  apply (@runSection_fault_ends_the_run Sim.World Z Sim.now Sim.duration_ms
           Gpio.BASIC_GPIO_OPERATIONS Sim.gpio_faulty
           (Gpio.mkTestSection "Basic" "one section"
              [Sim.passing; Sim.throwing; Sim.failing] true 25)
           [Sim.passing] [Sim.failing] Sim.throwing).
  - reflexivity.
  - reflexivity.
  - reflexivity.
  - intros test [<-|[]] w; eexists _, _; reflexivity.
  - intros w. eexists. reflexivity.
Defined.

Lemma runAllSections_runs_the_enabled_sections_witness :
  exists (outcomes : list Gpio.TestResult) (st' : Gpio.State Sim.World),
    Gpio.runAllSections Sim.now Sim.duration_ms Sim.gpio = (Returned tt, st') /\
    Gpio.getResults (Gpio.self st') = [] ++ outcomes /\
    Gpio.test_sections (Gpio.self st') = Gpio.test_sections (Gpio.self Sim.gpio) /\
    Gpio.invoked_in_order Sim.now Sim.duration_ms 0
      (flat_map (Gpio.selected_cases (Gpio.self Sim.gpio))
                (Gpio.swept_sections (Gpio.self Sim.gpio)))
      outcomes (Gpio.world st').
Proof.
  apply (@runAllSections_runs_the_enabled_sections Sim.World Z Sim.now Sim.duration_ms
           Sim.gpio).
  intros section test_section test _ Hfind Hin.
  exact (@fresh_cases_return Sim.World section test_section test Hfind Hin).
Defined.

Lemma runSection_tallies_its_cases_witness :
  exists (sr : Spi.SectionResult) (rs : list Spi.TestResult) (st' : Spi.State Sim.World),
    Spi.runSection Sim.micros Sim.spi_ok Sim.spi_no Sim.spi_ok Sim.spi_no Sim.spi_throw
      Sim.spi_ok Sim.spi_ok Sim.spi_ok Sim.spi_ok Sim.spi_ok Sim.spi_ok Sim.spi_ok
      Spi.SECTION_BASIC_OPERATIONS Sim.spi = (Returned tt, st') /\
    nth_error (Spi.sectionResults st') 1 = Some sr /\
    Spi.sectionName sr = "Basic Operations"%string /\
    Spi.results sr = Some rs /\
    List.length rs = 4%nat /\
    Spi.totalTests sr = Z.of_nat (List.length rs) /\
    Spi.passedTests sr = Z.of_nat (List.length (filter Spi.passed rs)) /\
    Spi.failedTests sr
    = Z.of_nat (List.length (filter (fun r => negb (Spi.passed r)) rs)) /\
    Spi.passedTests sr + Spi.failedTests sr = Spi.totalTests sr /\
    (forall j, j <> 1%nat ->
       nth_error (Spi.sectionResults st') j = nth_error (Spi.sectionResults Sim.spi) j).
Proof.
  apply (@runSection_tallies_its_cases Sim.World Sim.micros Sim.spi_ok Sim.spi_no
           Sim.spi_ok Sim.spi_no Sim.spi_throw Sim.spi_ok Sim.spi_ok Sim.spi_ok
           Sim.spi_ok Sim.spi_ok Sim.spi_ok Sim.spi_ok Spi.SECTION_BASIC_OPERATIONS Sim.spi).
  - cbv. split; [discriminate|reflexivity].
  - reflexivity.
  - intros _. eexists _, _. reflexivity.
Defined.

Lemma spi_section_passes_whatever_the_bus_returns_witness :
  exists st' : Spi.State (SpiBus.World SimHw.Hw),
    SimHw.runSpecificSection Spi.SECTION_BASIC_OPERATIONS SimHw.spi = (Returned tt, st') /\
    SpiBus.all_passed (Spi.sectionResults st') Spi.SECTION_BASIC_OPERATIONS /\
    (forall j, j <> 1%nat ->
       nth_error (Spi.sectionResults st') j = nth_error (Spi.sectionResults SimHw.spi) j).
Proof.
  apply (@spi_section_passes_whatever_the_bus_returns SimHw.Hw).
  - cbv. split; [discriminate|reflexivity].
  - reflexivity.
Defined.

Lemma spi_runAllSections_reports_13_passed_witness :
  exists (st' : Spi.State (SpiBus.World SimHw.Hw)) (total_duration : Z),
    SimHw.runAllSections SimHw.spi = (Returned tt, st') /\
    (forall section, 0 <= section < Spi.TOTAL_SECTIONS ->
       SpiBus.all_passed (Spi.sectionResults st') section) /\
    last (Spi.serial st') Spi.InvalidSection
    = Spi.OverallReport 13 13 0 (Spi.success_rate 13 13) total_duration
        (Spi.average_duration total_duration 13).
Proof.
  apply (@spi_runAllSections_reports_13_passed SimHw.Hw).
  reflexivity.
Defined.

Lemma summary_counts_the_printed_results_witness :
  exists outs : list Pwm.Output,
    Pwm.serial (Sim.run_pwm_comprehensive_tests Sim.pwm)
    = Pwm.serial Sim.pwm
      ++ Pwm.Starting :: outs ++ [PwmSpec.summary_of (PwmSpec.results_printed outs)] /\
    (List.length (PwmSpec.results_printed outs) <= 23)%nat.
Proof.
  apply (@summary_counts_the_printed_results Sim.World Sim.pwm_ok Sim.pwm_ok Sim.pwm_ok
           Sim.pwm_ok Sim.pwm_ok Sim.pwm).
  reflexivity.
Defined.

Lemma run_specific_test_sections_sets_the_flags_witness :
  let st' := Sim.run_specific_test_sections
               [Pwm.SECTION_STRESS_TESTS; 9; Pwm.SECTION_BASIC_PWM] Sim.pwm in
  (forall k, 0 <= k < Pwm.SECTION_MAX ->
     Pwm.flag (Pwm.test_section_enabled st') k
     = existsb (Z.eqb k) [Pwm.SECTION_STRESS_TESTS; 9; Pwm.SECTION_BASIC_PWM]) /\
  Pwm.test_group_enabled st' = Pwm.test_group_enabled Sim.pwm /\
  Pwm.test_result_count st'
  = PwmSpec.planned (Pwm.test_section_enabled st') (Pwm.test_group_enabled Sim.pwm).
Proof.
  apply (@run_specific_test_sections_sets_the_flags Sim.World Sim.pwm_ok Sim.pwm_ok
           Sim.pwm_ok Sim.pwm_ok Sim.pwm_ok
           [Pwm.SECTION_STRESS_TESTS; 9; Pwm.SECTION_BASIC_PWM] Sim.pwm).
  reflexivity.
Defined.

Lemma examples_agree_with_run_specific_test_sections_witness :
  snd (PwmExamples.example_run_basic_tests_only Sim.pwm_ok Sim.pwm_ok Sim.pwm_ok
         Sim.pwm_ok Sim.pwm_ok Sim.pwm)
  = Sim.run_specific_test_sections [Pwm.SECTION_BASIC_PWM] Sim.pwm /\
  snd (PwmExamples.example_run_frequency_and_duty_cycle_tests Sim.pwm_ok Sim.pwm_ok
         Sim.pwm_ok Sim.pwm_ok Sim.pwm_ok Sim.pwm)
  = Sim.run_specific_test_sections
      [Pwm.SECTION_FREQUENCY_TESTS; Pwm.SECTION_DUTY_CYCLE_TESTS] Sim.pwm.
Proof.
  apply (@examples_agree_with_run_specific_test_sections Sim.World Sim.pwm_ok Sim.pwm_ok
           Sim.pwm_ok Sim.pwm_ok Sim.pwm_ok Sim.pwm).
  reflexivity.
Defined.

Lemma run_basic_pwm_tests_on_an_accepting_driver_witness :
  Pwm.serial (SimHw.run_basic_pwm_tests SimHw.pwm)
  = [] ++ [Pwm.SectionHeader "Basic PWM Tests";
           Pwm.GroupHeader "Initialization Tests";
           Pwm.ResultLine (Pwm.mkTestResult true "PWM Timer Configuration" None 100);
           Pwm.GroupHeader "Functionality Tests";
           Pwm.ResultLine (Pwm.mkTestResult true "PWM Frequency Setting" None 150);
           Pwm.ResultLine (Pwm.mkTestResult true "PWM Duty Cycle Setting" None 120);
           Pwm.GroupHeader "Validation Tests";
           Pwm.ResultLine (Pwm.mkTestResult true "PWM Output Validation" None 200);
           Pwm.GroupHeader "Cleanup Tests";
           Pwm.ResultLine (Pwm.mkTestResult true "PWM Cleanup" None 80)] /\
  PwmLedc.pwm_initialized (Pwm.world (SimHw.run_basic_pwm_tests SimHw.pwm)) = false.
Proof.
  apply (@run_basic_pwm_tests_on_an_accepting_driver SimHw.Hw).
  - repeat split; intros; reflexivity.
  - reflexivity.
  - repeat constructor.
Defined.

Lemma run_basic_pwm_tests_without_initialization_witness :
  let st := Pwm.enable_test_group Pwm.GROUP_INITIALIZATION false SimHw.pwm in
  Pwm.serial (SimHw.run_basic_pwm_tests st)
  = [] ++ [Pwm.SectionHeader "Basic PWM Tests";
           Pwm.GroupHeader "Functionality Tests";
           Pwm.ResultLine (Pwm.mkTestResult false "PWM Frequency Setting"
                             (Some "Failed to set PWM frequency"%string) 150);
           Pwm.ResultLine (Pwm.mkTestResult false "PWM Duty Cycle Setting"
                             (Some "Failed to set PWM duty cycle"%string) 120);
           Pwm.GroupHeader "Validation Tests";
           Pwm.ResultLine (Pwm.mkTestResult false "PWM Output Validation"
                             (Some "PWM output validation failed"%string) 200);
           Pwm.GroupHeader "Cleanup Tests";
           Pwm.ResultLine (Pwm.mkTestResult true "PWM Cleanup" None 80)] /\
  Pwm.world (SimHw.run_basic_pwm_tests st) = Pwm.world st.
Proof.
  intros st.
  apply (@run_basic_pwm_tests_without_initialization SimHw.Hw SimHw.ESP_OK 13 0 0 0 0
           (fun _ => SimHw.accept) (fun _ => SimHw.accept) (fun _ _ _ => SimHw.accept)
           (fun _ _ _ => SimHw.accept) (fun _ _ => SimHw.accept)
           (fun _ _ _ => SimHw.accept) (fun _ h => h) st); reflexivity.
Defined.

Lemma example_custom_test_configuration_fails_validation_witness :
  Pwm.serial
    (snd (PwmExamples.example_custom_test_configuration SimHw.test_pwm_initialization
            SimHw.test_pwm_frequency_setting SimHw.test_pwm_duty_cycle_setting
            SimHw.test_pwm_output_validation SimHw.test_pwm_cleanup SimHw.pwm))
  = [] ++ [Pwm.Starting;
           Pwm.SectionHeader "Basic PWM Tests";
           Pwm.GroupHeader "Validation Tests";
           Pwm.ResultLine (Pwm.mkTestResult false "PWM Output Validation"
                             (Some "PWM output validation failed"%string) 200);
           Pwm.GroupHeader "Cleanup Tests";
           Pwm.ResultLine (Pwm.mkTestResult true "PWM Cleanup" None 80);
           Pwm.Skipping "Frequency tests"; Pwm.Skipping "Duty Cycle tests";
           Pwm.Skipping "Pin tests"; Pwm.Skipping "Performance tests";
           Pwm.Skipping "Error Handling tests"; Pwm.Skipping "Stress tests";
           Pwm.Summary 2 1 1
             (Some (float_mul (float_div (float_of_Z 1) (float_of_Z 2))
                              (float_of_Z 100)))].
Proof.
  apply (@example_custom_test_configuration_fails_validation SimHw.Hw SimHw.ESP_OK
           13 0 0 0 0 (fun _ => SimHw.accept) (fun _ => SimHw.accept)
           (fun _ _ _ => SimHw.accept) (fun _ _ _ => SimHw.accept)
           (fun _ _ => SimHw.accept) (fun _ _ _ => SimHw.accept) (fun _ h => h)
           SimHw.pwm); reflexivity.
Defined.

Lemma results_accumulate_unless_the_run_resets_witness :
  (exists (first second : list Gpio.TestResult) (st1 st2 : Gpio.State Sim.World),
      Gpio.runSection Sim.now Sim.duration_ms Gpio.BASIC_GPIO_OPERATIONS
        (Sim.one_section [Sim.passing; Sim.failing; Sim.passing]) = (Returned tt, st1) /\
      Gpio.runSection Sim.now Sim.duration_ms Gpio.BASIC_GPIO_OPERATIONS st1
        = (Returned tt, st2) /\
      Gpio.getResults (Gpio.self st1) = first /\
      Gpio.getResults (Gpio.self st2) = first ++ second /\
      List.length first = 3%nat /\
      List.length second = 3%nat /\
      Gpio.getTotalTestCount (Gpio.self st1) = 3 /\
      Gpio.getTotalTestCount (Gpio.self st2) = 6) /\
  Pwm.test_result_count (Sim.run_pwm_comprehensive_tests Sim.pwm)
  = PwmSpec.planned (Pwm.test_section_enabled Sim.pwm) (Pwm.test_group_enabled Sim.pwm) /\
  Pwm.test_result_count
    (Sim.run_pwm_comprehensive_tests (Sim.run_pwm_comprehensive_tests Sim.pwm))
  = Pwm.test_result_count (Sim.run_pwm_comprehensive_tests Sim.pwm).
Proof.
  destruct results_accumulate_unless_the_run_resets as (_ & Hgpio & Hpwm).
  split.
  - destruct (Hgpio Sim.World Z Sim.now Sim.duration_ms Gpio.BASIC_GPIO_OPERATIONS
                (Sim.one_section [Sim.passing; Sim.failing; Sim.passing])
                (Gpio.mkTestSection "Basic" "one section"
                   [Sim.passing; Sim.failing; Sim.passing] true 25))
      as (first & second & st1 & st2
          & Hrun1 & Hrun2 & Hfirst & Hboth & Hlen1 & Hlen2 & Hint).
    + reflexivity.
    + reflexivity.
    + intros test [<-|[<-|[<-|[]]]] w; eexists _, _; reflexivity.
    + reflexivity.
    + exists first, second, st1, st2.
      repeat (split; [assumption|]).
      apply Hint. vm_compute. discriminate.
  - exact (Hpwm Sim.World Sim.pwm_ok Sim.pwm_ok Sim.pwm_ok Sim.pwm_ok Sim.pwm_ok Sim.pwm).
Defined.

(** C7 as stated fails in both files it cites.  In the GPIO runner a
    section of three cases whose second case throws, run twice from an
    empty result list, leaves a total count of 2, not 6.  In the PWM file
    the 23 results of a full run are still 23 after a second full run,
    not 46. *)
Lemma total_count_does_not_always_double :
  Gpio.all_results (Gpio.self Sim.gpio_faulty) = [] /\
  option_map (fun s => (Gpio.enabled s, List.length (Gpio.tests s)))
    (StdMap.find Gpio.BASIC_GPIO_OPERATIONS (Gpio.test_sections (Gpio.self Sim.gpio_faulty)))
  = Some (true, 3%nat) /\
  Gpio.getTotalTestCount
    (Gpio.self
       (snd (Gpio.runSection Sim.now Sim.duration_ms Gpio.BASIC_GPIO_OPERATIONS
               (snd (Gpio.runSection Sim.now Sim.duration_ms
                       Gpio.BASIC_GPIO_OPERATIONS Sim.gpio_faulty))))) = 2 /\
  2 <> 2 * 3 /\
  Pwm.test_result_count Sim.pwm = 0 /\
  Pwm.test_result_count (Sim.run_pwm_comprehensive_tests Sim.pwm) = 23 /\
  Pwm.test_result_count
    (Sim.run_pwm_comprehensive_tests (Sim.run_pwm_comprehensive_tests Sim.pwm)) = 23 /\
  23 <> 2 * 23.
Proof.
  repeat split; try discriminate; vm_compute; reflexivity.
Qed.
